(** * Authentication and refresh-token subsystem of the finance tracker

    A shallow embedding of [AuthService] (src/finance/finance.service.ts,
    lines 751-1039) together with the parts of its collaborators that decide
    its behaviour: the two tables of the auth migration
    (supabase/migrations/20251003192917_create_auth_tables.sql), the
    [{data, error}] responses of the Supabase client
    (interfaces/supabase.interface), bcryptjs and the JWT service.

    Strings are modelled symbolically.  A string handled by the service is
    an ordinary literal, the compact form of a signed JWT, or a bcrypt hash
    string; signing and hashing are constructors, so a signature verifies
    only under the key that made it and a hash string records the cost, the
    salt and the bytes of the secret that bcrypt read.  Everything is
    executable.

    Besides [AuthService] the development embeds the JWT strategy
    (auth/jwt.strategy), the patterns and helpers of constants/regex over
    strings of UTF-16 code units, and the category methods of
    [FinanceService] over the [categories] table of the finance
    migration. *)

From Stdlib Require Import String ZArith List Bool Lia DecimalString.
Import ListNotations.
Open Scope string_scope.
Open Scope Z_scope.
Open Scope list_scope.

(** ** Strings: literals, JWTs and bcrypt hashes *)

(** The object given to [jwtService.sign]: [JWTPayload] carries [sub],
    [email], [firstName], [lastName]; the refresh payload carries [sub] and
    [type].  A claim that is absent reads as [undefined] in the code and is
    [None] here. *)
Record Payload := mkPayload {
  p_sub : string;
  p_type : option string;
  p_email : option string;
  p_firstName : option string;
  p_lastName : option string
}.

(** The decoded token: the payload plus the registered claims [iat] and
    [exp], both in seconds. *)
Record Claims := mkClaims {
  payload : Payload;
  iat : Z;
  exp : Z
}.

(** [Str s] is the literal whose UTF-8 bytes are [s]; [Jwt key c] is the
    compact form of the claims [c] signed under [key]; [Bcrypt rounds salt
    input] is the hash string bcrypt makes, with that cost and salt, of a
    string of which it reads [input]. *)
Inductive text : Type :=
| Str (s : string)
| Jwt (key : string) (c : Claims)
| Bcrypt (rounds : Z) (salt : string) (input : text).

Definition option_string_eq_dec (a b : option string) : {a = b} + {a <> b}.
Proof. decide equality; apply string_dec. Defined.

Definition Payload_eq_dec (a b : Payload) : {a = b} + {a <> b}.
Proof. decide equality; first [apply option_string_eq_dec | apply string_dec]. Defined.

Definition Claims_eq_dec (a b : Claims) : {a = b} + {a <> b}.
Proof. decide equality; first [apply Z.eq_dec | apply Payload_eq_dec]. Defined.

Definition text_eq_dec (a b : text) : {a = b} + {a <> b}.
Proof.
  decide equality; first [apply Z.eq_dec | apply string_dec | apply Claims_eq_dec].
Defined.

Definition text_eqb (a b : text) : bool :=
  if text_eq_dec a b then true else false.

(** *** The compact form of a JWT *)

Definition byte (a : Ascii.ascii) : Z := Z.of_nat (Ascii.nat_of_ascii a).
Definition char (n : Z) : string := String (Ascii.ascii_of_nat (Z.to_nat n)) EmptyString.

Definition base64url_alphabet : string :=
  "ABCDEFGHIJKLMNOPQRSTUVWXYZabcdefghijklmnopqrstuvwxyz0123456789-_".

(** The character for the low six bits of [n]. *)
Definition sextet (n : Z) : string :=
  match String.get (Z.to_nat (n mod 64)) base64url_alphabet with
  | Some a => String a EmptyString
  | None => EmptyString
  end.

(** Base64url without padding: four characters for three bytes, three for
    two left over and two for one. *)
Fixpoint base64url (s : string) : string :=
  match s with
  | String a (String b (String c rest)) =>
      let n := byte a * 65536 + byte b * 256 + byte c in
      (sextet (n / 262144) ++ sextet (n / 4096) ++ sextet (n / 64) ++ sextet n
       ++ base64url rest)%string
  | String a (String b EmptyString) =>
      let n := byte a * 65536 + byte b * 256 in
      (sextet (n / 262144) ++ sextet (n / 4096) ++ sextet (n / 64))%string
  | String a EmptyString =>
      let n := byte a * 65536 in
      (sextet (n / 262144) ++ sextet (n / 4096))%string
  | EmptyString => EmptyString
  end.

Definition hex_digit (n : Z) : string :=
  match String.get (Z.to_nat (n mod 16)) "0123456789abcdef" with
  | Some a => String a EmptyString
  | None => EmptyString
  end.

(** [JSON.stringify] of a string: the double quote (34), the backslash (92)
    and the control characters are escaped, every other byte is kept. *)
Definition escape_byte (a : Ascii.ascii) : string :=
  let n := byte a in
  if n =? 34 then (char 92 ++ char 34)%string
  else if n =? 92 then (char 92 ++ char 92)%string
  else if n =? 8 then (char 92 ++ "b")%string
  else if n =? 9 then (char 92 ++ "t")%string
  else if n =? 10 then (char 92 ++ "n")%string
  else if n =? 12 then (char 92 ++ "f")%string
  else if n =? 13 then (char 92 ++ "r")%string
  else if n <? 32 then (char 92 ++ "u00" ++ hex_digit (n / 16) ++ hex_digit n)%string
  else String a EmptyString.

Fixpoint escape (s : string) : string :=
  match s with
  | EmptyString => EmptyString
  | String a rest => (escape_byte a ++ escape rest)%string
  end.

Definition json_string (s : string) : string := (char 34 ++ escape s ++ char 34)%string.
Definition json_number (n : Z) : string := NilZero.string_of_int (Z.to_int n).

(** One member of an object, with the comma before it; a claim that is
    [undefined] is left out. *)
Definition member (key value : string) : string :=
  ("," ++ json_string key ++ ":" ++ value)%string.
Definition optional_member (key : string) (value : option string) : string :=
  match value with
  | Some v => member key (json_string v)
  | None => EmptyString
  end.

(** The header of a token signed with a shared secret. *)
Definition header_json : string :=
  ("{" ++ json_string "alg" ++ ":" ++ json_string "HS256"
   ++ member "typ" (json_string "JWT") ++ "}")%string.

(** The payload as [jsonwebtoken] serialises it: the claims of the object
    given to [sign] in the order the service writes them ([sub], [email],
    [firstName], [lastName] for an access token, [sub], [type] for a
    refresh token), then [iat] and [exp]. *)
Definition payload_json (c : Claims) : string :=
  ("{" ++ json_string "sub" ++ ":" ++ json_string (p_sub (payload c))
   ++ optional_member "email" (p_email (payload c))
   ++ optional_member "firstName" (p_firstName (payload c))
   ++ optional_member "lastName" (p_lastName (payload c))
   ++ optional_member "type" (p_type (payload c))
   ++ member "iat" (json_number (iat c))
   ++ member "exp" (json_number (exp c)) ++ "}")%string.

(** The compact form up to the signature, which follows after another
    dot. *)
Definition signing_input (c : Claims) : string :=
  (base64url header_json ++ "." ++ base64url (payload_json c))%string.

(** *** bcryptjs *)

(** bcryptjs appends a zero byte to the bytes of the string and its key
    schedule reads seventy-two bytes of the result, starting again at the
    first byte whenever it reaches the end.  [key_bytes n s rest] are the next
    [n] bytes read of [s] when [rest] is what is left before the end. *)
Fixpoint key_bytes (n : nat) (s rest : string) : string :=
  match n with
  | O => EmptyString
  | S n' =>
      match rest with
      | EmptyString => String Ascii.zero (key_bytes n' s s)
      | String b rest' => String b (key_bytes n' s rest')
      end
  end.

(** What bcrypt reads of a string.  Of a literal of seventy-two bytes or
    more it reads the first seventy-two.  The signing input of a JWT has at
    least seventy-two bytes, so the signature is never read.  A hash string
    has sixty bytes, none of them zero, and is read whole. *)
Definition bcrypt_input (s : text) : text :=
  match s with
  | Str bytes => Str (key_bytes 72 bytes bytes)
  | Jwt _ c => Str (key_bytes 72 (signing_input c) (signing_input c))
  | Bcrypt _ _ _ => s
  end.
Arguments bcrypt_input : simpl never.

(** [bcrypt.hash(s, rounds)] draws a random salt; the salt drawn is the
    third argument.  The resulting string carries the cost and the salt, and
    depends on [s] through the bytes bcrypt reads of it.  The hash is ideal
    beyond that: two strings of which different bytes are read hash
    differently. *)
Definition bcrypt_hash (s : text) (rounds : Z) (salt : string) : text :=
  Bcrypt rounds salt (bcrypt_input s).

(** [bcrypt.compare(s, hash)] re-hashes [s] with the cost and salt read from
    [hash] and compares the two strings; a string that is not a bcrypt hash
    compares false. *)
Definition bcrypt_compare (s hash : text) : bool :=
  match hash with
  | Bcrypt rounds salt _ => text_eqb (bcrypt_hash s rounds salt) hash
  | _ => false
  end.

(** *** Exceptions *)

Inductive exn : Type :=
| ConflictException (msg : string)
| BadRequestException (msg : string)
| UnauthorizedException (msg : string)
| JsonWebTokenError (msg : string)
| TokenExpiredError
| TypeError.

Inductive Res (A : Type) : Type :=
| Ok (a : A)
| Throw (e : exn).
Arguments Ok {A} a.
Arguments Throw {A} e.

(** *** The JWT service *)

Record JwtService := mkJwtService { secret : string }.

(** [sign(payload, {expiresIn})] at clock [now] (milliseconds): [iat] is the
    clock in whole seconds and [exp] is [iat] plus the lifetime. *)
Definition sign (jwtService : JwtService) (p : Payload) (expiresIn : Z) (now : Z) : text :=
  let timestamp := now / 1000 in
  Jwt (secret jwtService) (mkClaims p timestamp (timestamp + expiresIn)).

(** [verify(token)]: a string that is not a JWT is malformed, a JWT signed
    under another key has an invalid signature, and a JWT whose [exp] is not
    after the clock is expired; otherwise the claims are returned. *)
Definition verify (jwtService : JwtService) (now : Z) (token : text) : Res Claims :=
  match token with
  | Jwt key c =>
      if negb (String.eqb key (secret jwtService)) then
        Throw (JsonWebTokenError "invalid signature")
      else if exp c <=? now / 1000 then Throw TokenExpiredError
      else Ok c
  | _ => Throw (JsonWebTokenError "jwt malformed")
  end.

(** ** The store *)

(** Rows of the two tables of the auth migration.  Timestamps are
    milliseconds since the epoch. *)
Record UserRow := mkUserRow {
  u_id : string;
  u_email : string;
  u_password : text;
  u_first_name : string;
  u_last_name : string;
  u_email_verified : bool;
  u_created_at : Z;
  u_updated_at : Z
}.

Record RefreshTokenRecord := mkRefreshTokenRecord {
  t_id : string;
  t_user_id : string;
  t_token_hash : text;
  t_expires_at : Z;
  t_created_at : Z
}.

Record DB := mkDB {
  users : list UserRow;
  refresh_tokens : list RefreshTokenRecord
}.

(** The columns read by [select('id, email, first_name, last_name')]. *)
Record SupabaseUserSelect := mkUserSelect {
  id : string;
  email : string;
  first_name : string;
  last_name : string
}.

Definition user_select (u : UserRow) : SupabaseUserSelect :=
  mkUserSelect (u_id u) (u_email u) (u_first_name u) (u_last_name u).

Record SupabaseError := mkError { message : string }.

Record SupabaseResponse (T : Type) := mkResponse {
  data : option T;
  error : option SupabaseError
}.
Arguments mkResponse {T} data error.
Arguments data {T} s.
Arguments error {T} s.

Definition succeed {T} (x : T) : SupabaseResponse T := mkResponse (Some x) None.
Definition fail {T} (msg : string) : SupabaseResponse T :=
  mkResponse None (Some (mkError msg)).

(** The five queries the service sends. *)
Inductive Query : Type :=
| SelectUsers
| InsertUsers
| SelectRefreshTokens
| UpsertRefreshTokens
| DeleteRefreshTokens.

(** What one call of the service reads from outside the store: the clock
    (read once, a call being short against the one-second grain of the
    tokens), the salts bcrypt draws, the identifiers the tables generate for
    new rows, and the errors the store reports for reasons other than the
    data (the client reports every failure in the [error] field and never
    throws). *)
Record Env := mkEnv {
  now : Z;
  salt_password : string;
  salt_store : string;
  salt_revoke : string;
  uuid_users : string;
  uuid_refresh_tokens : string;
  storage_error : Query -> option SupabaseError
}.

(** ** Asynchronous code: state and exceptions *)

(** A computation runs on the store and either returns or throws; what it
    wrote before throwing stays written. *)
Definition M (A : Type) : Type := DB -> Res A * DB.

Definition ret {A} (a : A) : M A := fun db => (Ok a, db).
Definition throw {A} (e : exn) : M A := fun db => (Throw e, db).
Definition bind {A B} (m : M A) (k : A -> M B) : M B :=
  fun db =>
    match m db with
    | (Ok a, db') => k a db'
    | (Throw e, db') => (Throw e, db')
    end.
Definition try_catch {A} (m : M A) (handler : exn -> M A) : M A :=
  fun db =>
    match m db with
    | (Ok a, db') => (Ok a, db')
    | (Throw e, db') => handler e db'
    end.
Definition lift {A} (r : Res A) : M A := fun db => (r, db).

Declare Scope async_scope.
Delimit Scope async_scope with async.
Notation "x <- m ;; k" := (bind m (fun x => k))
  (at level 100, m at next level, right associativity) : async_scope.
Notation "m ;;; k" := (bind m (fun _ => k))
  (at level 100, right associativity) : async_scope.
Open Scope async_scope.

Definition truthy {T} (o : option T) : bool :=
  match o with Some _ => true | None => false end.

(** ** The Supabase client *)

(** [.single()]: exactly one row, or an error. *)
Definition single {T} (rows : list T) : SupabaseResponse T :=
  match rows with
  | [r] => succeed r
  | _ => fail "JSON object requested, multiple (or no) rows returned"
  end.

Section Client.
Variable env : Env.

(** [.from(table).select(columns).eq(...)...single()] *)
Definition select_single {Row T} (q : Query) (table : DB -> list Row)
    (columns : Row -> T) (filters : Row -> bool) : M (SupabaseResponse T) :=
  fun db =>
    match storage_error env q with
    | Some e => (Ok (mkResponse None (Some e)), db)
    | None => (Ok (single (map columns (filter filters (table db)))), db)
    end.

(** [.from('users').insert([...]).select(columns).single()]: [id] and
    [email_verified] take their defaults; [id] is the primary key and
    [email] is UNIQUE. *)
Definition insert_users {T} (email_ : string) (password_ : text)
    (first_name_ last_name_ : string) (created_at_ updated_at_ : Z)
    (columns : UserRow -> T) : M (SupabaseResponse T) :=
  fun db =>
    match storage_error env InsertUsers with
    | Some e => (Ok (mkResponse None (Some e)), db)
    | None =>
        let row := mkUserRow (uuid_users env) email_ password_ first_name_
                     last_name_ false created_at_ updated_at_ in
        if existsb (fun u => String.eqb (u_id u) (u_id row)) (users db) then
          (Ok (fail "duplicate key value violates unique constraint users_pkey"), db)
        else if existsb (fun u => String.eqb (u_email u) email_) (users db) then
          (Ok (fail "duplicate key value violates unique constraint users_email_key"), db)
        else
          (Ok (succeed (columns row)),
           mkDB (users db ++ [row]) (refresh_tokens db))
    end.

(** [.from('refresh_tokens').upsert([...])] with no conflict target and no
    [id] in the values: the row takes the default [id], and the conflict
    is resolved on the primary key.  A row with that [id] is replaced,
    otherwise the row is added.  [user_id] references [users(id)] and
    [token_hash] is UNIQUE. *)
Definition upsert_refresh_tokens (user_id_ : string) (token_hash_ : text)
    (expires_at_ created_at_ : Z) : M (SupabaseResponse unit) :=
  fun db =>
    match storage_error env UpsertRefreshTokens with
    | Some e => (Ok (mkResponse None (Some e)), db)
    | None =>
        let row := mkRefreshTokenRecord (uuid_refresh_tokens env) user_id_
                     token_hash_ expires_at_ created_at_ in
        let same_id := fun r => String.eqb (t_id r) (t_id row) in
        let others := filter (fun r => negb (same_id r)) (refresh_tokens db) in
        if negb (existsb (fun u => String.eqb (u_id u) user_id_) (users db)) then
          (Ok (fail "insert or update violates foreign key constraint refresh_tokens_user_id_fkey"), db)
        else if existsb (fun r => text_eqb (t_token_hash r) token_hash_) others then
          (Ok (fail "duplicate key value violates unique constraint refresh_tokens_token_hash_key"), db)
        else if existsb same_id (refresh_tokens db) then
          (Ok (succeed tt),
           mkDB (users db)
                (map (fun r => if same_id r then row else r) (refresh_tokens db)))
        else
          (Ok (succeed tt), mkDB (users db) (refresh_tokens db ++ [row]))
    end.

(** [.from('refresh_tokens').delete().eq(...).eq(...)]: the rows matching
    every filter go; matching none is not an error. *)
Definition delete_refresh_tokens (filters : RefreshTokenRecord -> bool)
    : M (SupabaseResponse unit) :=
  fun db =>
    match storage_error env DeleteRefreshTokens with
    | Some e => (Ok (mkResponse None (Some e)), db)
    | None =>
        (Ok (succeed tt),
         mkDB (users db) (filter (fun r => negb (filters r)) (refresh_tokens db)))
    end.
End Client.

(** ** The DTOs *)

Record SignUpDto := mkSignUpDto {
  su_email : string;
  su_password : text;
  su_firstName : string;
  su_lastName : string
}.

Record SignInDto := mkSignInDto {
  si_email : string;
  si_password : text
}.

Record RefreshTokenDto := mkRefreshTokenDto { rt_refreshToken : text }.

Record AuthUserDto := mkAuthUserDto {
  user_id : string;
  user_email : string;
  user_firstName : string;
  user_lastName : string
}.

Record AuthResponseDto := mkAuthResponseDto {
  accessToken : text;
  refreshToken : text;
  user : AuthUserDto
}.

Record RefreshResponse := mkRefreshResponse {
  access : text;
  new_refreshToken : text
}.

(** ** AuthService *)

Definition saltRounds : Z := 12.
(** ['15m'] and ['7d'], in seconds. *)
Definition accessTokenExpiresIn : Z := 15 * 60.
Definition refreshTokenExpiresIn : Z := 7 * 24 * 60 * 60.

(** The two payloads the service signs. *)
Definition access_payload (u : SupabaseUserSelect) : Payload :=
  mkPayload (id u) None (Some (email u)) (Some (first_name u)) (Some (last_name u)).

Definition refresh_payload (userId : string) : Payload :=
  mkPayload userId (Some "refresh") None None None.

(** [decoded.type === 'refresh'] *)
Definition is_refresh (type : option string) : bool :=
  match type with
  | Some s => String.eqb s "refresh"
  | None => false
  end.

Section AuthService.
Variable jwtService : JwtService.
Variable env : Env.

(** [storeRefreshToken] (lines 972-991).  The response of the upsert is
    dropped. *)
Definition storeRefreshToken (userId : string) (refreshToken_ : text) : M unit :=
  let hashedToken := bcrypt_hash refreshToken_ 8 (salt_store env) in
  _ <- upsert_refresh_tokens env userId hashedToken
         (now env + 7 * 24 * 60 * 60 * 1000) (now env) ;;
  ret tt.

(** [validateRefreshToken] (lines 993-1011). *)
Definition validateRefreshToken (userId : string) (refreshToken_ : text) : M bool :=
  r <- select_single env SelectRefreshTokens refresh_tokens
         (fun r => (t_token_hash r, t_expires_at r))
         (fun r => String.eqb (t_user_id r) userId
                   && (now env <=? t_expires_at r)) ;;
  if truthy (error r) || negb (truthy (data r)) then ret false
  else
    match data r with
    | Some tokenRecord => ret (bcrypt_compare refreshToken_ (fst tokenRecord))
    | None => throw TypeError
    end.

(** [revokeRefreshToken] (lines 1013-1023).  The token is hashed anew, with
    a salt of its own; the response of the delete is dropped. *)
Definition revokeRefreshToken (refreshToken_ : text) : M unit :=
  decoded <- lift (verify jwtService (now env) refreshToken_) ;;
  let hashedToken := bcrypt_hash refreshToken_ 8 (salt_revoke env) in
  _ <- delete_refresh_tokens env
         (fun r => String.eqb (t_user_id r) (p_sub (payload decoded))
                   && text_eqb (t_token_hash r) hashedToken) ;;
  ret tt.

(** [signUp] (lines 761-843). *)
Definition signUp (signUpDto : SignUpDto) : M AuthResponseDto :=
  let email_ := su_email signUpDto in
  let password_ := su_password signUpDto in
  let firstName_ := su_firstName signUpDto in
  let lastName_ := su_lastName signUpDto in
  try_catch
    (let hashedPassword := bcrypt_hash password_ saltRounds (salt_password env) in
     existing <- select_single env SelectUsers users u_id
                   (fun u => String.eqb (u_email u) email_) ;;
     if truthy (data existing) && negb (truthy (error existing)) then
       throw (ConflictException "User with this email already exists")
     else
       inserted <- insert_users env email_ hashedPassword firstName_ lastName_
                     (now env) (now env) user_select ;;
       match error inserted with
       | Some insertError =>
           throw (BadRequestException
                    ("Failed to create user: " ++ message insertError)%string)
       | None =>
           match data inserted with
           | None => throw TypeError
           | Some newUser =>
               let accessToken_ :=
                 sign jwtService (access_payload newUser) accessTokenExpiresIn (now env) in
               let refreshToken_ :=
                 sign jwtService (refresh_payload (id newUser)) refreshTokenExpiresIn (now env) in
               storeRefreshToken (id newUser) refreshToken_ ;;;
               ret (mkAuthResponseDto accessToken_ refreshToken_
                      (mkAuthUserDto (id newUser) (email newUser)
                         (first_name newUser) (last_name newUser)))
           end
       end)
    (fun e =>
       match e with
       | ConflictException _ | BadRequestException _ => throw e
       | _ => throw (BadRequestException "Sign up failed")
       end).

(** [signIn] (lines 845-901).  The look-up reads the password column as
    well, so the whole row is kept. *)
Definition signIn (signInDto : SignInDto) : M AuthResponseDto :=
  let email_ := si_email signInDto in
  let password_ := si_password signInDto in
  try_catch
    (found <- select_single env SelectUsers users (fun u => u)
                (fun u => String.eqb (u_email u) email_) ;;
     if truthy (error found) || negb (truthy (data found)) then
       throw (UnauthorizedException "Invalid credentials")
     else
       match data found with
       | None => throw TypeError
       | Some user_ =>
           let isPasswordValid := bcrypt_compare password_ (u_password user_) in
           if negb isPasswordValid then
             throw (UnauthorizedException "Invalid credentials")
           else
             let accessToken_ :=
               sign jwtService (access_payload (user_select user_))
                 accessTokenExpiresIn (now env) in
             let refreshToken_ :=
               sign jwtService (refresh_payload (u_id user_))
                 refreshTokenExpiresIn (now env) in
             storeRefreshToken (u_id user_) refreshToken_ ;;;
             ret (mkAuthResponseDto accessToken_ refreshToken_
                    (mkAuthUserDto (u_id user_) (u_email user_)
                       (u_first_name user_) (u_last_name user_)))
       end)
    (fun e =>
       match e with
       | UnauthorizedException _ => throw e
       | _ => throw (UnauthorizedException "Sign in failed")
       end).

(** [refreshTokens] (lines 903-962). *)
Definition refreshTokens (refreshTokenDto : RefreshTokenDto) : M RefreshResponse :=
  let refreshToken_ := rt_refreshToken refreshTokenDto in
  try_catch
    (decoded <- lift (verify jwtService (now env) refreshToken_) ;;
     if negb (is_refresh (p_type (payload decoded))) then
       throw (UnauthorizedException "Invalid refresh token")
     else
       isValidToken <- validateRefreshToken (p_sub (payload decoded)) refreshToken_ ;;
       if negb isValidToken then
         throw (UnauthorizedException "Invalid refresh token")
       else
         found <- select_single env SelectUsers users user_select
                    (fun u => String.eqb (u_id u) (p_sub (payload decoded))) ;;
         if truthy (error found) || negb (truthy (data found)) then
           throw (UnauthorizedException "User not found")
         else
           match data found with
           | None => throw TypeError
           | Some user_ =>
               let accessToken_ :=
                 sign jwtService (access_payload user_) accessTokenExpiresIn (now env) in
               let newRefreshToken :=
                 sign jwtService (refresh_payload (id user_))
                   refreshTokenExpiresIn (now env) in
               storeRefreshToken (id user_) newRefreshToken ;;;
               revokeRefreshToken refreshToken_ ;;;
               ret (mkRefreshResponse accessToken_ newRefreshToken)
           end)
    (fun _ => throw (UnauthorizedException "Token refresh failed")).

(** [logout] (lines 964-970). *)
Definition logout (refreshToken_ : text) : M unit :=
  try_catch (revokeRefreshToken refreshToken_)
    (fun _ => throw (UnauthorizedException "Logout failed")).

(** [validateUser] (lines 1025-1038). *)
Definition validateUser (p : Payload) : M (option SupabaseUserSelect) :=
  found <- select_single env SelectUsers users user_select
             (fun u => String.eqb (u_id u) (p_sub p)) ;;
  if truthy (error found) || negb (truthy (data found)) then ret None
  else ret (data found).
End AuthService.

(** * Vocabulary of the properties *)

(** How many times a string has been hashed. *)
Fixpoint text_size (t : text) : nat :=
  match t with
  | Bcrypt _ _ plain => S (text_size plain)
  | _ => O
  end.

(** The salt a hash string carries. *)
Definition hash_salt (h : text) : option string :=
  match h with
  | Bcrypt _ salt _ => Some salt
  | _ => None
  end.

(** The cost a hash string carries. *)
Definition hash_rounds (h : text) : option Z :=
  match h with
  | Bcrypt rounds _ _ => Some rounds
  | _ => None
  end.

(** No byte of the string is zero. *)
Fixpoint zero_free (s : string) : bool :=
  match s with
  | EmptyString => true
  | String b rest => negb (Ascii.eqb b Ascii.zero) && zero_free rest
  end.

(** The records [validateRefreshToken] selects: those of the user whose
    expiry is not before the clock. *)
Definition live_records (env : Env) (userId : string) (db : DB)
    : list RefreshTokenRecord :=
  filter (fun r => String.eqb (t_user_id r) userId && (now env <=? t_expires_at r))
         (refresh_tokens db).

(** [salt] is the salt of no stored token hash. *)
Definition salt_is_new (salt : string) (db : DB) : bool :=
  forallb (fun r => match hash_salt (t_token_hash r) with
                    | Some s => negb (String.eqb s salt)
                    | None => true
                    end)
          (refresh_tokens db).

(** The row an upsert writes. *)
Definition stored_record (env : Env) (userId : string) (tok : text)
    : RefreshTokenRecord :=
  mkRefreshTokenRecord (uuid_refresh_tokens env) userId
    (bcrypt_hash tok 8 (salt_store env))
    (now env + 7 * 24 * 60 * 60 * 1000) (now env).

(** What [validateRefreshToken] answers, read off the store. *)
Definition token_accepted (env : Env) (userId : string) (tok : text) (db : DB) : bool :=
  match storage_error env SelectRefreshTokens, live_records env userId db with
  | None, [r] => bcrypt_compare tok (t_token_hash r)
  | _, _ => false
  end.

(** The row [signUp] inserts and the response it builds from it. *)
Definition new_user (env : Env) (dto : SignUpDto) : UserRow :=
  mkUserRow (uuid_users env) (su_email dto)
    (bcrypt_hash (su_password dto) saltRounds (salt_password env))
    (su_firstName dto) (su_lastName dto) false (now env) (now env).

Definition auth_response (js : JwtService) (env : Env) (u : UserRow) : AuthResponseDto :=
  mkAuthResponseDto
    (sign js (access_payload (user_select u)) accessTokenExpiresIn (now env))
    (sign js (refresh_payload (u_id u)) refreshTokenExpiresIn (now env))
    (mkAuthUserDto (u_id u) (u_email u) (u_first_name u) (u_last_name u)).

(** The rows [.eq('email', e)] and [.eq('id', i)] select from [users]. *)
Definition with_email (e : string) (db : DB) : list UserRow :=
  filter (fun u => String.eqb (u_email u) e) (users db).

Definition with_id (i : string) (db : DB) : list UserRow :=
  filter (fun u => String.eqb (u_id u) i) (users db).

(** The pair [refreshTokens] returns for user [u]. *)
Definition refresh_response (js : JwtService) (env : Env) (u : SupabaseUserSelect)
    : RefreshResponse :=
  mkRefreshResponse
    (sign js (access_payload u) accessTokenExpiresIn (now env))
    (sign js (refresh_payload (id u)) refreshTokenExpiresIn (now env)).

(** The one exception [refreshTokens] lets out. *)
Definition refresh_failed {A} : Res A :=
  Throw (UnauthorizedException "Token refresh failed").

(** The ways [verify] rejects a presented string. *)
Definition malformed (tok : text) : bool :=
  match tok with
  | Jwt _ _ => false
  | _ => true
  end.

Definition bad_signature (js : JwtService) (tok : text) : bool :=
  match tok with
  | Jwt key _ => negb (String.eqb key (secret js))
  | _ => false
  end.

Definition expired (env : Env) (tok : text) : bool :=
  match tok with
  | Jwt _ c => exp c <=? now env / 1000
  | _ => false
  end.

(** The [type] claim of a presented string, [undefined] when it has none. *)
Definition type_claim (tok : text) : option string :=
  match tok with
  | Jwt _ c => p_type (payload c)
  | _ => None
  end.

(** All the refresh-token records of a user, expired or not. *)
Definition records_of (userId : string) (db : DB) : list RefreshTokenRecord :=
  filter (fun r => String.eqb (t_user_id r) userId) (refresh_tokens db).

(** ** A concrete run *)

Definition ex_jwt : JwtService := mkJwtService "signing-secret".

(** A call at clock [t] whose salts and identifiers are tagged [n], with a
    store that reports no error of its own. *)
Definition ex_env (t : Z) (n : string) : Env :=
  mkEnv t ("pw-salt-" ++ n)%string ("store-salt-" ++ n)%string
    ("revoke-salt-" ++ n)%string ("user-" ++ n)%string ("token-" ++ n)%string
    (fun _ => None).

Definition ex_db0 : DB := mkDB [] [].

Definition ex_signUpDto : SignUpDto :=
  mkSignUpDto "a@b.com" (Str "Str0ng!Passw0rd") "A" "B".

(** Sign-up at one second. *)
Definition ex_response1 : AuthResponseDto :=
  auth_response ex_jwt (ex_env 1000 "1") (new_user (ex_env 1000 "1") ex_signUpDto).
Definition ex_token1 : text := refreshToken ex_response1.
Definition ex_db1 : DB := snd (signUp ex_jwt (ex_env 1000 "1") ex_signUpDto ex_db0).

(** Refresh with the sign-up token at five seconds. *)
Definition ex_response2 : RefreshResponse :=
  refresh_response ex_jwt (ex_env 5000 "2") (mkUserSelect "user-1" "a@b.com" "A" "B").
Definition ex_token2 : text := new_refreshToken ex_response2.
Definition ex_db2 : DB :=
  snd (refreshTokens ex_jwt (ex_env 5000 "2") (mkRefreshTokenDto ex_token1) ex_db1).

(** A call at five seconds during which the store rejects the upsert. *)
Definition ex_env_upsert_fails : Env :=
  mkEnv 5000 "pw-salt-2" "store-salt-2" "revoke-salt-2" "user-2" "token-2"
    (fun q => match q with
              | UpsertRefreshTokens => Some (mkError "connection refused")
              | _ => None
              end).

(** Sign-in of the same user at three seconds, after the sign-up. *)
Definition ex_db_signedIn : DB :=
  snd (signIn ex_jwt (ex_env 3000 "2")
         (mkSignInDto "a@b.com" (Str "Str0ng!Passw0rd")) ex_db1).



(** A call at five seconds in which the salt drawn for the revocation is
    the salt of the record the sign-up stored. *)
Definition ex_env_same_salt : Env :=
  mkEnv 5000 "pw-salt-2" "store-salt-2" "store-salt-1" "user-2" "token-2"
    (fun _ => None).

(** A password of seventy-five bytes and another that differs from it in
    the last three. *)
Definition ex_seventy_two : string :=
  "Str0ng!Passw0rd&Str0ng!Passw0rd&Str0ng!Passw0rd&Str0ng!Passw0rd&Str0ng!P".
Definition ex_long_password : string := (ex_seventy_two ++ "a55")%string.
Definition ex_other_password : string := (ex_seventy_two ++ "ASS")%string.

Definition ex_long_signUpDto : SignUpDto :=
  mkSignUpDto "long@b.com" (Str ex_long_password) "A" "B".
Definition ex_db_long : DB :=
  snd (signUp ex_jwt (ex_env 1000 "1") ex_long_signUpDto ex_db0).
Definition ex_other_signInDto : SignInDto :=
  mkSignInDto "long@b.com" (Str ex_other_password).

(** ** JwtStrategy *)

(** [validate] of the JWT strategy (auth/jwt.strategy, lines 26-38):
    the user is looked up again by the subject of the payload and the
    profile is built from the stored row. *)
Definition validate (env : Env) (p : Payload) : M (option AuthUserDto) :=
  user_ <- validateUser env p ;;
  match user_ with
  | None => ret None
  | Some u => ret (Some (mkAuthUserDto (id u) (email u) (first_name u) (last_name u)))
  end.

(** The strategy as configured by its constructor ([jwtFromRequest] the
    bearer token, [ignoreExpiration: false], [secretOrKey] the signing
    secret): a request with no bearer token, or with one that does not
    verify, is rejected; otherwise the decoded payload goes to [validate],
    and a null result rejects the request too.  [None] is a rejected
    request, [Some u] is the [req.user] of an accepted one. *)
Definition authenticate (jwtService : JwtService) (env : Env) (bearer : option text)
    : M (option AuthUserDto) :=
  match bearer with
  | None => ret None
  | Some token =>
      match verify jwtService (now env) token with
      | Throw _ => ret None
      | Ok decoded => validate env (payload decoded)
      end
  end.

(** The profile of a stored user. *)
Definition profile (u : UserRow) : AuthUserDto :=
  mkAuthUserDto (u_id u) (u_email u) (u_first_name u) (u_last_name u).

(** The primary key of [users] holds: no two rows share an [id]. *)
Definition users_pkey (db : DB) : Prop := NoDup (map u_id (users db)).

(** [email] is UNIQUE in [users]. *)
Definition users_email_key (db : DB) : Prop := NoDup (map u_email (users db)).

(** [user_id] of [refresh_tokens] references [users(id)]. *)
Definition refresh_tokens_fkey (db : DB) : Prop :=
  forall r, In r (refresh_tokens db) ->
            existsb (fun u => String.eqb (u_id u) (t_user_id r)) (users db) = true.

(** * Regular expressions of constants/regex *)

(** A JavaScript string is a sequence of UTF-16 code units, and a regular
    expression without the [u] flag matches code unit by code unit. *)
Definition code_unit : Type := Z.
Definition jsstring : Type := list code_unit.

Definition code (a : Ascii.ascii) : code_unit := Z.of_nat (Ascii.nat_of_ascii a).

(** An ASCII literal as a JavaScript string. *)
Definition lit (s : string) : jsstring := map code (list_ascii_of_string s).

(** The syntax the patterns of the file use: classes of code units, their
    repetitions ([*], [+], [{n}], [{n,}]), sequence, optional groups,
    look-ahead and the two anchors. *)
Inductive regex : Type :=
| Class (cls : code_unit -> bool)
| Repeat (cls : code_unit -> bool) (min : nat) (max : option nat)
| Seq (a b : regex)
| Optional (a : regex)
| Lookahead (a : regex)
| Start
| End_.

(** [Repeat]: between [min] and [max] code units of the class, tried at
    every admissible length. *)
Fixpoint repeat_from (cls : code_unit -> bool) (min : nat) (max : option nat)
    (s : jsstring) (k : jsstring -> bool) : bool :=
  (match min with O => k s | S _ => false end)
  || match s with
     | [] => false
     | c :: s' =>
         match max with
         | Some O => false
         | _ =>
             cls c && repeat_from cls (Nat.pred min) (option_map Nat.pred max) s' k
         end
     end.

(** Backtracking match of [r] at the current position: [at_start] tells
    whether the position is the beginning of the input, [s] is the rest of
    the input and [k] continues with what is left.  Anchors are those of a
    pattern without the [m] flag. *)
Fixpoint match_at (r : regex) (at_start : bool) (s : jsstring)
    (k : bool -> jsstring -> bool) : bool :=
  match r with
  | Class cls =>
      match s with
      | c :: s' => cls c && k false s'
      | [] => false
      end
  | Repeat cls min max =>
      repeat_from cls min max s
        (fun s' => k (at_start && (length s' =? length s)%nat) s')
  | Seq a b => match_at a at_start s (fun st s' => match_at b st s' k)
  | Optional a => match_at a at_start s k || k at_start s
  | Lookahead a => match_at a at_start s (fun _ _ => true) && k at_start s
  | Start => at_start && k at_start s
  | End_ => match s with [] => k at_start s | _ => false end
  end.

(** The positions after the first one, tried in turn. *)
Fixpoint search_from (r : regex) (s : jsstring) : bool :=
  match s with
  | [] => false
  | _ :: s' => match_at r false s' (fun _ _ => true) || search_from r s'
  end.

(** [pattern.test(s)] for a pattern without the [g] and [y] flags: a match
    starting at some position of [s]. *)
Definition test (r : regex) (s : jsstring) : bool :=
  match_at r true s (fun _ _ => true) || search_from r s.

(** *** Classes *)

Definition between (lo hi : Z) (c : code_unit) : bool := (lo <=? c) && (c <=? hi).

(** [[a-z]], [[A-Z]], [\d] and [[a-zA-Z]] *)
Definition lowercase (c : code_unit) : bool := between 97 122 c.
Definition uppercase (c : code_unit) : bool := between 65 90 c.
Definition digit (c : code_unit) : bool := between 48 57 c.
Definition letter (c : code_unit) : bool := lowercase c || uppercase c.

(** A class given by the characters it lists. *)
Definition one_of (chars : string) (c : code_unit) : bool :=
  existsb (Z.eqb c) (lit chars).

(** [[@$!%*?&]] *)
Definition special (c : code_unit) : bool := one_of "@$!%*?&" c.

(** [\w] *)
Definition word (c : code_unit) : bool := letter c || digit c || (c =? 95).

(** [.] without the [s] flag: anything but a line terminator. *)
Definition line_terminator (c : code_unit) : bool :=
  (c =? 10) || (c =? 13) || (c =? 8232) || (c =? 8233).
Definition dot (c : code_unit) : bool := negb (line_terminator c).

(** [\s]: white space and line terminators. *)
Definition space (c : code_unit) : bool :=
  between 9 13 c || (c =? 32) || (c =? 160) || (c =? 5760) || between 8192 8202 c
  || (c =? 8232) || (c =? 8233) || (c =? 8239) || (c =? 8287) || (c =? 12288)
  || (c =? 65279).

(** *** REGEX_PATTERNS *)

(** [(?=.*cls)] *)
Definition contains (cls : code_unit -> bool) : regex :=
  Lookahead (Seq (Repeat dot 0 None) (Class cls)).

Definition CONTAINS_LOWERCASE : regex := contains lowercase.
Definition CONTAINS_UPPERCASE : regex := contains uppercase.
Definition CONTAINS_DIGIT : regex := contains digit.
Definition CONTAINS_SPECIAL : regex := contains special.

(** [[A-Za-z\d@$!%*?&]] *)
Definition password_char (c : code_unit) : bool := letter c || digit c || special c.

(** [PASSWORD.STRONG]:
    [/^(?=.*[a-z])(?=.*[A-Z])(?=.*\d)(?=.*[@$!%*?&])[A-Za-z\d@$!%*?&]/] *)
Definition STRONG : regex :=
  Seq Start
    (Seq (contains lowercase)
       (Seq (contains uppercase)
          (Seq (contains digit)
             (Seq (contains special) (Class password_char))))).

(** [[a-zA-Z0-9._%+-]] and [[a-zA-Z0-9.-]] *)
Definition email_local (c : code_unit) : bool := letter c || digit c || one_of "._%+-" c.
Definition email_domain (c : code_unit) : bool := letter c || digit c || one_of ".-" c.

(** [EMAIL.STANDARD]: [/^[a-zA-Z0-9._%+-]+@[a-zA-Z0-9.-]+\.[a-zA-Z]{2,}$/] *)
Definition EMAIL_STANDARD : regex :=
  Seq Start
    (Seq (Repeat email_local 1 None)
       (Seq (Class (one_of "@"))
          (Seq (Repeat email_domain 1 None)
             (Seq (Class (one_of "."))
                (Seq (Repeat letter 2 None) End_))))).

(** [TR_CITIZEN.TC_ID]: [/^[1-9][0-9]{10}$/] *)
Definition TC_ID : regex :=
  Seq Start (Seq (Class (between 49 57)) (Seq (Repeat digit 10 (Some 10%nat)) End_)).

(** [PHONE.TURKISH_MOBILE]: [/^(\+90\s?)?0?[5][0-9]{9}$/] *)
Definition TURKISH_MOBILE : regex :=
  Seq Start
    (Seq (Optional (Seq (Class (one_of "+"))
                      (Seq (Class (one_of "9"))
                         (Seq (Class (one_of "0")) (Optional (Class space))))))
       (Seq (Optional (Class (one_of "0")))
          (Seq (Class (one_of "5")) (Seq (Repeat digit 9 (Some 9%nat)) End_)))).

(** The punctuation listed by [VALIDATION.SAFE_TEXT] and by the pattern of
    [sanitizeText]; the double quote is code unit 34. *)
Definition safe_punctuation (c : code_unit) : bool :=
  one_of ".,!?@#$%^&*()_+-=[]{}';:\|<>/~`" c || (c =? 34).

(** The class of [SAFE_TEXT]. *)
Definition safe_char (c : code_unit) : bool :=
  letter c || digit c || space c || safe_punctuation c.

(** [VALIDATION.SAFE_TEXT]: the anchored repetition, possibly empty, of the
    class made of [a-zA-Z0-9], [\s] and the punctuation above. *)
Definition SAFE_TEXT : regex := Seq Start (Seq (Repeat safe_char 0 None) End_).

(** *** RegexValidator *)

Record StrongPasswordResult := mkStrongPasswordResult {
  isValid : bool;
  missingRequirement : option string
}.

Definition isStrongPassword (password : jsstring) : StrongPasswordResult :=
  if negb (test CONTAINS_LOWERCASE password) then
    mkStrongPasswordResult false (Some "lowercase")
  else if negb (test CONTAINS_UPPERCASE password) then
    mkStrongPasswordResult false (Some "uppercase")
  else if negb (test CONTAINS_DIGIT password) then
    mkStrongPasswordResult false (Some "digit")
  else if negb (test CONTAINS_SPECIAL password) then
    mkStrongPasswordResult false (Some "special")
  else mkStrongPasswordResult true None.

Definition isValidEmail (email_ : jsstring) : bool := test EMAIL_STANDARD email_.

Definition isValidTurkishCitizenId (tcId : jsstring) : bool :=
  if negb (test TC_ID tcId) then false else true.

Definition isValidTurkishMobile (phone : jsstring) : bool := test TURKISH_MOBILE phone.

(** [text.replace(/[^\w\s...]/g, '')]: every code unit outside the class is
    removed. *)
Definition sanitizeText (text_ : jsstring) : jsstring :=
  filter (fun c => word c || space c || safe_punctuation c) text_.

(** Some code unit of the class occurs before the first line terminator. *)
Fixpoint on_first_line (cls : code_unit -> bool) (s : jsstring) : bool :=
  match s with
  | [] => false
  | c :: s' => cls c || (dot c && on_first_line cls s')
  end.

(** The first code unit, if any, is in the class. *)
Definition starts_with (cls : code_unit -> bool) (s : jsstring) : bool :=
  match s with
  | c :: _ => cls c
  | [] => false
  end.

(** * FinanceService: categories *)

(** The category methods of [FinanceService] (finance.service.ts, lines
    31-122 and 636-694) over the [categories] table of the finance
    migration.  The other tables and methods carry amounts and percentages
    computed in floating point and are not embedded. *)

Record CategoryRow := mkCategoryRow {
  cat_id : string;
  cat_user_id : string;
  cat_name : string;
  cat_type : string;
  cat_color : option string;
  cat_icon : option string;
  cat_is_default : option bool;
  cat_created_at : Z;
  cat_updated_at : Z
}.

(** The part of the store these methods touch: the users, which
    [categories.user_id] references, and the categories. *)
Record FinanceDB := mkFinanceDB {
  fin_users : list UserRow;
  categories : list CategoryRow
}.

Inductive FinanceQuery : Type :=
| InsertCategory
| SelectCategories
| UpdateCategory
| DeleteCategory
| InsertDefaultCategories.

(** What one call reads from outside the store: the clock of the service,
    the clock of the database (for column defaults), the identifiers the
    table generates (one per inserted row), the collation that orders names,
    the cap the API puts on the number of rows of one response, if any, and
    the errors the store reports for reasons other than the data. *)
Record FinanceEnv := mkFinanceEnv {
  fin_now : Z;
  fin_db_now : Z;
  fin_uuid : nat -> string;
  name_le : string -> string -> bool;
  max_rows : option nat;
  fin_storage_error : FinanceQuery -> option SupabaseError
}.

Inductive FinanceException : Type :=
| FinanceBadRequest (msg : string)
| FinanceNotFound (msg : string).

Inductive Outcome (A : Type) : Type :=
| Returns (a : A)
| Throws (e : FinanceException).
Arguments Returns {A} a.
Arguments Throws {A} e.

(** [CHECK (type IN ('income', 'expense', 'transfer'))] *)
Definition type_check (t : string) : bool :=
  String.eqb t "income" || String.eqb t "expense" || String.eqb t "transfer".

Definition has_user (db : FinanceDB) (userId : string) : bool :=
  existsb (fun u => String.eqb (u_id u) userId) (fin_users db).

Definition has_category (db : FinanceDB) (i : string) : bool :=
  existsb (fun c => String.eqb (cat_id c) i) (categories db).

(** The values of one inserted row, as the service sends them. *)
Record CategoryValues := mkCategoryValues {
  v_user_id : string;
  v_name : string;
  v_type : string;
  v_color : string;
  v_icon : string;
  v_is_default : bool
}.

(** The row the table makes of the values: [id], [created_at] and
    [updated_at] take their defaults. *)
Definition category_row (env : FinanceEnv) (n : nat) (v : CategoryValues) : CategoryRow :=
  mkCategoryRow (fin_uuid env n) (v_user_id v) (v_name v) (v_type v)
    (Some (v_color v)) (Some (v_icon v)) (Some (v_is_default v))
    (fin_db_now env) (fin_db_now env).

(** The constraint one more row would violate, if any. *)
Definition category_violation (db : FinanceDB) (row : CategoryRow) : option string :=
  if has_category db (cat_id row) then
    Some "duplicate key value violates unique constraint categories_pkey"
  else if negb (has_user db (cat_user_id row)) then
    Some "insert or update on table categories violates foreign key constraint categories_user_id_fkey"
  else if negb (type_check (cat_type row)) then
    Some "new row for relation categories violates check constraint categories_type_check"
  else None.

(** Insert of several rows in one statement: all of them or none. *)
Fixpoint insert_categories (env : FinanceEnv) (n : nat) (vs : list CategoryValues)
    (db : FinanceDB) : string + FinanceDB :=
  match vs with
  | [] => inr db
  | v :: vs' =>
      let row := category_row env n v in
      match category_violation db row with
      | Some msg => inl msg
      | None =>
          insert_categories env (S n) vs'
            (mkFinanceDB (fin_users db) (categories db ++ [row]))
      end
  end.

(** [.order('name')]: insertion into a list ordered by the collation. *)
Fixpoint insert_by_name (le : string -> string -> bool) (c : CategoryRow)
    (l : list CategoryRow) : list CategoryRow :=
  match l with
  | [] => [c]
  | d :: l' => if le (cat_name c) (cat_name d) then c :: l else d :: insert_by_name le c l'
  end.

Definition order_by_name (le : string -> string -> bool) (l : list CategoryRow)
    : list CategoryRow :=
  fold_right (insert_by_name le) [] l.

Definition capped {A} (cap : option nat) (l : list A) : list A :=
  match cap with
  | Some n => firstn n l
  | None => l
  end.

Record CreateCategoryDto := mkCreateCategoryDto {
  cc_name : string;
  cc_type : string;
  cc_color : option string;
  cc_icon : option string
}.

Record UpdateCategoryDto := mkUpdateCategoryDto {
  uc_name : option string;
  uc_color : option string;
  uc_icon : option string
}.

(** [value || fallback] for an optional string: absent and empty both give
    the fallback. *)
Definition or_default (value : option string) (fallback : string) : string :=
  match value with
  | Some s => if String.eqb s "" then fallback else s
  | None => fallback
  end.

(** [{...updateCategoryDto, updated_at}] applied to a row: the properties
    that are present replace the columns of their name. *)
Definition apply_update (dto : UpdateCategoryDto) (updated_at : Z) (c : CategoryRow)
    : CategoryRow :=
  mkCategoryRow (cat_id c) (cat_user_id c)
    (match uc_name dto with Some n => n | None => cat_name c end)
    (cat_type c)
    (match uc_color dto with Some x => Some x | None => cat_color c end)
    (match uc_icon dto with Some x => Some x | None => cat_icon c end)
    (cat_is_default c) (cat_created_at c) updated_at.

Section FinanceService.
Variable env : FinanceEnv.

(** [createCategory] (lines 31-58): what is returned is the [data] of the
    response, the inserted row. *)
Definition createCategory (userId : string) (createCategoryDto : CreateCategoryDto)
    (db : FinanceDB) : Outcome (option CategoryRow) * FinanceDB :=
  let values :=
    mkCategoryValues userId (cc_name createCategoryDto) (cc_type createCategoryDto)
      (or_default (cc_color createCategoryDto) "#3B82F6")
      (or_default (cc_icon createCategoryDto) "category") false in
  let response :=
    match fin_storage_error env InsertCategory with
    | Some e => (mkResponse None (Some e), db)
    | None =>
        match insert_categories env 0 [values] db with
        | inl msg => (fail msg, db)
        | inr db' => (succeed (category_row env 0 values), db')
        end
    end in
  match error (fst response) with
  | Some e =>
      (Throws (FinanceBadRequest ("Failed to create category: " ++ message e)%string),
       snd response)
  | None => (Returns (data (fst response)), snd response)
  end.

(** [getCategories] (lines 60-81): the type filter is added when [type] is
    truthy, that is present and not empty. *)
Definition getCategories (userId : string) (type : option string) (db : FinanceDB)
    : Outcome (list CategoryRow) * FinanceDB :=
  let by_user := fun c => String.eqb (cat_user_id c) userId in
  let filters :=
    match type with
    | Some t => if String.eqb t "" then by_user
                else fun c => by_user c && String.eqb (cat_type c) t
    | None => by_user
    end in
  match fin_storage_error env SelectCategories with
  | Some e =>
      (Throws (FinanceBadRequest ("Failed to fetch categories: " ++ message e)%string), db)
  | None =>
      (Returns (capped (max_rows env)
                  (order_by_name (name_le env) (filter filters (categories db)))), db)
  end.

(** [updateCategory] (lines 83-107): the update is asked to return a single
    row, so matching no row is an error and changes nothing. *)
Definition updateCategory (userId categoryId : string)
    (updateCategoryDto : UpdateCategoryDto) (db : FinanceDB)
    : Outcome (option CategoryRow) * FinanceDB :=
  let filters := fun c => String.eqb (cat_id c) categoryId
                          && String.eqb (cat_user_id c) userId in
  let response :=
    match fin_storage_error env UpdateCategory with
    | Some e => (mkResponse None (Some e), db)
    | None =>
        match filter filters (categories db) with
        | [c] =>
            let c' := apply_update updateCategoryDto (fin_now env) c in
            (succeed c',
             mkFinanceDB (fin_users db)
               (map (fun x => if filters x then c' else x) (categories db)))
        | _ => (fail "JSON object requested, multiple (or no) rows returned", db)
        end
    end in
  match error (fst response) with
  | Some e =>
      (Throws (FinanceNotFound
                 ("Category not found or failed to update: " ++ message e)%string),
       snd response)
  | None => (Returns (data (fst response)), snd response)
  end.

(** [deleteCategory] (lines 109-122) *)
Definition deleteCategory (userId categoryId : string) (db : FinanceDB)
    : Outcome unit * FinanceDB :=
  let filters := fun c => String.eqb (cat_id c) categoryId
                          && String.eqb (cat_user_id c) userId in
  match fin_storage_error env DeleteCategory with
  | Some e =>
      (Throws (FinanceNotFound
                 ("Category not found or failed to delete: " ++ message e)%string), db)
  | None =>
      (Returns tt,
       mkFinanceDB (fin_users db) (filter (fun c => negb (filters c)) (categories db)))
  end.

(** The ten categories of [createDefaultCategories] (lines 637-678). *)
Definition defaultCategories : list (string * string * string * string) :=
  [("Salary", "income", "#10B981", "money");
   ("Freelance", "income", "#059669", "briefcase");
   ("Investment", "income", "#047857", "trending-up");
   ("Food & Dining", "expense", "#EF4444", "utensils");
   ("Transportation", "expense", "#F97316", "car");
   ("Shopping", "expense", "#8B5CF6", "shopping-bag");
   ("Healthcare", "expense", "#EC4899", "heart");
   ("Entertainment", "expense", "#06B6D4", "play");
   ("Utilities", "expense", "#84CC16", "zap");
   ("Housing", "expense", "#F59E0B", "home")].

(** [createDefaultCategories] (lines 636-694): an error of the insert is
    logged and nothing is thrown. *)
Definition createDefaultCategories (userId : string) (db : FinanceDB)
    : Outcome unit * FinanceDB :=
  let categoriesToInsert :=
    map (fun cat =>
           match cat with
           | (name, type, color, icon) => mkCategoryValues userId name type color icon true
           end) defaultCategories in
  match fin_storage_error env InsertDefaultCategories with
  | Some _ => (Returns tt, db)
  | None =>
      match insert_categories env 0 categoriesToInsert db with
      | inl _ => (Returns tt, db)
      | inr db' => (Returns tt, db')
      end
  end.
End FinanceService.

(** ** A concrete run of the category methods *)

Definition ex_fin_env (t : Z) (n : string) : FinanceEnv :=
  mkFinanceEnv t t (fun k => (n ++ "-" ++ String (Ascii.ascii_of_nat (48 + k)) "")%string)
    String.leb None (fun _ => None).

(** Two users and no category. *)
Definition ex_fin_db0 : FinanceDB :=
  mkFinanceDB
    [mkUserRow "alice" "a@b.com" (Str "") "A" "B" false 0 0;
     mkUserRow "bob" "b@b.com" (Str "") "B" "C" false 0 0]
    [].

(** Alice creates a category, then Bob creates one. *)
Definition ex_fin_db1 : FinanceDB :=
  snd (createCategory (ex_fin_env 1000 "a") "alice"
         (mkCreateCategoryDto "Books" "expense" None (Some "")) ex_fin_db0).
Definition ex_fin_db2 : FinanceDB :=
  snd (createCategory (ex_fin_env 2000 "b") "bob"
         (mkCreateCategoryDto "Salary" "income" (Some "#000000") None) ex_fin_db1).

(** * Properties *)

(** ** Basic facts about the symbolic strings *)

Lemma text_eqb_eq (a b : text) : text_eqb a b = true <-> a = b.
Proof.
  unfold text_eqb. destruct (text_eq_dec a b) as [E | N]; split; intro H.
  - exact E.
  - reflexivity.
  - discriminate H.
  - contradiction.
Qed.

Lemma text_eqb_refl (a : text) : text_eqb a a = true.
Proof. apply text_eqb_eq. reflexivity. Qed.

Lemma bcrypt_compare_hash (s : text) (rounds : Z) (salt : string) :
  bcrypt_compare s (bcrypt_hash s rounds salt) = true.
Proof. unfold bcrypt_compare, bcrypt_hash. apply text_eqb_refl. Qed.

(** [bcrypt.compare] answers true exactly when bcrypt reads of the string
    what it read of the string that was hashed. *)
Lemma bcrypt_compare_iff (s p : text) (rounds : Z) (salt : string) :
  bcrypt_compare s (bcrypt_hash p rounds salt) = true <-> bcrypt_input s = bcrypt_input p.
Proof.
  unfold bcrypt_compare, bcrypt_hash. rewrite text_eqb_eq. split; intro H.
  - injection H as H. exact H.
  - rewrite H. reflexivity.
Qed.

Lemma bcrypt_input_size (s : text) : text_size (bcrypt_input s) = text_size s.
Proof. destruct s; reflexivity. Qed.

(** A hash string is never the string that was hashed. *)
Lemma bcrypt_hash_not_plain (s : text) (rounds : Z) (salt : string) :
  bcrypt_hash s rounds salt <> s.
Proof.
  intro E. apply (f_equal text_size) in E. unfold bcrypt_hash in E.
  cbn [text_size] in E. rewrite bcrypt_input_size in E.
  exact (Nat.neq_succ_diag_l _ E).
Qed.

(** ** The bytes bcrypt reads of a token *)

Lemma length_append (a b : string) :
  String.length (a ++ b) = (String.length a + String.length b)%nat.
Proof. induction a as [| x a IH]; cbn; [reflexivity | rewrite IH; reflexivity]. Qed.

Lemma sextet_length (n : Z) : String.length (sextet n) = 1%nat.
Proof.
  unfold sextet.
  assert (H : (Z.to_nat (n mod 64) < 64)%nat)
    by (pose proof (Z.mod_pos_bound n 64 eq_refl); lia).
  revert H. generalize (Z.to_nat (n mod 64)). intros k H.
  do 64 (destruct k as [| k]; [reflexivity |]). lia.
Qed.

(** Base64url makes at least four characters of every three bytes. *)
Lemma base64url_length (s : string) :
  (4 * String.length s <= 3 * String.length (base64url s))%nat.
Proof.
  assert (H : forall s,
             (4 * String.length s <= 3 * String.length (base64url s))%nat /\
             (forall a, 4 * String.length (String a s)
                        <= 3 * String.length (base64url (String a s)))%nat /\
             (forall a b, 4 * String.length (String a (String b s))
                          <= 3 * String.length (base64url (String a (String b s))))%nat).
  { clear s. induction s as [| c s [IH0 [IH1 IH2]]].
    - repeat split; intros; cbn [base64url String.length];
        rewrite ?length_append, ?sextet_length; lia.
    - split; [apply IH1 |]. split; [intro a; apply IH2 |]. intros a b.
      cbn [base64url]. cbv zeta. rewrite !length_append, !sextet_length.
      cbn [String.length] in *. lia. }
  apply H.
Qed.

Lemma json_string_length (s : string) : (2 <= String.length (json_string s))%nat.
Proof. unfold json_string. rewrite !length_append. cbn. lia. Qed.

Lemma json_number_length (n : Z) : (1 <= String.length (json_number n))%nat.
Proof.
  unfold json_number, NilZero.string_of_int.
  destruct (Z.to_int n) as [d | d]; [| cbn; lia].
  unfold NilZero.string_of_uint. destruct d; cbn; lia.
Qed.

(** The signing input of a token has at least seventy-two bytes: bcrypt
    reads nothing of the signature. *)
Lemma signing_input_length (c : Claims) : (72 <= String.length (signing_input c))%nat.
Proof.
  unfold signing_input. rewrite !length_append.
  pose proof (base64url_length (payload_json c)) as H.
  assert (L : (26 <= String.length (payload_json c))%nat).
  { unfold payload_json, member. rewrite !length_append.
    pose proof (json_string_length (p_sub (payload c))).
    pose proof (json_number_length (iat c)). pose proof (json_number_length (exp c)).
    cbn [String.length]. 
    change (String.length (json_string "sub")) with 5%nat.
    change (String.length (json_string "iat")) with 5%nat.
    change (String.length (json_string "exp")) with 5%nat.
    lia. }
  change (String.length (base64url header_json)) with 36%nat.
  cbn [String.length]. lia.
Qed.

(** ** Facts about the client *)

Lemma single_some {T} (rows : list T) (x : T) :
  data (single rows) = Some x -> rows = [x].
Proof.
  destruct rows as [| a [| b rest]]; cbn; intro H; try discriminate H.
  injection H as ->. reflexivity.
Qed.

Lemma single_one {T} (x : T) : single [x] = succeed x.
Proof. reflexivity. Qed.

Lemma single_not_one {T} (rows : list T) :
  length rows <> 1%nat ->
  single rows = fail "JSON object requested, multiple (or no) rows returned".
Proof.
  destruct rows as [| a [| b rest]]; cbn; intro H; try reflexivity.
  exfalso. apply H. reflexivity.
Qed.

Lemma single_shape {T} (rows : list T) :
  (exists x, rows = [x] /\ single rows = succeed x) \/
  (length rows <> 1%nat /\
   single rows = fail "JSON object requested, multiple (or no) rows returned").
Proof.
  destruct rows as [| a [| b rest]].
  - right. split; [discriminate | reflexivity].
  - left. exists a. split; reflexivity.
  - right. split; [discriminate | reflexivity].
Qed.

Lemma filter_all_false {A} (f : A -> bool) (l : list A) :
  (forall x, In x l -> f x = false) -> filter f l = [].
Proof.
  induction l as [| a l IH]; cbn; intro H.
  - reflexivity.
  - rewrite (H a (or_introl eq_refl)). apply IH.
    intros x Hx. apply H. right. exact Hx.
Qed.

Lemma filter_all_true {A} (f : A -> bool) (l : list A) :
  (forall x, In x l -> f x = true) -> filter f l = l.
Proof.
  induction l as [| a l IH]; cbn; intro H.
  - reflexivity.
  - rewrite (H a (or_introl eq_refl)). f_equal. apply IH.
    intros x Hx. apply H. right. exact Hx.
Qed.

(** ** The refresh-token store *)

Lemma validateRefreshToken_frame env userId tok db :
  snd (validateRefreshToken env userId tok db) = db.
Proof.
  unfold validateRefreshToken, select_single, bind, ret.
  destruct (storage_error env SelectRefreshTokens); cbn; [reflexivity |].
  match goal with |- context [single ?l] => destruct (single_shape l) as [[x [_ E]] | [_ E]] end;
    rewrite E; reflexivity.
Qed.

Lemma validateRefreshToken_value env userId tok db :
  fst (validateRefreshToken env userId tok db) =
  Ok match storage_error env SelectRefreshTokens, live_records env userId db with
     | None, [r] => bcrypt_compare tok (t_token_hash r)
     | _, _ => false
     end.
Proof.
  unfold validateRefreshToken, select_single, bind, ret, live_records.
  destruct (storage_error env SelectRefreshTokens); cbn; [reflexivity |].
  destruct (filter _ (refresh_tokens db)) as [| a [| b rest]]; reflexivity.
Qed.

(** C9 - [validateRefreshToken] answers true only when the store holds
    exactly one unexpired record of the user and the hash of that record
    matches the presented token; with no such record, or with more than one,
    the single-row fetch fails and the answer is false whatever the hashes
    are.  With exactly one record and a store that answers, the result is
    the comparison of the token with that record's hash.  The store is left
    as it was. *)
Theorem validateRefreshToken_single_row :
  forall (env : Env) (userId : string) (rawToken : text) (db : DB),
    (fst (validateRefreshToken env userId rawToken db) = Ok true ->
     exists r, live_records env userId db = [r] /\
               bcrypt_compare rawToken (t_token_hash r) = true) /\
    (length (live_records env userId db) <> 1%nat ->
     fst (validateRefreshToken env userId rawToken db) = Ok false) /\
    (forall r, storage_error env SelectRefreshTokens = None ->
               live_records env userId db = [r] ->
               fst (validateRefreshToken env userId rawToken db) =
               Ok (bcrypt_compare rawToken (t_token_hash r))) /\
    snd (validateRefreshToken env userId rawToken db) = db.
Proof.
  intros env userId rawToken db.
  rewrite validateRefreshToken_value.
  repeat split.
  - destruct (storage_error env SelectRefreshTokens); [discriminate |].
    destruct (live_records env userId db) as [| a [| b rest]]; try discriminate.
    intro H. injection H as H. exists a. split; [reflexivity | exact H].
  - intro H. destruct (storage_error env SelectRefreshTokens); [reflexivity |].
    destruct (live_records env userId db) as [| a [| b rest]]; try reflexivity.
    exfalso. apply H. reflexivity.
  - intros r Hs Hl. rewrite Hs, Hl. reflexivity.
  - apply validateRefreshToken_frame.
Qed.

Lemma salt_is_new_differs salt db r rounds plain :
  salt_is_new salt db = true ->
  In r (refresh_tokens db) ->
  t_token_hash r <> bcrypt_hash plain rounds salt.
Proof.
  unfold salt_is_new. rewrite forallb_forall. intros H Hr E.
  specialize (H r Hr). rewrite E in H. cbn in H.
  rewrite String.eqb_refl in H. discriminate H.
Qed.

Lemma DB_eta (db : DB) : mkDB (users db) (refresh_tokens db) = db.
Proof. destruct db; reflexivity. Qed.

Lemma storeRefreshToken_Ok env userId tok db :
  fst (storeRefreshToken env userId tok db) = Ok tt.
Proof.
  unfold storeRefreshToken, upsert_refresh_tokens, bind, ret.
  destruct (storage_error env UpsertRefreshTokens); [reflexivity |].
  repeat match goal with |- context [if ?c then _ else _] => destruct c end;
    reflexivity.
Qed.

Lemma storeRefreshToken_users env userId tok db :
  users (snd (storeRefreshToken env userId tok db)) = users db.
Proof.
  unfold storeRefreshToken, upsert_refresh_tokens, bind, ret.
  destruct (storage_error env UpsertRefreshTokens); [reflexivity |].
  repeat match goal with |- context [if ?c then _ else _] => destruct c end;
    reflexivity.
Qed.

Lemma storeRefreshToken_run env userId tok db :
  storeRefreshToken env userId tok db =
  (Ok tt, snd (storeRefreshToken env userId tok db)).
Proof.
  rewrite <- (storeRefreshToken_Ok env userId tok db) at 1.
  destruct (storeRefreshToken env userId tok db); reflexivity.
Qed.

(** Every record in the table after [storeRefreshToken] was there before or
    is the row just written. *)
Lemma storeRefreshToken_records env userId tok db r :
  In r (refresh_tokens (snd (storeRefreshToken env userId tok db))) ->
  In r (refresh_tokens db) \/ r = stored_record env userId tok.
Proof.
  unfold storeRefreshToken, upsert_refresh_tokens, bind, ret, stored_record.
  destruct (storage_error env UpsertRefreshTokens); [cbn; auto |].
  repeat match goal with |- context [if ?c then _ else _] => destruct c end;
    cbn; auto.
  - rewrite in_map_iff. intros [x [Hx Hin]].
    destruct (String.eqb (t_id x) (uuid_refresh_tokens env)).
    + right. symmetry. exact Hx.
    + left. subst x. exact Hin.
  - rewrite in_app_iff. cbn. intros [H | [H | []]]; auto.
Qed.

(** With a store that answers, a known user, a new identifier and a new
    hash, the upsert adds a row and keeps every row that was there. *)
Lemma storeRefreshToken_appends env userId tok db :
  storage_error env UpsertRefreshTokens = None ->
  existsb (fun u => String.eqb (u_id u) userId) (users db) = true ->
  existsb (fun r => String.eqb (t_id r) (uuid_refresh_tokens env))
          (refresh_tokens db) = false ->
  salt_is_new (salt_store env) db = true ->
  snd (storeRefreshToken env userId tok db) =
  mkDB (users db) (refresh_tokens db ++ [stored_record env userId tok]).
Proof.
  intros Hs Hu Hid Hsalt.
  unfold storeRefreshToken, upsert_refresh_tokens, bind, ret, stored_record.
  rewrite Hs. cbn. rewrite Hu. cbn.
  assert (Hh : existsb
                 (fun r => text_eqb (t_token_hash r) (bcrypt_hash tok 8 (salt_store env)))
                 (filter (fun r => negb (String.eqb (t_id r) (uuid_refresh_tokens env)))
                         (refresh_tokens db)) = false).
  { apply not_true_is_false. intro H. apply existsb_exists in H.
    destruct H as [x [Hin Hx]]. apply filter_In in Hin. destruct Hin as [Hin _].
    apply text_eqb_eq in Hx.
    exact (salt_is_new_differs _ _ _ _ _ Hsalt Hin Hx). }
  rewrite Hh, Hid. reflexivity.
Qed.

Lemma revokeRefreshToken_run js env tok db :
  revokeRefreshToken js env tok db =
  match verify js (now env) tok with
  | Throw e => (Throw e, db)
  | Ok decoded =>
      match storage_error env DeleteRefreshTokens with
      | Some _ => (Ok tt, db)
      | None =>
          (Ok tt,
           mkDB (users db)
             (filter (fun r => negb (String.eqb (t_user_id r) (p_sub (payload decoded))
                                     && text_eqb (t_token_hash r)
                                          (bcrypt_hash tok 8 (salt_revoke env))))
                     (refresh_tokens db)))
      end
  end.
Proof.
  unfold revokeRefreshToken, delete_refresh_tokens, bind, ret, lift.
  destruct (verify js (now env) tok); [| reflexivity].
  destruct (storage_error env DeleteRefreshTokens); reflexivity.
Qed.

Lemma revokeRefreshToken_users js env tok db :
  users (snd (revokeRefreshToken js env tok db)) = users db.
Proof.
  rewrite revokeRefreshToken_run.
  destruct (verify js (now env) tok); [| reflexivity].
  destruct (storage_error env DeleteRefreshTokens); reflexivity.
Qed.

Lemma revokeRefreshToken_new_salt js env tok db :
  salt_is_new (salt_revoke env) db = true ->
  snd (revokeRefreshToken js env tok db) = db.
Proof.
  intro Hsalt. rewrite revokeRefreshToken_run.
  destruct (verify js (now env) tok) as [decoded | e]; [| reflexivity].
  destruct (storage_error env DeleteRefreshTokens); [reflexivity |].
  cbn. rewrite filter_all_true; [apply DB_eta |].
  intros r Hr. apply negb_true_iff. apply andb_false_iff. right.
  apply not_true_is_false. intro H. apply text_eqb_eq in H.
  exact (salt_is_new_differs _ _ _ _ _ Hsalt Hr H).
Qed.

(** C4 - When the salt drawn by [revokeRefreshToken] is the salt of no
    stored hash, the hash it computes differs from every stored
    [token_hash], its delete matches no row and the store is unchanged. *)
Theorem revokeRefreshToken_deletes_nothing :
  forall (js : JwtService) (env : Env) (rawToken : text) (db : DB),
    salt_is_new (salt_revoke env) db = true ->
    (forall r, In r (refresh_tokens db) ->
               t_token_hash r <> bcrypt_hash rawToken 8 (salt_revoke env)) /\
    snd (revokeRefreshToken js env rawToken db) = db.
Proof.
  intros js env rawToken db Hsalt. split.
  - intros r Hr. exact (salt_is_new_differs _ _ _ _ _ Hsalt Hr).
  - apply revokeRefreshToken_new_salt. exact Hsalt.
Qed.

(** ** The flows, one equation each *)

Lemma validateRefreshToken_run env userId tok db :
  validateRefreshToken env userId tok db = (Ok (token_accepted env userId tok db), db).
Proof.
  rewrite (surjective_pairing (validateRefreshToken env userId tok db)).
  rewrite validateRefreshToken_value, validateRefreshToken_frame. reflexivity.
Qed.

Lemma signUp_run js env dto db :
  signUp js env dto db =
  let row := new_user env dto in
  let create :=
    match storage_error env InsertUsers with
    | Some e =>
        (Throw (BadRequestException ("Failed to create user: " ++ message e)%string), db)
    | None =>
        if existsb (fun u => String.eqb (u_id u) (uuid_users env)) (users db) then
          (Throw (BadRequestException
                    "Failed to create user: duplicate key value violates unique constraint users_pkey"),
           db)
        else if existsb (fun u => String.eqb (u_email u) (su_email dto)) (users db) then
          (Throw (BadRequestException
                    "Failed to create user: duplicate key value violates unique constraint users_email_key"),
           db)
        else
          (Ok (auth_response js env row),
           snd (storeRefreshToken env (u_id row) (refreshToken (auth_response js env row))
                  (mkDB (users db ++ [row]) (refresh_tokens db))))
    end in
  match storage_error env SelectUsers, with_email (su_email dto) db with
  | None, [_] => (Throw (ConflictException "User with this email already exists"), db)
  | _, _ => create
  end.
Proof.
  unfold signUp, try_catch, bind, select_single, insert_users, with_email, throw, ret.
  cbv zeta.
  destruct (storage_error env SelectUsers) as [e |];
    [| destruct (filter _ (users db)) as [| a [| b rest]]];
    cbn -[storeRefreshToken String.append]; try reflexivity;
    (destruct (storage_error env InsertUsers);
     cbn -[storeRefreshToken String.append]; [reflexivity |];
     destruct (existsb _ (users db)); [reflexivity |];
     destruct (existsb _ (users db)); [reflexivity |];
     cbn -[storeRefreshToken]; rewrite storeRefreshToken_run; reflexivity).
Qed.

Lemma signIn_run js env dto db :
  signIn js env dto db =
  match storage_error env SelectUsers, with_email (si_email dto) db with
  | None, [u] =>
      if bcrypt_compare (si_password dto) (u_password u) then
        (Ok (auth_response js env u),
         snd (storeRefreshToken env (u_id u) (refreshToken (auth_response js env u)) db))
      else (Throw (UnauthorizedException "Invalid credentials"), db)
  | _, _ => (Throw (UnauthorizedException "Invalid credentials"), db)
  end.
Proof.
  unfold signIn, try_catch, bind, select_single, with_email, throw, ret.
  cbv zeta.
  destruct (storage_error env SelectUsers) as [e |];
    [| destruct (filter _ (users db)) as [| a [| b rest]]];
    cbn -[storeRefreshToken]; try reflexivity.
  destruct (bcrypt_compare (si_password dto) (u_password a));
    cbn -[storeRefreshToken]; [| reflexivity].
  rewrite storeRefreshToken_run. reflexivity.
Qed.

Lemma refreshTokens_run js env dto db :
  refreshTokens js env dto db =
  let tok := rt_refreshToken dto in
  match verify js (now env) tok with
  | Throw _ => (refresh_failed, db)
  | Ok decoded =>
      if negb (is_refresh (p_type (payload decoded))) then (refresh_failed, db)
      else if negb (token_accepted env (p_sub (payload decoded)) tok db) then
        (refresh_failed, db)
      else
        match storage_error env SelectUsers, with_id (p_sub (payload decoded)) db with
        | None, [u] =>
            (Ok (refresh_response js env (user_select u)),
             snd (revokeRefreshToken js env tok
                    (snd (storeRefreshToken env (u_id u)
                            (new_refreshToken (refresh_response js env (user_select u)))
                            db))))
        | _, _ => (refresh_failed, db)
        end
  end.
Proof.
  unfold refreshTokens, try_catch, bind, lift, with_id, throw, ret, refresh_failed.
  cbv zeta.
  destruct (verify js (now env) (rt_refreshToken dto)) as [decoded | e] eqn:Hv;
    [| reflexivity].
  destruct (negb (is_refresh (p_type (payload decoded)))); [reflexivity |].
  rewrite validateRefreshToken_run.
  destruct (negb (token_accepted env (p_sub (payload decoded)) (rt_refreshToken dto) db));
    [reflexivity |].
  unfold select_single.
  destruct (storage_error env SelectUsers) as [e |];
    [| destruct (filter _ (users db)) as [| a [| b rest]]];
    cbn -[storeRefreshToken revokeRefreshToken]; try reflexivity.
  rewrite storeRefreshToken_run at 1.
  rewrite !revokeRefreshToken_run, Hv.
  destruct (storage_error env DeleteRefreshTokens); reflexivity.
Qed.

Lemma logout_run js env tok db :
  logout js env tok db =
  match verify js (now env) tok with
  | Throw _ => (Throw (UnauthorizedException "Logout failed"), db)
  | Ok _ => (Ok tt, snd (revokeRefreshToken js env tok db))
  end.
Proof.
  unfold logout, try_catch, throw. rewrite revokeRefreshToken_run.
  destruct (verify js (now env) tok); [| reflexivity].
  destruct (storage_error env DeleteRefreshTokens); reflexivity.
Qed.

(** ** Sign-up *)

Lemma existsb_false_filter {A} (f : A -> bool) (l : list A) :
  existsb f l = false -> filter f l = [].
Proof.
  intro H. apply filter_all_false. intros x Hx.
  apply not_true_is_false. intro Hf.
  assert (E : existsb f l = true) by (apply existsb_exists; exists x; auto).
  rewrite H in E. discriminate E.
Qed.

(** A successful [signUp] found no row with the e-mail, inserted
    [new_user], answered with the response built from that row, and then
    stored the refresh token. *)
Lemma signUp_Ok js env dto db r db' :
  signUp js env dto db = (Ok r, db') ->
  existsb (fun u => String.eqb (u_email u) (su_email dto)) (users db) = false /\
  r = auth_response js env (new_user env dto) /\
  db' = snd (storeRefreshToken env (uuid_users env) (refreshToken r)
               (mkDB (users db ++ [new_user env dto]) (refresh_tokens db))).
Proof.
  rewrite signUp_run. cbv zeta. intro H.
  assert (Hc :
    match storage_error env InsertUsers with
    | Some e =>
        (@Throw AuthResponseDto
           (BadRequestException ("Failed to create user: " ++ message e)%string), db)
    | None =>
        if existsb (fun u => String.eqb (u_id u) (uuid_users env)) (users db) then
          (Throw (BadRequestException
                    "Failed to create user: duplicate key value violates unique constraint users_pkey"),
           db)
        else if existsb (fun u => String.eqb (u_email u) (su_email dto)) (users db) then
          (Throw (BadRequestException
                    "Failed to create user: duplicate key value violates unique constraint users_email_key"),
           db)
        else
          (Ok (auth_response js env (new_user env dto)),
           snd (storeRefreshToken env (u_id (new_user env dto))
                  (refreshToken (auth_response js env (new_user env dto)))
                  (mkDB (users db ++ [new_user env dto]) (refresh_tokens db))))
    end = (Ok r, db')).
  { destruct (storage_error env SelectUsers); [exact H |].
    destruct (with_email (su_email dto) db) as [| a [| b rest]];
      [exact H | discriminate H | exact H]. }
  clear H.
  destruct (storage_error env InsertUsers); [discriminate Hc |].
  destruct (existsb (fun u => String.eqb (u_id u) (uuid_users env)) (users db));
    [discriminate Hc |].
  destruct (existsb (fun u => String.eqb (u_email u) (su_email dto)) (users db));
    [discriminate Hc |].
  injection Hc as Hr Hdb. subst r. split; [reflexivity |]. split; [reflexivity |].
  symmetry. exact Hdb.
Qed.

Lemma signUp_Ok_users js env dto db r db' :
  signUp js env dto db = (Ok r, db') ->
  users db' = users db ++ [new_user env dto] /\
  with_email (su_email dto) db' = [new_user env dto].
Proof.
  intro H. destruct (signUp_Ok _ _ _ _ _ _ H) as [He [_ Hdb]].
  assert (Hu : users db' = users db ++ [new_user env dto]).
  { rewrite Hdb, storeRefreshToken_users. reflexivity. }
  split; [exact Hu |].
  unfold with_email. rewrite Hu, filter_app, (existsb_false_filter _ _ He).
  cbn. rewrite String.eqb_refl. reflexivity.
Qed.

(** A token signed now verifies now. *)
Lemma verify_sign js p expiresIn t :
  0 < expiresIn ->
  verify js t (sign js p expiresIn t) = Ok (mkClaims p (t / 1000) (t / 1000 + expiresIn)).
Proof.
  intro H. unfold verify, sign. cbn. rewrite String.eqb_refl. cbn.
  destruct (t / 1000 + expiresIn <=? t / 1000) eqn:E; [| reflexivity].
  apply Z.leb_le in E. lia.
Qed.

(** C6 - After a successful [signUp] the access token verifies to claims
    carrying the submitted e-mail, first name and last name; the users table
    holds exactly one row with that e-mail; the password column of that row
    is the bcrypt hash of the submitted password and differs from the
    password itself; and the returned profile is the id, e-mail, first name
    and last name of that row (the profile type has no other field). *)
Theorem signUp_postcondition :
  forall (js : JwtService) (env : Env) (dto : SignUpDto) (db : DB)
         (r : AuthResponseDto) (db' : DB),
    signUp js env dto db = (Ok r, db') ->
    (exists c, verify js (now env) (accessToken r) = Ok c /\
               p_email (payload c) = Some (su_email dto) /\
               p_firstName (payload c) = Some (su_firstName dto) /\
               p_lastName (payload c) = Some (su_lastName dto)) /\
    (exists row, with_email (su_email dto) db' = [row] /\
                 u_password row = bcrypt_hash (su_password dto) saltRounds (salt_password env) /\
                 u_password row <> su_password dto /\
                 user r = mkAuthUserDto (u_id row) (su_email dto)
                            (su_firstName dto) (su_lastName dto)).
Proof.
  intros js env dto db r db' H.
  destruct (signUp_Ok _ _ _ _ _ _ H) as [_ [Hr _]].
  destruct (signUp_Ok_users _ _ _ _ _ _ H) as [_ Hone].
  split.
  - subst r. unfold auth_response. cbn [accessToken].
    rewrite verify_sign by (unfold accessTokenExpiresIn; lia).
    eexists. split; [reflexivity |]. cbn. auto.
  - exists (new_user env dto). split; [exact Hone |].
    split; [reflexivity |]. split.
    + cbn. apply bcrypt_hash_not_plain.
    + subst r. reflexivity.
Qed.


(** ** Sign-in *)

(** Of two literals shorter than seventy-two bytes and free of zero bytes
    bcrypt reads different bytes unless they are the same literal. *)
Lemma key_bytes_short (n : nat) (s s' p q : string) :
  zero_free p = true -> zero_free q = true ->
  (String.length p < n)%nat -> (String.length q < n)%nat ->
  key_bytes n s p = key_bytes n s' q -> p = q.
Proof.
  revert n q. induction p as [| a p IH]; intros n q Hp Hq Lp Lq E.
  - destruct q as [| b q]; [reflexivity |].
    destruct n as [| n]; [inversion Lq |]. cbn in E, Hq.
    injection E as Eb _. subst b. rewrite Ascii.eqb_refl in Hq. discriminate Hq.
  - destruct n as [| n]; [inversion Lp |].
    destruct q as [| b q]; cbn in E, Hp.
    + injection E as Ea _. subst a. rewrite Ascii.eqb_refl in Hp. discriminate Hp.
    + cbn in Hq. injection E as Ea E. subst b.
      apply andb_true_iff in Hp. apply andb_true_iff in Hq.
      f_equal. apply (IH n q); cbn in Lp, Lq; try tauto; lia.
Qed.

Lemma bcrypt_input_short (p q : string) :
  zero_free p = true -> zero_free q = true ->
  (String.length p < 72)%nat -> (String.length q < 72)%nat ->
  p <> q -> bcrypt_input (Str p) <> bcrypt_input (Str q).
Proof.
  intros Hp Hq Lp Lq Hne E. apply Hne. unfold bcrypt_input in E.
  apply (key_bytes_short 72 p q p q Hp Hq Lp Lq).
  set (a := key_bytes 72 p p) in *. set (b := key_bytes 72 q q) in *.
  injection E as E. exact E.
Qed.

(** C5, as amended - [signIn] with an e-mail no row carries, and [signIn]
    with the e-mail of a row and a password of which bcrypt reads other
    bytes than of the password the row was registered with, both throw
    [UnauthorizedException] with the message `Invalid credentials`, both
    leave the store as it was, and the two results are equal. *)
Theorem signIn_failures_indistinguishable :
  forall (js : JwtService) (env1 env2 : Env) (db1 db2 : DB)
         (dto1 dto2 : SignInDto) (u : UserRow)
         (registered : text) (rounds : Z) (salt : string),
    with_email (si_email dto1) db1 = [] ->
    with_email (si_email dto2) db2 = [u] ->
    u_password u = bcrypt_hash registered rounds salt ->
    bcrypt_input (si_password dto2) <> bcrypt_input registered ->
    signIn js env1 dto1 db1 =
      (Throw (UnauthorizedException "Invalid credentials"), db1) /\
    signIn js env2 dto2 db2 =
      (Throw (UnauthorizedException "Invalid credentials"), db2) /\
    fst (signIn js env1 dto1 db1) = fst (signIn js env2 dto2 db2).
Proof.
  intros js env1 env2 db1 db2 dto1 dto2 u registered rounds salt Hnone Hone Hreg Hwrong.
  assert (Hcmp : bcrypt_compare (si_password dto2) (u_password u) = false).
  { apply not_true_is_false. intro E. rewrite Hreg in E.
    apply bcrypt_compare_iff in E. contradiction. }
  assert (H1 : signIn js env1 dto1 db1 =
               (Throw (UnauthorizedException "Invalid credentials"), db1)).
  { rewrite signIn_run, Hnone. destruct (storage_error env1 SelectUsers); reflexivity. }
  assert (H2 : signIn js env2 dto2 db2 =
               (Throw (UnauthorizedException "Invalid credentials"), db2)).
  { rewrite signIn_run, Hone, Hcmp.
    destruct (storage_error env2 SelectUsers); reflexivity. }
  split; [exact H1 |]. split; [exact H2 |]. rewrite H1, H2. reflexivity.
Qed.

(** ** Refresh *)

Lemma verify_rejects js env tok :
  malformed tok = true \/ bad_signature js tok = true \/ expired env tok = true ->
  exists e, verify js (now env) tok = Throw e.
Proof.
  destruct tok as [s | key c | rounds salt plain]; cbn.
  - intros _. eexists. reflexivity.
  - intros [H | [H | H]]; [discriminate H | |].
    + rewrite H. eexists. reflexivity.
    + rewrite H. destruct (negb (String.eqb key (secret js))); eexists; reflexivity.
  - intros _. eexists. reflexivity.
Qed.

Lemma verify_Ok js t tok c :
  verify js t tok = Ok c -> tok = Jwt (secret js) c.
Proof.
  destruct tok as [s | key c' | rounds salt plain]; cbn; try discriminate.
  destruct (String.eqb key (secret js)) eqn:E; cbn; [| discriminate].
  destruct (exp c' <=? t / 1000); [discriminate |].
  intro H. injection H as ->. apply String.eqb_eq in E. subst key. reflexivity.
Qed.

Lemma refreshTokens_Throw js env dto db e db' :
  refreshTokens js env dto db = (Throw e, db') ->
  e = UnauthorizedException "Token refresh failed" /\ db' = db.
Proof.
  rewrite refreshTokens_run. cbv zeta. unfold refresh_failed.
  destruct (verify js (now env) (rt_refreshToken dto)) as [decoded | e0].
  - destruct (negb (is_refresh (p_type (payload decoded)))).
    + intro H. injection H as <- <-. auto.
    + destruct (negb (token_accepted env (p_sub (payload decoded)) (rt_refreshToken dto) db)).
      * intro H. injection H as <- <-. auto.
      * destruct (storage_error env SelectUsers).
        -- intro H. injection H as <- <-. auto.
        -- destruct (with_id (p_sub (payload decoded)) db) as [| a [| b rest]];
             intro H; try discriminate H; injection H as <- <-; auto.
  - intro H. injection H as <- <-. auto.
Qed.

(** C8, as amended - [refreshTokens] throws the one
    [UnauthorizedException] `Token refresh failed` and writes nothing when
    the presented token is malformed, has a bad signature, is expired, or
    carries a type claim other than `refresh`; when the store does not
    accept the token or reports an error for the token look-up; and when the
    user look-up reports an error or does not find exactly one user.  Every
    exception [refreshTokens] throws is that same one. *)
Theorem refreshTokens_failures_collapse :
  forall (js : JwtService) (env : Env) (dto : RefreshTokenDto) (db : DB),
    (forall e db', refreshTokens js env dto db = (Throw e, db') ->
                   e = UnauthorizedException "Token refresh failed") /\
    (malformed (rt_refreshToken dto) = true \/
     bad_signature js (rt_refreshToken dto) = true \/
     expired env (rt_refreshToken dto) = true \/
     is_refresh (type_claim (rt_refreshToken dto)) = false ->
     refreshTokens js env dto db = (refresh_failed, db)) /\
    (forall c, verify js (now env) (rt_refreshToken dto) = Ok c ->
               fst (validateRefreshToken env (p_sub (payload c)) (rt_refreshToken dto) db)
               = Ok false \/
               storage_error env SelectRefreshTokens <> None \/
               storage_error env SelectUsers <> None \/
               length (with_id (p_sub (payload c)) db) <> 1%nat ->
               refreshTokens js env dto db = (refresh_failed, db)).
Proof.
  intros js env dto db. split; [| split].
  - intros e db' H. apply (refreshTokens_Throw _ _ _ _ _ _ H).
  - intro H. rewrite refreshTokens_run. cbv zeta.
    destruct (verify js (now env) (rt_refreshToken dto)) as [c | e] eqn:Hv;
      [| reflexivity].
    destruct H as [H | [H | [H | H]]].
    + destruct (verify_rejects js env (rt_refreshToken dto) (or_introl H)) as [e He].
      rewrite He in Hv. discriminate Hv.
    + destruct (verify_rejects js env (rt_refreshToken dto) (or_intror (or_introl H)))
        as [e He].
      rewrite He in Hv. discriminate Hv.
    + destruct (verify_rejects js env (rt_refreshToken dto) (or_intror (or_intror H)))
        as [e He].
      rewrite He in Hv. discriminate Hv.
    + rewrite (verify_Ok _ _ _ _ Hv) in H. cbn in H. rewrite H. reflexivity.
  - intros c Hv H. rewrite refreshTokens_run. cbv zeta. rewrite Hv.
    destruct (negb (is_refresh (p_type (payload c)))); [reflexivity |].
    destruct H as [H | [H | [H | H]]].
    + rewrite validateRefreshToken_run in H. cbn in H. injection H as H.
      rewrite H. reflexivity.
    + unfold token_accepted.
      destruct (storage_error env SelectRefreshTokens); [reflexivity | contradiction].
    + destruct (negb (token_accepted env (p_sub (payload c)) (rt_refreshToken dto) db));
        [reflexivity |].
      destruct (storage_error env SelectUsers); [reflexivity | contradiction].
    + destruct (negb (token_accepted env (p_sub (payload c)) (rt_refreshToken dto) db));
        [reflexivity |].
      destruct (storage_error env SelectUsers); [reflexivity |].
      destruct (with_id (p_sub (payload c)) db) as [| a [| b rest]]; try reflexivity.
      exfalso. apply H. reflexivity.
Qed.

(** ** Work factors *)

(** C10 - [signUp] hashes the password with work factor 12
    ([saltRounds]): whenever the store accepts the insert it returns, and
    the row it adds carries the hash of the submitted password made with
    cost 12 and the salt drawn; every row a successful [signUp] adds is that
    one.  [storeRefreshToken] hashes the token with work factor 8: whenever
    the store accepts the upsert of a new row, the record added carries the
    hash of the token made with cost 8, and every record in the table
    afterwards was there before or carries that hash.  [revokeRefreshToken]
    hashes the token anew with work factor 8: with a token that verifies and
    a store that answers, the records that go are exactly those of the
    token's subject whose [token_hash] is the hash of the token made with
    cost 8 and the salt drawn for the revocation. *)
Theorem work_factors :
  forall (js : JwtService) (env : Env),
    saltRounds = 12 /\
    (forall dto db,
        storage_error env InsertUsers = None ->
        existsb (fun u => String.eqb (u_id u) (uuid_users env)) (users db) = false ->
        existsb (fun u => String.eqb (u_email u) (su_email dto)) (users db) = false ->
        exists r db' row,
          signUp js env dto db = (Ok r, db') /\
          users db' = users db ++ [row] /\
          u_password row = bcrypt_hash (su_password dto) 12 (salt_password env) /\
          hash_rounds (u_password row) = Some 12) /\
    (forall dto db r db',
        signUp js env dto db = (Ok r, db') ->
        exists row, users db' = users db ++ [row] /\
                    u_password row = bcrypt_hash (su_password dto) 12 (salt_password env)) /\
    (forall userId tok db,
        storage_error env UpsertRefreshTokens = None ->
        existsb (fun u => String.eqb (u_id u) userId) (users db) = true ->
        existsb (fun r => String.eqb (t_id r) (uuid_refresh_tokens env))
                (refresh_tokens db) = false ->
        salt_is_new (salt_store env) db = true ->
        exists rec,
          refresh_tokens (snd (storeRefreshToken env userId tok db))
            = refresh_tokens db ++ [rec] /\
          t_user_id rec = userId /\
          t_token_hash rec = bcrypt_hash tok 8 (salt_store env) /\
          hash_rounds (t_token_hash rec) = Some 8) /\
    (forall userId tok db r,
        In r (refresh_tokens (snd (storeRefreshToken env userId tok db))) ->
        In r (refresh_tokens db) \/
        t_token_hash r = bcrypt_hash tok 8 (salt_store env)) /\
    (forall tok db c,
        verify js (now env) tok = Ok c ->
        storage_error env DeleteRefreshTokens = None ->
        forall r,
          In r (refresh_tokens (snd (revokeRefreshToken js env tok db))) <->
          In r (refresh_tokens db) /\
          ~ (t_user_id r = p_sub (payload c) /\
             t_token_hash r = bcrypt_hash tok 8 (salt_revoke env))).
Proof.
  intros js env. split; [reflexivity |]. split; [| split; [| split; [| split]]].
  - intros dto db Hs Hi He.
    exists (auth_response js env (new_user env dto)).
    exists (snd (storeRefreshToken env (u_id (new_user env dto))
                   (refreshToken (auth_response js env (new_user env dto)))
                   (mkDB (users db ++ [new_user env dto]) (refresh_tokens db)))).
    exists (new_user env dto).
    split; [| split; [| split; reflexivity]].
    + rewrite signUp_run. cbv zeta. rewrite Hs, Hi, He.
      unfold with_email. rewrite (existsb_false_filter _ _ He).
      destruct (storage_error env SelectUsers); reflexivity.
    + rewrite storeRefreshToken_users. reflexivity.
  - intros dto db r db' H.
    destruct (signUp_Ok_users _ _ _ _ _ _ H) as [Hu _].
    exists (new_user env dto). split; [exact Hu | reflexivity].
  - intros userId tok db Hs Hu Hid Hsalt.
    exists (stored_record env userId tok).
    rewrite (storeRefreshToken_appends env userId tok db Hs Hu Hid Hsalt).
    repeat split.
  - intros userId tok db r H.
    destruct (storeRefreshToken_records _ _ _ _ _ H) as [Hin | ->].
    + left. exact Hin.
    + right. reflexivity.
  - intros tok db c Hv Hs r. rewrite revokeRefreshToken_run, Hv, Hs.
    cbn [snd refresh_tokens]. rewrite filter_In, negb_true_iff, andb_false_iff.
    split; intros [Hin H]; (split; [exact Hin |]).
    + intros [Eu Eh]. destruct H as [H | H].
      * apply String.eqb_neq in H. contradiction.
      * rewrite Eh, text_eqb_refl in H. discriminate H.
    + destruct (String.eqb (t_user_id r) (p_sub (payload c))) eqn:Eu; [| left; reflexivity].
      right. apply not_true_is_false. intro Eh. apply H.
      split; [apply String.eqb_eq; exact Eu | apply text_eqb_eq; exact Eh].
Qed.

(** ** The concrete run *)

Example ex_signUp_succeeds :
  signUp ex_jwt (ex_env 1000 "1") ex_signUpDto ex_db0 = (Ok ex_response1, ex_db1).
Proof. vm_compute. reflexivity. Qed.

Example ex_db1_one_record :
  map t_token_hash (refresh_tokens ex_db1) = [bcrypt_hash ex_token1 8 "store-salt-1"].
Proof. vm_compute. reflexivity. Qed.

Example ex_header : base64url header_json = "eyJhbGciOiJIUzI1NiIsInR5cCI6IkpXVCJ9".
Proof. vm_compute. reflexivity. Qed.

Example ex_token1_input :
  bcrypt_input ex_token1 =
  Str "eyJhbGciOiJIUzI1NiIsInR5cCI6IkpXVCJ9.eyJzdWIiOiJ1c2VyLTEiLCJ0eXBlIjoicmV".
Proof. vm_compute. reflexivity. Qed.

(** The seventy-two bytes read of these tokens end within the type claim,
    before [iat]: the token of the first refresh is the same to bcrypt as
    the token of the sign-up. *)
Example ex_token2_input : bcrypt_input ex_token2 = bcrypt_input ex_token1.
Proof. vm_compute. reflexivity. Qed.

Example ex_key_bytes :
  key_bytes 7 "ab" "ab" = ("ab" ++ char 0 ++ "ab" ++ char 0 ++ "a")%string.
Proof. vm_compute. reflexivity. Qed.

Example ex_long_password_input :
  String.length ex_seventy_two = 72%nat /\
  bcrypt_input (Str ex_long_password) = Str ex_seventy_two /\
  bcrypt_input (Str ex_other_password) = Str ex_seventy_two.
Proof. vm_compute. repeat split; reflexivity. Qed.

Lemma revokeRefreshToken_deletes_nothing_witness :
  salt_is_new (salt_revoke (ex_env 5000 "2")) ex_db1 = true /\
  (forall r, In r (refresh_tokens ex_db1) ->
             t_token_hash r <> bcrypt_hash ex_token1 8 (salt_revoke (ex_env 5000 "2"))) /\
  snd (revokeRefreshToken ex_jwt (ex_env 5000 "2") ex_token1 ex_db1) = ex_db1.
Proof.
  split.
  - vm_compute. reflexivity.
  - apply (revokeRefreshToken_deletes_nothing ex_jwt (ex_env 5000 "2") ex_token1 ex_db1).
    vm_compute. reflexivity.
Defined.

Lemma signIn_failures_indistinguishable_witness :
  signIn ex_jwt (ex_env 5000 "2") (mkSignInDto "nobody@b.com" (Str "Str0ng!Passw0rd")) ex_db1 =
    (Throw (UnauthorizedException "Invalid credentials"), ex_db1) /\
  signIn ex_jwt (ex_env 5000 "2") (mkSignInDto "a@b.com" (Str "wrong")) ex_db1 =
    (Throw (UnauthorizedException "Invalid credentials"), ex_db1) /\
  fst (signIn ex_jwt (ex_env 5000 "2")
         (mkSignInDto "nobody@b.com" (Str "Str0ng!Passw0rd")) ex_db1) =
  fst (signIn ex_jwt (ex_env 5000 "2") (mkSignInDto "a@b.com" (Str "wrong")) ex_db1).
Proof.
  apply (signIn_failures_indistinguishable ex_jwt (ex_env 5000 "2") (ex_env 5000 "2")
           ex_db1 ex_db1 (mkSignInDto "nobody@b.com" (Str "Str0ng!Passw0rd"))
           (mkSignInDto "a@b.com" (Str "wrong"))
           (new_user (ex_env 1000 "1") ex_signUpDto)
           (Str "Str0ng!Passw0rd") saltRounds "pw-salt-1").
  - vm_compute. reflexivity.
  - vm_compute. reflexivity.
  - reflexivity.
  - apply bcrypt_input_short; [reflexivity | reflexivity | | | discriminate];
      vm_compute; repeat constructor.
Defined.

(** C5, as stated, fails: the user registered with a password of
    seventy-five bytes, which the sign-up DTO admits (twelve to 128
    characters, matching [PASSWORD.STRONG]); a [signIn] with a password that
    differs from it in the last three bytes is not refused but answered with
    the token pair and the profile. *)
Lemma signIn_accepts_wrong_password :
  su_password ex_long_signUpDto <> si_password ex_other_signInDto /\
  (12 <= String.length ex_long_password <= 128)%nat /\
  test STRONG (lit ex_long_password) = true /\
  signUp ex_jwt (ex_env 1000 "1") ex_long_signUpDto ex_db0
    = (Ok (auth_response ex_jwt (ex_env 1000 "1")
             (new_user (ex_env 1000 "1") ex_long_signUpDto)), ex_db_long) /\
  with_email "long@b.com" ex_db_long = [new_user (ex_env 1000 "1") ex_long_signUpDto] /\
  fst (signIn ex_jwt (ex_env 3000 "2") ex_other_signInDto ex_db_long)
    = Ok (auth_response ex_jwt (ex_env 3000 "2")
            (new_user (ex_env 1000 "1") ex_long_signUpDto)) /\
  fst (signIn ex_jwt (ex_env 3000 "2") ex_other_signInDto ex_db_long)
    <> Throw (UnauthorizedException "Invalid credentials").
Proof.
  split; [| split; [| split; [| split; [| split; [| split]]]]].
  - vm_compute. intro E. discriminate E.
  - vm_compute. split; repeat constructor.
  - vm_compute. reflexivity.
  - vm_compute. reflexivity.
  - vm_compute. reflexivity.
  - vm_compute. reflexivity.
  - vm_compute. intro E. discriminate E.
Qed.

Lemma signUp_postcondition_witness :
  (exists c, verify ex_jwt 1000 (accessToken ex_response1) = Ok c /\
             p_email (payload c) = Some "a@b.com" /\
             p_firstName (payload c) = Some "A" /\
             p_lastName (payload c) = Some "B") /\
  (exists row, with_email "a@b.com" ex_db1 = [row] /\
               u_password row = bcrypt_hash (Str "Str0ng!Passw0rd") saltRounds "pw-salt-1" /\
               u_password row <> Str "Str0ng!Passw0rd" /\
               user ex_response1 = mkAuthUserDto (u_id row) "a@b.com" "A" "B").
Proof.
  apply (signUp_postcondition ex_jwt (ex_env 1000 "1") ex_signUpDto ex_db0
           ex_response1 ex_db1).
  vm_compute. reflexivity.
Defined.



Lemma work_factors_witness :
  (exists r db' row,
     signUp ex_jwt (ex_env 1000 "1") ex_signUpDto ex_db0 = (Ok r, db') /\
     users db' = users ex_db0 ++ [row] /\
     u_password row = bcrypt_hash (Str "Str0ng!Passw0rd") 12 "pw-salt-1" /\
     hash_rounds (u_password row) = Some 12) /\
  (exists rec,
     refresh_tokens (snd (storeRefreshToken (ex_env 5000 "2") "user-1" ex_token2 ex_db1))
       = refresh_tokens ex_db1 ++ [rec] /\
     t_user_id rec = "user-1" /\
     t_token_hash rec = bcrypt_hash ex_token2 8 "store-salt-2" /\
     hash_rounds (t_token_hash rec) = Some 8) /\
  (In (stored_record (ex_env 1000 "1") "user-1" ex_token1) (refresh_tokens ex_db1) /\
   ~ In (stored_record (ex_env 1000 "1") "user-1" ex_token1)
        (refresh_tokens (snd (revokeRefreshToken ex_jwt ex_env_same_salt ex_token1 ex_db1)))).
Proof.
  split; [| split; [| split]].
  - destruct (work_factors ex_jwt (ex_env 1000 "1")) as [_ [H _]].
    apply (H ex_signUpDto ex_db0); reflexivity.
  - destruct (work_factors ex_jwt (ex_env 5000 "2")) as [_ [_ [_ [H _]]]].
    apply (H "user-1" ex_token2 ex_db1); vm_compute; reflexivity.
  - vm_compute. left. reflexivity.
  - destruct (work_factors ex_jwt ex_env_same_salt) as [_ [_ [_ [_ [_ H]]]]].
    assert (Hv : verify ex_jwt (now ex_env_same_salt) ex_token1
                 = Ok (mkClaims (refresh_payload "user-1") 1 604801))
      by (vm_compute; reflexivity).
    intro Hin. destruct (proj1 (H ex_token1 ex_db1 _ Hv eq_refl _) Hin) as [_ Hn].
    apply Hn. split; vm_compute; reflexivity.
Defined.

(** C8, as stated, fails: the store reports an error for the upsert of the
    new refresh token, nothing is written, and [refreshTokens] still returns
    the new pair instead of throwing. *)
Lemma refreshTokens_hides_upsert_error :
  storage_error ex_env_upsert_fails UpsertRefreshTokens
    = Some (mkError "connection refused") /\
  refreshTokens ex_jwt ex_env_upsert_fails (mkRefreshTokenDto ex_token1) ex_db1
    = (Ok ex_response2, ex_db1) /\
  fst (refreshTokens ex_jwt ex_env_upsert_fails (mkRefreshTokenDto ex_token1) ex_db1)
    <> refresh_failed.
Proof.
  split; [reflexivity |]. split; [vm_compute; reflexivity |].
  vm_compute. discriminate.
Qed.

(** ** Rotation, logout and the number of records per user *)

(** C1 - On the concrete run the first refresh with the sign-up token
    succeeds and returns a new token; the store then holds two unexpired
    records of the user, and a refresh with the old token and a refresh with
    the new token both throw `Token refresh failed`. *)
Theorem rotation_rejects_new_token :
  refreshTokens ex_jwt (ex_env 5000 "2") (mkRefreshTokenDto ex_token1) ex_db1
    = (Ok ex_response2, ex_db2) /\
  length (live_records (ex_env 9000 "3") "user-1" ex_db2) = 2%nat /\
  fst (refreshTokens ex_jwt (ex_env 9000 "3") (mkRefreshTokenDto ex_token1) ex_db2)
    = refresh_failed /\
  fst (refreshTokens ex_jwt (ex_env 9000 "3") (mkRefreshTokenDto ex_token2) ex_db2)
    = refresh_failed.
Proof. vm_compute. repeat split; reflexivity. Qed.

(** C2 - On the concrete run [logout] with the sign-up token returns
    without error and leaves the store as it was, and a refresh with the
    same token afterwards succeeds. *)
Theorem logout_leaves_token_usable :
  logout ex_jwt (ex_env 5000 "2") ex_token1 ex_db1 = (Ok tt, ex_db1) /\
  fst (refreshTokens ex_jwt (ex_env 9000 "3") (mkRefreshTokenDto ex_token1)
         (snd (logout ex_jwt (ex_env 5000 "2") ex_token1 ex_db1)))
    = Ok (refresh_response ex_jwt (ex_env 9000 "3")
            (mkUserSelect "user-1" "a@b.com" "A" "B")).
Proof. vm_compute. split; reflexivity. Qed.

(** C3 - On the concrete run a sign-up followed by a sign-in of the same
    user leaves two refresh-token records of that user in the store. *)
Theorem signIn_adds_second_record :
  length (records_of "user-1" ex_db1) = 1%nat /\
  fst (signIn ex_jwt (ex_env 3000 "2")
         (mkSignInDto "a@b.com" (Str "Str0ng!Passw0rd")) ex_db1)
    = Ok (auth_response ex_jwt (ex_env 3000 "2") (new_user (ex_env 1000 "1") ex_signUpDto)) /\
  length (records_of "user-1" ex_db_signedIn) = 2%nat.
Proof. vm_compute. repeat split; reflexivity. Qed.

(** ** The same three behaviours in general *)

Lemma filter_length {A} (f : A -> bool) (l : list A) :
  (length (filter f l) <= length l)%nat.
Proof.
  induction l as [| a l IH]; cbn; [lia |]. destruct (f a); cbn; lia.
Qed.

Lemma filter_full {A} (f : A -> bool) (l : list A) :
  length (filter f l) = length l -> filter f l = l.
Proof.
  induction l as [| a l IH]; cbn; [reflexivity |].
  destruct (f a); cbn; intro H.
  - f_equal. apply IH. lia.
  - pose proof (filter_length f l). lia.
Qed.

(** The table after [storeRefreshToken] has as many rows as before, or the
    rows it had followed by the row just written. *)
Lemma storeRefreshToken_cases env userId tok db :
  length (refresh_tokens (snd (storeRefreshToken env userId tok db)))
    = length (refresh_tokens db) \/
  refresh_tokens (snd (storeRefreshToken env userId tok db))
    = refresh_tokens db ++ [stored_record env userId tok].
Proof.
  unfold storeRefreshToken, upsert_refresh_tokens, bind, ret, stored_record.
  destruct (storage_error env UpsertRefreshTokens); [left; reflexivity |].
  repeat match goal with |- context [if ?c then _ else _] => destruct c end;
    cbn; auto.
  left. apply length_map.
Qed.

Lemma revokeRefreshToken_records js env tok db :
  (length (refresh_tokens (snd (revokeRefreshToken js env tok db)))
     <= length (refresh_tokens db))%nat /\
  (length (refresh_tokens (snd (revokeRefreshToken js env tok db)))
     = length (refresh_tokens db) ->
   refresh_tokens (snd (revokeRefreshToken js env tok db)) = refresh_tokens db).
Proof.
  rewrite revokeRefreshToken_run.
  destruct (verify js (now env) tok); [| cbn; auto].
  destruct (storage_error env DeleteRefreshTokens); [cbn; auto |].
  cbn. split; [apply filter_length | apply filter_full].
Qed.

Lemma with_id_one i db u : with_id i db = [u] -> u_id u = i.
Proof.
  intro H. assert (Hin : In u (with_id i db)) by (rewrite H; left; reflexivity).
  unfold with_id in Hin. apply filter_In in Hin. destruct Hin as [_ E].
  apply String.eqb_eq. exact E.
Qed.

(** A successful [refreshTokens], taken apart. *)
Lemma refreshTokens_Ok js env dto db r db' :
  refreshTokens js env dto db = (Ok r, db') ->
  exists c u,
    verify js (now env) (rt_refreshToken dto) = Ok c /\
    with_id (p_sub (payload c)) db = [u] /\
    r = refresh_response js env (user_select u) /\
    db' = snd (revokeRefreshToken js env (rt_refreshToken dto)
                 (snd (storeRefreshToken env (u_id u) (new_refreshToken r) db))).
Proof.
  rewrite refreshTokens_run. cbv zeta. unfold refresh_failed.
  destruct (verify js (now env) (rt_refreshToken dto)) as [c | e]; [| discriminate].
  destruct (negb (is_refresh (p_type (payload c)))); [discriminate |].
  destruct (negb (token_accepted env (p_sub (payload c)) (rt_refreshToken dto) db));
    [discriminate |].
  destruct (storage_error env SelectUsers); [discriminate |].
  destruct (with_id (p_sub (payload c)) db) as [| u [| b rest]] eqn:Hw;
    try discriminate.
  intro H. injection H as <- <-. exists c, u.
  split; [reflexivity |]. split; [exact Hw |]. split; reflexivity.
Qed.

(** Rotation in general: when a refresh succeeds and its new record is added
    to the table with nothing deleted, the token it returned is rejected by
    any later refresh made while some older record of the user is still
    unexpired. *)
Lemma refreshTokens_new_token_rejected js env env' dto db r db' c :
  refreshTokens js env dto db = (Ok r, db') ->
  length (refresh_tokens db') = S (length (refresh_tokens db)) ->
  verify js (now env) (rt_refreshToken dto) = Ok c ->
  live_records env' (p_sub (payload c)) db <> [] ->
  fst (refreshTokens js env' (mkRefreshTokenDto (new_refreshToken r)) db') = refresh_failed.
Proof.
  intros H Hlen Hv Hlive.
  destruct (refreshTokens_Ok _ _ _ _ _ _ H) as [c0 [u [Hv0 [Hu [Hr Hdb]]]]].
  rewrite Hv in Hv0. injection Hv0 as <-.
  pose proof (with_id_one _ _ _ Hu) as Hid.
  set (tok' := new_refreshToken r) in *.
  assert (Hrecs : refresh_tokens db' =
                  refresh_tokens db ++ [stored_record env (u_id u) tok']).
  { destruct (revokeRefreshToken_records js env (rt_refreshToken dto)
                (snd (storeRefreshToken env (u_id u) tok' db))) as [Hle Heq].
    rewrite <- Hdb in Hle, Heq.
    destruct (storeRefreshToken_cases env (u_id u) tok' db) as [Hsame | Happ].
    - rewrite Hsame in Hle. lia.
    - rewrite Happ in Hle, Heq. rewrite Heq; [reflexivity |].
      rewrite Hlen, length_app. cbn. lia. }
  rewrite refreshTokens_run. cbv zeta. cbn [rt_refreshToken].
  destruct (verify js (now env') tok') as [c' | e] eqn:Hv'; [| reflexivity].
  assert (Hc' : c' = mkClaims (refresh_payload (u_id u)) (now env / 1000)
                       (now env / 1000 + refreshTokenExpiresIn)).
  { apply verify_Ok in Hv'. subst tok' r. cbn in Hv'. unfold sign in Hv'.
    injection Hv' as Hc. symmetry. exact Hc. }
  assert (Hfresh : now env' <= now env + 7 * 24 * 60 * 60 * 1000).
  { subst tok' r. cbn in Hv'. rewrite String.eqb_refl in Hv'. cbn in Hv'.
    match type of Hv' with
    | (if ?b then _ else _) = _ => destruct b eqn:E; [discriminate Hv' |]
    end.
    apply Z.leb_gt in E. Z.to_euclidean_division_equations. lia. }
  subst c'. cbn [payload refresh_payload p_type p_sub is_refresh].
  rewrite String.eqb_refl. cbn [negb].
  assert (Hrej : token_accepted env' (u_id u) tok' db' = false).
  { unfold token_accepted, live_records. rewrite Hrecs, filter_app.
    destruct (storage_error env' SelectRefreshTokens); [reflexivity |].
    rewrite <- Hid in Hlive. unfold live_records in Hlive.
    destruct (filter _ (refresh_tokens db)) as [| a rest]; [contradiction |].
    cbn [filter stored_record t_user_id t_expires_at].
    rewrite String.eqb_refl. cbn [andb].
    destruct (now env' <=? now env + 7 * 24 * 60 * 60 * 1000) eqn:E.
    - destruct rest; reflexivity.
    - apply Z.leb_gt in E. lia. }
  rewrite Hrej. reflexivity.
Qed.

(** Logout in general: when the salt drawn is the salt of no stored hash,
    [logout] leaves the store as it was, so a refresh after it behaves as a
    refresh in its place would have. *)
Lemma logout_new_salt js env tok db :
  salt_is_new (salt_revoke env) db = true ->
  snd (logout js env tok db) = db.
Proof.
  intro H. rewrite logout_run.
  destruct (verify js (now env) tok) eqn:Hv; [| reflexivity].
  cbn. apply revokeRefreshToken_new_salt. exact H.
Qed.

Lemma refreshTokens_after_logout js env env' tok dto db :
  salt_is_new (salt_revoke env) db = true ->
  refreshTokens js env' dto (snd (logout js env tok db)) = refreshTokens js env' dto db.
Proof. intro H. rewrite logout_new_salt by exact H. reflexivity. Qed.

(** Records per user in general: a [signIn] that succeeds while the store
    answers the upsert, with a new identifier and a new salt, adds a record
    for the user and keeps the records the user had. *)
Lemma signIn_adds_record js env dto db r db' :
  signIn js env dto db = (Ok r, db') ->
  storage_error env UpsertRefreshTokens = None ->
  existsb (fun x => String.eqb (t_id x) (uuid_refresh_tokens env)) (refresh_tokens db)
    = false ->
  salt_is_new (salt_store env) db = true ->
  length (records_of (user_id (user r)) db')
    = S (length (records_of (user_id (user r)) db)).
Proof.
  rewrite signIn_run. intros H Hs Hid Hsalt.
  destruct (storage_error env SelectUsers); [discriminate H |].
  destruct (with_email (si_email dto) db) as [| u [| b rest]] eqn:Hw;
    try discriminate H.
  destruct (bcrypt_compare (si_password dto) (u_password u)); [| discriminate H].
  injection H as <- <-. cbn [user auth_response user_id refreshToken].
  assert (Hu : existsb (fun x => String.eqb (u_id x) (u_id u)) (users db) = true).
  { apply existsb_exists. exists u. split; [| apply String.eqb_refl].
    assert (Hin : In u (with_email (si_email dto) db)) by (rewrite Hw; left; reflexivity).
    unfold with_email in Hin. apply filter_In in Hin. tauto. }
  rewrite (storeRefreshToken_appends _ _ _ _ Hs Hu Hid Hsalt).
  unfold records_of. cbn [refresh_tokens]. rewrite filter_app, length_app.
  cbn. rewrite String.eqb_refl. cbn. lia.
Qed.

(** * Further properties of the authentication flows *)

(** ** Sign-in *)

Lemma signIn_Ok js env dto db r db' :
  signIn js env dto db = (Ok r, db') ->
  exists u,
    storage_error env SelectUsers = None /\
    with_email (si_email dto) db = [u] /\
    bcrypt_compare (si_password dto) (u_password u) = true /\
    r = auth_response js env u /\
    db' = snd (storeRefreshToken env (u_id u) (refreshToken r) db).
Proof.
  rewrite signIn_run. intro H.
  destruct (storage_error env SelectUsers); [discriminate H |].
  destruct (with_email (si_email dto) db) as [| u [| b rest]]; try discriminate H.
  destruct (bcrypt_compare (si_password dto) (u_password u)) eqn:Hc; [| discriminate H].
  injection H as <- <-. exists u. repeat split; auto.
Qed.

Lemma with_email_In e db u : with_email e db = [u] -> In u (users db) /\ u_email u = e.
Proof.
  intro H. assert (Hin : In u (with_email e db)) by (rewrite H; left; reflexivity).
  unfold with_email in Hin. apply filter_In in Hin. destruct Hin as [Hin E].
  split; [exact Hin | apply String.eqb_eq; exact E].
Qed.

(** X1 - A successful [signIn] found exactly one row with the e-mail, whose
    password hash matches the submitted password; the profile returned is
    that row's; both tokens verify at the time of the call, the access token
    to the row's id, e-mail and names and the refresh token to the row's id
    with type `refresh`; the two tokens differ; the users table is
    unchanged. *)
Theorem signIn_postcondition :
  forall (js : JwtService) (env : Env) (dto : SignInDto) (db : DB)
         (r : AuthResponseDto) (db' : DB),
    signIn js env dto db = (Ok r, db') ->
    exists u,
      with_email (si_email dto) db = [u] /\
      bcrypt_compare (si_password dto) (u_password u) = true /\
      user r = profile u /\
      (exists c, verify js (now env) (accessToken r) = Ok c /\
                 payload c = access_payload (user_select u)) /\
      (exists c, verify js (now env) (refreshToken r) = Ok c /\
                 payload c = refresh_payload (u_id u)) /\
      accessToken r <> refreshToken r /\
      users db' = users db.
Proof.
  intros js env dto db r db' H.
  destruct (signIn_Ok _ _ _ _ _ _ H) as [u [_ [Hw [Hc [Hr Hdb]]]]].
  exists u. subst r. cbn [auth_response user accessToken refreshToken] in *.
  split; [exact Hw |]. split; [exact Hc |]. split; [reflexivity |].
  split; [| split; [| split]].
  - rewrite verify_sign by (unfold accessTokenExpiresIn; lia).
    eexists. split; reflexivity.
  - rewrite verify_sign by (unfold refreshTokenExpiresIn; lia).
    eexists. split; reflexivity.
  - unfold sign, access_payload, refresh_payload. intro E. discriminate E.
  - rewrite Hdb. apply storeRefreshToken_users.
Qed.

Lemma signIn_postcondition_witness :
  exists u,
    with_email "a@b.com" ex_db1 = [u] /\
    bcrypt_compare (Str "Str0ng!Passw0rd") (u_password u) = true /\
    user (auth_response ex_jwt (ex_env 3000 "2") (new_user (ex_env 1000 "1") ex_signUpDto))
      = profile u /\
    (exists c, verify ex_jwt 3000
                 (accessToken (auth_response ex_jwt (ex_env 3000 "2")
                                 (new_user (ex_env 1000 "1") ex_signUpDto))) = Ok c /\
               payload c = access_payload (user_select u)) /\
    (exists c, verify ex_jwt 3000
                 (refreshToken (auth_response ex_jwt (ex_env 3000 "2")
                                  (new_user (ex_env 1000 "1") ex_signUpDto))) = Ok c /\
               payload c = refresh_payload (u_id u)) /\
    accessToken (auth_response ex_jwt (ex_env 3000 "2") (new_user (ex_env 1000 "1") ex_signUpDto))
      <> refreshToken (auth_response ex_jwt (ex_env 3000 "2")
                         (new_user (ex_env 1000 "1") ex_signUpDto)) /\
    users ex_db_signedIn = users ex_db1.
Proof.
  apply (signIn_postcondition ex_jwt (ex_env 3000 "2")
           (mkSignInDto "a@b.com" (Str "Str0ng!Passw0rd")) ex_db1
           (auth_response ex_jwt (ex_env 3000 "2") (new_user (ex_env 1000 "1") ex_signUpDto))
           ex_db_signedIn).
  vm_compute. reflexivity.
Defined.

(** X2 - After a successful [signUp], a [signIn] with the same e-mail and
    password succeeds whenever the store answers the look-up; it returns the
    profile the sign-up returned and leaves the users table as it was. *)
Theorem signIn_after_signUp :
  forall (js : JwtService) (env1 env2 : Env) (dto : SignUpDto) (db : DB)
         (r : AuthResponseDto) (db1 : DB),
    signUp js env1 dto db = (Ok r, db1) ->
    storage_error env2 SelectUsers = None ->
    exists r2 db2,
      signIn js env2 (mkSignInDto (su_email dto) (su_password dto)) db1 = (Ok r2, db2) /\
      user r2 = user r /\
      users db2 = users db1.
Proof.
  intros js env1 env2 dto db r db1 H Hs.
  destruct (signUp_Ok _ _ _ _ _ _ H) as [_ [Hr _]].
  destruct (signUp_Ok_users _ _ _ _ _ _ H) as [_ Hone].
  rewrite signIn_run. cbn [si_email si_password]. rewrite Hs, Hone.
  cbn [new_user u_password]. rewrite bcrypt_compare_hash.
  eexists. eexists. split; [reflexivity |]. split.
  - subst r. reflexivity.
  - apply storeRefreshToken_users.
Qed.

Lemma signIn_after_signUp_witness :
  exists r2 db2,
    signIn ex_jwt (ex_env 3000 "2") (mkSignInDto "a@b.com" (Str "Str0ng!Passw0rd")) ex_db1
      = (Ok r2, db2) /\
    user r2 = user ex_response1 /\
    users db2 = users ex_db1.
Proof.
  apply (signIn_after_signUp ex_jwt (ex_env 1000 "1") (ex_env 3000 "2") ex_signUpDto
           ex_db0 ex_response1 ex_db1).
  - vm_compute. reflexivity.
  - reflexivity.
Defined.

(** ** Token lifetimes *)

Lemma verify_sign_at js p expiresIn t t' :
  verify js t' (sign js p expiresIn t) =
  if t / 1000 + expiresIn <=? t' / 1000 then Throw TokenExpiredError
  else Ok (mkClaims p (t / 1000) (t / 1000 + expiresIn)).
Proof. unfold verify, sign. cbn. rewrite String.eqb_refl. reflexivity. Qed.

Lemma verify_sign_iff js p expiresIn t t' :
  (exists c, verify js t' (sign js p expiresIn t) = Ok c) <->
  t' / 1000 < t / 1000 + expiresIn.
Proof.
  rewrite verify_sign_at.
  destruct (t / 1000 + expiresIn <=? t' / 1000) eqn:E.
  - apply Z.leb_le in E. split; [intros [c Hc]; discriminate Hc | lia].
  - apply Z.leb_gt in E. split; [intros _; exact E | intros _; eexists; reflexivity].
Qed.

(** X3 - The access token a successful [signIn] returns verifies at a later
    clock exactly while fewer than 900 whole seconds (15 minutes) have
    passed since the second of issue, and the refresh token exactly while
    fewer than 604800 seconds (7 days) have. *)
Theorem issued_tokens_lifetime :
  forall (js : JwtService) (env : Env) (dto : SignInDto) (db : DB)
         (r : AuthResponseDto) (db' : DB),
    signIn js env dto db = (Ok r, db') ->
    forall t : Z,
      ((exists c, verify js t (accessToken r) = Ok c) <->
       t / 1000 < now env / 1000 + 900) /\
      ((exists c, verify js t (refreshToken r) = Ok c) <->
       t / 1000 < now env / 1000 + 604800).
Proof.
  intros js env dto db r db' H t.
  destruct (signIn_Ok _ _ _ _ _ _ H) as [u [_ [_ [_ [Hr _]]]]].
  subst r. cbn [auth_response accessToken refreshToken].
  split; apply verify_sign_iff.
Qed.

Lemma issued_tokens_lifetime_witness :
  ((exists c, verify ex_jwt 902999
                (accessToken (auth_response ex_jwt (ex_env 3000 "2")
                                (new_user (ex_env 1000 "1") ex_signUpDto))) = Ok c) <->
   902999 / 1000 < now (ex_env 3000 "2") / 1000 + 900) /\
  ((exists c, verify ex_jwt 902999
                (refreshToken (auth_response ex_jwt (ex_env 3000 "2")
                                 (new_user (ex_env 1000 "1") ex_signUpDto))) = Ok c) <->
   902999 / 1000 < now (ex_env 3000 "2") / 1000 + 604800).
Proof.
  apply (issued_tokens_lifetime ex_jwt (ex_env 3000 "2")
           (mkSignInDto "a@b.com" (Str "Str0ng!Passw0rd")) ex_db1
           (auth_response ex_jwt (ex_env 3000 "2") (new_user (ex_env 1000 "1") ex_signUpDto))
           ex_db_signedIn).
  vm_compute. reflexivity.
Defined.

(** ** The JWT strategy *)

Lemma validateUser_run env p db :
  validateUser env p db =
  (Ok match storage_error env SelectUsers, with_id (p_sub p) db with
      | None, [u] => Some (user_select u)
      | _, _ => None
      end, db).
Proof.
  unfold validateUser, select_single, bind, ret, with_id.
  destruct (storage_error env SelectUsers); [reflexivity |].
  destruct (filter _ (users db)) as [| a [| b rest]]; reflexivity.
Qed.

Lemma validate_run env p db :
  validate env p db =
  (Ok match storage_error env SelectUsers, with_id (p_sub p) db with
      | None, [u] => Some (profile u)
      | _, _ => None
      end, db).
Proof.
  unfold validate, bind. rewrite validateUser_run.
  destruct (storage_error env SelectUsers); [reflexivity |].
  destruct (with_id (p_sub p) db) as [| a [| b rest]]; reflexivity.
Qed.

(** X4 - A request the strategy accepts carried a bearer token that
    verifies at the time of the request, exactly one stored user has the id
    in the token's subject, and the user put on the request is the profile
    of that stored row (not the claims of the token); the store is not
    touched.  A request with no bearer token, or with a token that does not
    verify, is rejected. *)
Theorem authenticate_sound :
  forall (js : JwtService) (env : Env) (bearer : option text) (db : DB),
    snd (authenticate js env bearer db) = db /\
    (forall a, fst (authenticate js env bearer db) = Ok (Some a) ->
               exists token c u,
                 bearer = Some token /\
                 verify js (now env) token = Ok c /\
                 with_id (p_sub (payload c)) db = [u] /\
                 a = profile u) /\
    (bearer = None \/
     (exists token e, bearer = Some token /\ verify js (now env) token = Throw e) ->
     fst (authenticate js env bearer db) = Ok None).
Proof.
  intros js env bearer db. unfold authenticate.
  destruct bearer as [token |].
  - destruct (verify js (now env) token) as [c | e] eqn:Hv.
    + rewrite validate_run. cbn [fst snd]. split; [reflexivity |]. split.
      * intros a Ha. exists token, c.
        destruct (storage_error env SelectUsers); [discriminate Ha |].
        destruct (with_id (p_sub (payload c)) db) as [| u [| b rest]];
          try discriminate Ha.
        injection Ha as <-. exists u.
        split; [reflexivity |]. split; [exact Hv |]. split; reflexivity.
      * intros [Hn | [token' [e [Hb He]]]]; [discriminate Hn |].
        injection Hb as <-. rewrite He in Hv. discriminate Hv.
    + cbn. split; [reflexivity |]. split; [intros a Ha; discriminate Ha | reflexivity].
  - cbn. split; [reflexivity |]. split; [intros a Ha; discriminate Ha | reflexivity].
Qed.

Lemma with_id_pkey db u :
  users_pkey db -> In u (users db) -> with_id (u_id u) db = [u].
Proof.
  unfold users_pkey, with_id. induction (users db) as [| a l IH]; cbn; [contradiction |].
  intros Hnd [-> | Hin].
  - rewrite String.eqb_refl. f_equal. inversion Hnd as [| x l' Hnot Hnd']; subst.
    apply filter_all_false. intros x Hx.
    apply String.eqb_neq. intro E. apply Hnot. rewrite <- E. apply in_map. exact Hx.
  - inversion Hnd as [| x l' Hnot Hnd']; subst.
    destruct (String.eqb (u_id a) (u_id u)) eqn:E.
    + apply String.eqb_eq in E. exfalso. apply Hnot. rewrite E. apply in_map. exact Hin.
    + apply IH; assumption.
Qed.

Lemma authenticate_issued js env env' p expiresIn u db :
  users_pkey db -> In u (users db) ->
  storage_error env' SelectUsers = None ->
  p_sub p = u_id u ->
  now env' / 1000 < now env / 1000 + expiresIn ->
  authenticate js env' (Some (sign js p expiresIn (now env))) db = (Ok (Some (profile u)), db).
Proof.
  intros Hpk Hin Hs Hsub Ht. unfold authenticate. rewrite verify_sign_at.
  destruct (now env / 1000 + expiresIn <=? now env' / 1000) eqn:E;
    [apply Z.leb_le in E; lia |].
  rewrite validate_run. cbn [payload]. rewrite Hs, Hsub, (with_id_pkey _ _ Hpk Hin).
  reflexivity.
Qed.

(** X5 - With ids unique in the users table, the access token of a
    successful [signIn], presented as bearer token within 15 minutes while
    the store answers the look-up, is accepted and the request gets the
    profile the sign-in returned. *)
Theorem access_token_authenticates :
  forall (js : JwtService) (env env' : Env) (dto : SignInDto) (db : DB)
         (r : AuthResponseDto) (db' : DB),
    signIn js env dto db = (Ok r, db') ->
    users_pkey db ->
    storage_error env' SelectUsers = None ->
    now env' / 1000 < now env / 1000 + 900 ->
    authenticate js env' (Some (accessToken r)) db' = (Ok (Some (user r)), db').
Proof.
  intros js env env' dto db r db' H Hpk Hs Ht.
  destruct (signIn_Ok _ _ _ _ _ _ H) as [u [_ [Hw [_ [Hr Hdb]]]]].
  destruct (with_email_In _ _ _ Hw) as [Hin _].
  assert (Hu : users db' = users db) by (rewrite Hdb; apply storeRefreshToken_users).
  subst r. cbn [auth_response accessToken user].
  apply (authenticate_issued js env env' _ _ u db'); auto.
  - unfold users_pkey. rewrite Hu. exact Hpk.
  - rewrite Hu. exact Hin.
Qed.

(** X6 - The strategy does not look at the type claim: with ids unique in
    the users table, the refresh token of a successful [signIn], presented
    as bearer token within 7 days while the store answers the look-up, is
    accepted like an access token and the request gets the same profile. *)
Theorem refresh_token_authenticates :
  forall (js : JwtService) (env env' : Env) (dto : SignInDto) (db : DB)
         (r : AuthResponseDto) (db' : DB),
    signIn js env dto db = (Ok r, db') ->
    users_pkey db ->
    storage_error env' SelectUsers = None ->
    now env' / 1000 < now env / 1000 + 604800 ->
    authenticate js env' (Some (refreshToken r)) db' = (Ok (Some (user r)), db').
Proof.
  intros js env env' dto db r db' H Hpk Hs Ht.
  destruct (signIn_Ok _ _ _ _ _ _ H) as [u [_ [Hw [_ [Hr Hdb]]]]].
  destruct (with_email_In _ _ _ Hw) as [Hin _].
  assert (Hu : users db' = users db) by (rewrite Hdb; apply storeRefreshToken_users).
  subst r. cbn [auth_response refreshToken user].
  apply (authenticate_issued js env env' _ _ u db'); auto.
  - unfold users_pkey. rewrite Hu. exact Hpk.
  - rewrite Hu. exact Hin.
Qed.

Lemma ex_db1_pkey : users_pkey ex_db1.
Proof.
  unfold users_pkey. vm_compute. constructor; [intros [] | constructor].
Qed.

Lemma access_token_authenticates_witness :
  authenticate ex_jwt (ex_env 600000 "3")
    (Some (accessToken (auth_response ex_jwt (ex_env 3000 "2")
                          (new_user (ex_env 1000 "1") ex_signUpDto))))
    ex_db_signedIn
  = (Ok (Some (user (auth_response ex_jwt (ex_env 3000 "2")
                       (new_user (ex_env 1000 "1") ex_signUpDto)))),
     ex_db_signedIn).
Proof.
  apply (access_token_authenticates ex_jwt (ex_env 3000 "2") (ex_env 600000 "3")
           (mkSignInDto "a@b.com" (Str "Str0ng!Passw0rd")) ex_db1).
  - vm_compute. reflexivity.
  - exact ex_db1_pkey.
  - reflexivity.
  - vm_compute. reflexivity.
Defined.

Lemma refresh_token_authenticates_witness :
  authenticate ex_jwt (ex_env 86400000 "3")
    (Some (refreshToken (auth_response ex_jwt (ex_env 3000 "2")
                           (new_user (ex_env 1000 "1") ex_signUpDto))))
    ex_db_signedIn
  = (Ok (Some (user (auth_response ex_jwt (ex_env 3000 "2")
                       (new_user (ex_env 1000 "1") ex_signUpDto)))),
     ex_db_signedIn).
Proof.
  apply (refresh_token_authenticates ex_jwt (ex_env 3000 "2") (ex_env 86400000 "3")
           (mkSignInDto "a@b.com" (Str "Str0ng!Passw0rd")) ex_db1).
  - vm_compute. reflexivity.
  - exact ex_db1_pkey.
  - reflexivity.
  - vm_compute. reflexivity.
Defined.

(** X7 - An access token is never exchanged for new tokens: whatever the
    store and the clock, [refreshTokens] with the access token of a
    successful [signIn] throws `Token refresh failed` and writes nothing. *)
Theorem access_token_not_refreshable :
  forall (js : JwtService) (env env' : Env) (dto : SignInDto) (db : DB)
         (r : AuthResponseDto) (db' db'' : DB),
    signIn js env dto db = (Ok r, db') ->
    refreshTokens js env' (mkRefreshTokenDto (accessToken r)) db'' = (refresh_failed, db'').
Proof.
  intros js env env' dto db r db' db'' H.
  destruct (signIn_Ok _ _ _ _ _ _ H) as [u [_ [_ [_ [Hr _]]]]].
  subst r. cbn [auth_response accessToken].
  rewrite refreshTokens_run. cbv zeta. cbn [rt_refreshToken].
  rewrite verify_sign_at.
  destruct (now env / 1000 + accessTokenExpiresIn <=? now env' / 1000); reflexivity.
Qed.

Lemma access_token_not_refreshable_witness :
  refreshTokens ex_jwt (ex_env 5000 "3")
    (mkRefreshTokenDto
       (accessToken (auth_response ex_jwt (ex_env 3000 "2")
                       (new_user (ex_env 1000 "1") ex_signUpDto))))
    ex_db_signedIn
  = (refresh_failed, ex_db_signedIn).
Proof.
  apply (access_token_not_refreshable ex_jwt (ex_env 3000 "2") (ex_env 5000 "3")
           (mkSignInDto "a@b.com" (Str "Str0ng!Passw0rd")) ex_db1 _ ex_db_signedIn).
  vm_compute. reflexivity.
Defined.

(** ** Sign-up, continued *)

Lemma signUp_Ok_id js env dto db r db' :
  signUp js env dto db = (Ok r, db') ->
  existsb (fun u => String.eqb (u_id u) (uuid_users env)) (users db) = false.
Proof.
  rewrite signUp_run. cbv zeta. intro H.
  destruct (existsb (fun u => String.eqb (u_id u) (uuid_users env)) (users db));
    [| reflexivity].
  exfalso.
  destruct (storage_error env SelectUsers);
    [| destruct (with_email (su_email dto) db) as [| a [| b rest]]];
    try discriminate H;
    destruct (storage_error env InsertUsers); discriminate H.
Qed.

(** X8 - [signUp] succeeds whenever the store accepts the insert: no row
    carries the e-mail or the generated id and the store reports no error
    for the insert.  (Neither an error of the preliminary look-up nor one of
    the refresh-token upsert makes it fail.) *)
Theorem signUp_succeeds :
  forall (js : JwtService) (env : Env) (dto : SignUpDto) (db : DB),
    existsb (fun u => String.eqb (u_email u) (su_email dto)) (users db) = false ->
    existsb (fun u => String.eqb (u_id u) (uuid_users env)) (users db) = false ->
    storage_error env InsertUsers = None ->
    exists db',
      signUp js env dto db = (Ok (auth_response js env (new_user env dto)), db') /\
      users db' = users db ++ [new_user env dto].
Proof.
  intros js env dto db He Hi Hs.
  rewrite signUp_run. cbv zeta. rewrite Hs, Hi, He.
  unfold with_email. rewrite (existsb_false_filter _ _ He).
  eexists. split.
  - destruct (storage_error env SelectUsers); reflexivity.
  - rewrite storeRefreshToken_users. reflexivity.
Qed.

Lemma signUp_succeeds_witness :
  exists db',
    signUp ex_jwt (ex_env 1000 "1") ex_signUpDto ex_db0
      = (Ok (auth_response ex_jwt (ex_env 1000 "1")
               (new_user (ex_env 1000 "1") ex_signUpDto)), db') /\
    users db' = users ex_db0 ++ [new_user (ex_env 1000 "1") ex_signUpDto].
Proof.
  apply (signUp_succeeds ex_jwt (ex_env 1000 "1") ex_signUpDto ex_db0); reflexivity.
Defined.

(** A failing [signUp] has not reached the insert, or the insert was
    refused. *)
Lemma signUp_Throw_frame js env dto db e db' :
  signUp js env dto db = (Throw e, db') -> db' = db.
Proof.
  rewrite signUp_run. cbv zeta. intro H.
  destruct (storage_error env SelectUsers);
    [| destruct (with_email (su_email dto) db) as [| a [| b rest]]];
    try (injection H as _ <-; reflexivity);
    (destruct (storage_error env InsertUsers); [injection H as _ <-; reflexivity |];
     destruct (existsb (fun u => String.eqb (u_id u) (uuid_users env)) (users db));
       [injection H as _ <-; reflexivity |];
     destruct (existsb (fun u => String.eqb (u_email u) (su_email dto)) (users db));
       [injection H as _ <-; reflexivity | discriminate H]).
Qed.

(** X9 - A failing [signUp] writes nothing, and what it throws is the
    conflict `User with this email already exists` or a
    [BadRequestException] whose message is `Failed to create user: `
    followed by the message of the store's error. *)
Theorem signUp_failure_writes_nothing :
  forall (js : JwtService) (env : Env) (dto : SignUpDto) (db : DB) (e : exn) (db' : DB),
    signUp js env dto db = (Throw e, db') ->
    db' = db /\
    (e = ConflictException "User with this email already exists" \/
     exists msg, e = BadRequestException ("Failed to create user: " ++ msg)%string).
Proof.
  intros js env dto db e db'. rewrite signUp_run. cbv zeta.
  assert (Hcreate :
    match storage_error env InsertUsers with
    | Some e0 =>
        (@Throw AuthResponseDto
           (BadRequestException ("Failed to create user: " ++ message e0)%string), db)
    | None =>
        if existsb (fun u => String.eqb (u_id u) (uuid_users env)) (users db) then
          (Throw (BadRequestException
                    "Failed to create user: duplicate key value violates unique constraint users_pkey"),
           db)
        else if existsb (fun u => String.eqb (u_email u) (su_email dto)) (users db) then
          (Throw (BadRequestException
                    "Failed to create user: duplicate key value violates unique constraint users_email_key"),
           db)
        else
          (Ok (auth_response js env (new_user env dto)),
           snd (storeRefreshToken env (u_id (new_user env dto))
                  (refreshToken (auth_response js env (new_user env dto)))
                  (mkDB (users db ++ [new_user env dto]) (refresh_tokens db))))
    end = (Throw e, db') ->
    db' = db /\
    (e = ConflictException "User with this email already exists" \/
     exists msg, e = BadRequestException ("Failed to create user: " ++ msg)%string)).
  { destruct (storage_error env InsertUsers) as [e0 |].
    - intro H. injection H as <- <-. split; [reflexivity |].
      right. exists (message e0). reflexivity.
    - destruct (existsb _ (users db)).
      + intro H. injection H as <- <-. split; [reflexivity |].
        right. eexists. reflexivity.
      + destruct (existsb _ (users db)).
        * intro H. injection H as <- <-. split; [reflexivity |].
          right. eexists. reflexivity.
        * intro H. discriminate H. }
  destruct (storage_error env SelectUsers); [exact Hcreate |].
  destruct (with_email (su_email dto) db) as [| a [| b rest]];
    [exact Hcreate | | exact Hcreate].
  intro H. injection H as <- <-. split; [reflexivity |]. left. reflexivity.
Qed.

Lemma signUp_failure_writes_nothing_witness :
  signUp ex_jwt (ex_env 5000 "2") ex_signUpDto ex_db1
    = (Throw (ConflictException "User with this email already exists"), ex_db1) /\
  ex_db1 = ex_db1.
Proof.
  assert (H : signUp ex_jwt (ex_env 5000 "2") ex_signUpDto ex_db1
              = (Throw (ConflictException "User with this email already exists"), ex_db1))
    by (vm_compute; reflexivity).
  split; [exact H |].
  exact (proj1 (signUp_failure_writes_nothing ex_jwt (ex_env 5000 "2") ex_signUpDto
                  ex_db1 _ ex_db1 H)).
Defined.

(** ** The users table *)

Lemma refreshTokens_users js env dto db :
  users (snd (refreshTokens js env dto db)) = users db.
Proof.
  rewrite refreshTokens_run. cbv zeta. unfold refresh_failed.
  destruct (verify js (now env) (rt_refreshToken dto)) as [c | e]; [| reflexivity].
  destruct (negb (is_refresh (p_type (payload c)))); [reflexivity |].
  destruct (negb (token_accepted env (p_sub (payload c)) (rt_refreshToken dto) db));
    [reflexivity |].
  destruct (storage_error env SelectUsers); [reflexivity |].
  destruct (with_id (p_sub (payload c)) db) as [| u [| b rest]]; try reflexivity.
  cbn [snd]. rewrite revokeRefreshToken_users, storeRefreshToken_users. reflexivity.
Qed.

Lemma signIn_users js env dto db :
  users (snd (signIn js env dto db)) = users db.
Proof.
  rewrite signIn_run.
  destruct (storage_error env SelectUsers); [reflexivity |].
  destruct (with_email (si_email dto) db) as [| u [| b rest]]; try reflexivity.
  destruct (bcrypt_compare (si_password dto) (u_password u)); [| reflexivity].
  cbn [snd]. apply storeRefreshToken_users.
Qed.

Lemma logout_users js env tok db :
  users (snd (logout js env tok db)) = users db.
Proof.
  rewrite logout_run.
  destruct (verify js (now env) tok); [| reflexivity].
  cbn [snd]. apply revokeRefreshToken_users.
Qed.

Lemma signUp_users js env dto db :
  users (snd (signUp js env dto db)) = users db \/
  (users (snd (signUp js env dto db)) = users db ++ [new_user env dto] /\
   existsb (fun u => String.eqb (u_id u) (uuid_users env)) (users db) = false /\
   existsb (fun u => String.eqb (u_email u) (su_email dto)) (users db) = false).
Proof.
  destruct (signUp js env dto db) as [[r | e] db'] eqn:H.
  - right. cbn [snd].
    destruct (signUp_Ok_users _ _ _ _ _ _ H) as [Hu _].
    destruct (signUp_Ok _ _ _ _ _ _ H) as [He _].
    pose proof (signUp_Ok_id _ _ _ _ _ _ H) as Hi. auto.
  - left. cbn [snd].
    rewrite (signUp_Throw_frame _ _ _ _ _ _ H). reflexivity.
Qed.

Lemma existsb_false_not_in {A B} (f : A -> B) (eqb : B -> B -> bool) (l : list A) (y : B) :
  (forall a b, eqb a b = true <-> a = b) ->
  existsb (fun x => eqb (f x) y) l = false -> ~ In y (map f l).
Proof.
  intros Heq H Hin. apply in_map_iff in Hin. destruct Hin as [x [Hx Hin]].
  assert (E : existsb (fun x => eqb (f x) y) l = true).
  { apply existsb_exists. exists x. split; [exact Hin | apply Heq; exact Hx]. }
  rewrite H in E. discriminate E.
Qed.

Lemma NoDup_snoc {A} (l : list A) (x : A) : NoDup l -> ~ In x l -> NoDup (l ++ [x]).
Proof.
  intros Hnd Hx. apply NoDup_app; [exact Hnd | constructor; [intros [] | constructor] |].
  intros a Ha [<- | []]. apply Hx. exact Ha.
Qed.

(** X10 - Only [signUp] writes to the users table: [signIn],
    [refreshTokens] and [logout] leave it as it was, whatever their outcome,
    and [signUp] leaves it as it was or adds the one new row.  When ids and
    e-mails are unique in the table before a [signUp], they are unique
    after it. *)
Theorem users_table_invariant :
  forall (js : JwtService) (env : Env) (db : DB),
    (forall dto, users (snd (signIn js env dto db)) = users db) /\
    (forall dto, users (snd (refreshTokens js env dto db)) = users db) /\
    (forall tok, users (snd (logout js env tok db)) = users db) /\
    (forall dto, users (snd (signUp js env dto db)) = users db \/
                 users (snd (signUp js env dto db)) = users db ++ [new_user env dto]) /\
    (forall dto, users_pkey db -> users_email_key db ->
                 users_pkey (snd (signUp js env dto db)) /\
                 users_email_key (snd (signUp js env dto db))).
Proof.
  intros js env db. split; [| split; [| split; [| split]]].
  - intro dto. apply signIn_users.
  - intro dto. apply refreshTokens_users.
  - intro tok. apply logout_users.
  - intro dto. destruct (signUp_users js env dto db) as [H | [H _]]; auto.
  - intros dto Hpk Hek. unfold users_pkey, users_email_key in *.
    destruct (signUp_users js env dto db) as [H | [H [Hi He]]]; rewrite H.
    + auto.
    + rewrite !map_app. cbn [map new_user u_id u_email]. split; apply NoDup_snoc; auto.
      * apply (existsb_false_not_in u_id String.eqb); [apply String.eqb_eq | exact Hi].
      * apply (existsb_false_not_in u_email String.eqb); [apply String.eqb_eq | exact He].
Qed.

(** ** The refresh-token record of a sign-in *)

(** X11 - Every record in the refresh-token table after a successful
    [signIn] was there before, or belongs to the signed-in user and holds the
    work-factor-8 hash of the refresh token returned, which [bcrypt.compare]
    matches and which is not the token itself. *)
Theorem signIn_record_matches_token :
  forall (js : JwtService) (env : Env) (dto : SignInDto) (db : DB)
         (r : AuthResponseDto) (db' : DB),
    signIn js env dto db = (Ok r, db') ->
    forall rec, In rec (refresh_tokens db') ->
      In rec (refresh_tokens db) \/
      (t_user_id rec = user_id (user r) /\
       t_token_hash rec = bcrypt_hash (refreshToken r) 8 (salt_store env) /\
       bcrypt_compare (refreshToken r) (t_token_hash rec) = true /\
       t_token_hash rec <> refreshToken r).
Proof.
  intros js env dto db r db' H rec Hin.
  destruct (signIn_Ok _ _ _ _ _ _ H) as [u [_ [_ [_ [Hr Hdb]]]]].
  rewrite Hdb in Hin.
  destruct (storeRefreshToken_records _ _ _ _ _ Hin) as [Hold | ->]; [left; exact Hold |].
  right. subst r. cbn [auth_response user user_id refreshToken stored_record
                         t_user_id t_token_hash].
  split; [reflexivity |]. split; [reflexivity |].
  split; [apply bcrypt_compare_hash | apply bcrypt_hash_not_plain].
Qed.

Lemma signIn_record_matches_token_witness :
  In (stored_record (ex_env 3000 "2") "user-1"
        (sign ex_jwt (refresh_payload "user-1") refreshTokenExpiresIn 3000))
     (refresh_tokens ex_db1) \/
  (t_user_id (stored_record (ex_env 3000 "2") "user-1"
                (sign ex_jwt (refresh_payload "user-1") refreshTokenExpiresIn 3000))
     = "user-1" /\
   t_token_hash (stored_record (ex_env 3000 "2") "user-1"
                   (sign ex_jwt (refresh_payload "user-1") refreshTokenExpiresIn 3000))
     = bcrypt_hash (sign ex_jwt (refresh_payload "user-1") refreshTokenExpiresIn 3000)
         8 "store-salt-2" /\
   bcrypt_compare (sign ex_jwt (refresh_payload "user-1") refreshTokenExpiresIn 3000)
     (t_token_hash (stored_record (ex_env 3000 "2") "user-1"
                      (sign ex_jwt (refresh_payload "user-1") refreshTokenExpiresIn 3000)))
     = true /\
   t_token_hash (stored_record (ex_env 3000 "2") "user-1"
                   (sign ex_jwt (refresh_payload "user-1") refreshTokenExpiresIn 3000))
     <> sign ex_jwt (refresh_payload "user-1") refreshTokenExpiresIn 3000).
Proof.
  apply (signIn_record_matches_token ex_jwt (ex_env 3000 "2")
           (mkSignInDto "a@b.com" (Str "Str0ng!Passw0rd")) ex_db1
           (auth_response ex_jwt (ex_env 3000 "2") (new_user (ex_env 1000 "1") ex_signUpDto))
           ex_db_signedIn).
  - vm_compute. reflexivity.
  - vm_compute. right. left. reflexivity.
Defined.

(** ** The refresh-token record of a sign-up *)

(** X12 - After a successful [signUp] whose upsert the store accepted (no
    error, a new id, a new salt), in a store whose refresh records all
    belonged to stored users, the table holds exactly one record of the new
    user and [bcrypt.compare] matches it with the refresh token returned.
    Whenever the store answers the look-up, [validateRefreshToken] for that
    user and token answers true at a clock not after the [expires_at] of the
    record and false at a later clock, and leaves the store as it was. *)
Theorem signUp_token_validates :
  forall (js : JwtService) (env : Env) (dto : SignUpDto) (db : DB)
         (r : AuthResponseDto) (db1 : DB),
    signUp js env dto db = (Ok r, db1) ->
    refresh_tokens_fkey db ->
    storage_error env UpsertRefreshTokens = None ->
    existsb (fun x => String.eqb (t_id x) (uuid_refresh_tokens env)) (refresh_tokens db)
      = false ->
    salt_is_new (salt_store env) db = true ->
    exists rec,
      records_of (user_id (user r)) db1 = [rec] /\
      bcrypt_compare (refreshToken r) (t_token_hash rec) = true /\
      forall env',
        storage_error env' SelectRefreshTokens = None ->
        validateRefreshToken env' (user_id (user r)) (refreshToken r) db1
        = (Ok (now env' <=? t_expires_at rec), db1).
Proof.
  intros js env dto db r db1 H Hfk Hup Hid Hsalt.
  destruct (signUp_Ok _ _ _ _ _ _ H) as [He [Hr Hdb]].
  pose proof (signUp_Ok_id _ _ _ _ _ _ H) as Hi.
  set (u := new_user env dto) in *.
  set (tok := refreshToken r) in *.
  assert (Hid' : user_id (user r) = u_id u) by (subst r; reflexivity).
  assert (Hdb1 : db1 = mkDB (users db ++ [u])
                         (refresh_tokens db ++ [stored_record env (u_id u) tok])).
  { rewrite Hdb.
    rewrite (storeRefreshToken_appends env (uuid_users env) tok
               (mkDB (users db ++ [u]) (refresh_tokens db)));
      [reflexivity | exact Hup | | exact Hid | exact Hsalt].
    cbn [users]. rewrite existsb_app. cbn. rewrite String.eqb_refl. apply orb_true_r. }
  assert (Hnone : forall x, In x (refresh_tokens db) ->
                            String.eqb (t_user_id x) (u_id u) = false).
  { intros x Hx. apply String.eqb_neq. intro E.
    specialize (Hfk x Hx). rewrite E in Hfk. cbn [u new_user u_id] in Hfk.
    rewrite Hi in Hfk. discriminate Hfk. }
  clearbody tok. rewrite Hid'.
  exists (stored_record env (u_id u) tok). split; [| split].
  - unfold records_of. rewrite Hdb1. cbn [refresh_tokens].
    rewrite filter_app, filter_all_false by exact Hnone.
    cbn [app filter stored_record t_user_id]. rewrite String.eqb_refl. reflexivity.
  - apply bcrypt_compare_hash.
  - intros env' Hs. rewrite validateRefreshToken_run.
    unfold token_accepted, live_records. rewrite Hs, Hdb1. cbn [refresh_tokens].
    rewrite filter_app, filter_all_false.
    + cbn [app filter stored_record t_user_id t_expires_at t_token_hash].
      rewrite String.eqb_refl. cbn [andb].
      destruct (now env' <=? now env + 7 * 24 * 60 * 60 * 1000);
        cbn [stored_record t_token_hash]; [rewrite bcrypt_compare_hash |]; reflexivity.
    + intros x Hx. rewrite (Hnone x Hx). reflexivity.
Qed.

Lemma signUp_token_validates_witness :
  exists rec,
    records_of (user_id (user ex_response1)) ex_db1 = [rec] /\
    bcrypt_compare (refreshToken ex_response1) (t_token_hash rec) = true /\
    forall env',
      storage_error env' SelectRefreshTokens = None ->
      validateRefreshToken env' (user_id (user ex_response1)) (refreshToken ex_response1) ex_db1
      = (Ok (now env' <=? t_expires_at rec), ex_db1).
Proof.
  apply (signUp_token_validates ex_jwt (ex_env 1000 "1") ex_signUpDto ex_db0
           ex_response1 ex_db1).
  - vm_compute. reflexivity.
  - intros r [].
  - reflexivity.
  - reflexivity.
  - reflexivity.
Defined.

(** ** Logout *)

(** X13 - [logout] throws, and then `Logout failed`, exactly when the token
    does not verify; with a token that verifies it returns normally even
    when the store reports an error for the delete.  It never adds a record,
    never touches a record of a user other than the token's subject, and
    never touches a record whose hash differs from the hash it computed. *)
Theorem logout_outcomes :
  forall (js : JwtService) (env : Env) (tok : text) (db : DB),
    (forall e, verify js (now env) tok = Throw e ->
               logout js env tok db = (Throw (UnauthorizedException "Logout failed"), db)) /\
    (forall c, verify js (now env) tok = Ok c ->
               fst (logout js env tok db) = Ok tt /\
               forall rec, In rec (refresh_tokens db) ->
                           t_user_id rec <> p_sub (payload c) \/
                           t_token_hash rec <> bcrypt_hash tok 8 (salt_revoke env) ->
                           In rec (refresh_tokens (snd (logout js env tok db)))) /\
    (forall rec, In rec (refresh_tokens (snd (logout js env tok db))) ->
                 In rec (refresh_tokens db)).
Proof.
  intros js env tok db. rewrite logout_run, revokeRefreshToken_run.
  destruct (verify js (now env) tok) as [c | e] eqn:Hv.
  - split; [intros e He; discriminate He |]. split.
    + intros c' Hc'. injection Hc' as <-. split; [reflexivity |].
      intros rec Hin Hor. cbn [snd].
      destruct (storage_error env DeleteRefreshTokens); [exact Hin |].
      cbn [snd refresh_tokens]. apply filter_In. split; [exact Hin |].
      apply negb_true_iff. apply andb_false_iff.
      destruct Hor as [Hu | Hh].
      * left. apply String.eqb_neq. exact Hu.
      * right. apply not_true_is_false. intro E. apply text_eqb_eq in E. contradiction.
    + intros rec. cbn [snd].
      destruct (storage_error env DeleteRefreshTokens); [auto |].
      cbn [snd refresh_tokens]. intro Hin. apply filter_In in Hin. tauto.
  - split; [intros e' _; reflexivity |]. split.
    + intros c Hc. discriminate Hc.
    + intros rec Hin. exact Hin.
Qed.

(** ** Refresh, continued *)

(** X25 - A successful [refreshTokens] was given a token that verifies,
    whose type claim is `refresh` and which the store accepts for its
    subject; exactly one stored user has that id.  The new access token
    verifies to the id, e-mail and names of that stored row as they are at
    the time of the refresh, the new refresh token to the same subject with
    type `refresh`; the users table is unchanged. *)
Theorem refreshTokens_postcondition :
  forall (js : JwtService) (env : Env) (dto : RefreshTokenDto) (db : DB)
         (r : RefreshResponse) (db' : DB),
    refreshTokens js env dto db = (Ok r, db') ->
    exists c u,
      verify js (now env) (rt_refreshToken dto) = Ok c /\
      p_type (payload c) = Some "refresh" /\
      fst (validateRefreshToken env (p_sub (payload c)) (rt_refreshToken dto) db) = Ok true /\
      with_id (p_sub (payload c)) db = [u] /\
      (exists c1, verify js (now env) (access r) = Ok c1 /\
                  payload c1 = access_payload (user_select u)) /\
      (exists c2, verify js (now env) (new_refreshToken r) = Ok c2 /\
                  payload c2 = refresh_payload (p_sub (payload c))) /\
      users db' = users db.
Proof.
  intros js env dto db r db' H.
  assert (Hu : users db' = users db).
  { pose proof (refreshTokens_users js env dto db) as E. rewrite H in E. exact E. }
  rewrite refreshTokens_run in H. cbv zeta in H. unfold refresh_failed in H.
  destruct (verify js (now env) (rt_refreshToken dto)) as [c | e]; [| discriminate H].
  destruct (is_refresh (p_type (payload c))) eqn:Hty; cbn [negb] in H; [| discriminate H].
  destruct (token_accepted env (p_sub (payload c)) (rt_refreshToken dto) db) eqn:Hacc;
    cbn [negb] in H; [| discriminate H].
  destruct (storage_error env SelectUsers); [discriminate H |].
  destruct (with_id (p_sub (payload c)) db) as [| u [| b rest]] eqn:Hw;
    try discriminate H.
  injection H as <- _. exists c, u.
  split; [reflexivity |]. split.
  { unfold is_refresh in Hty. destruct (p_type (payload c)) as [t |]; [| discriminate Hty].
    apply String.eqb_eq in Hty. subst t. reflexivity. }
  split; [rewrite validateRefreshToken_run; cbn; rewrite Hacc; reflexivity |].
  split; [exact Hw |].
  cbn [refresh_response access new_refreshToken].
  split; [| split; [| exact Hu]].
  - rewrite verify_sign by (unfold accessTokenExpiresIn; lia). eexists. split; reflexivity.
  - rewrite verify_sign by (unfold refreshTokenExpiresIn; lia). eexists.
    split; [reflexivity |]. cbn [payload user_select id].
    rewrite (with_id_one _ _ _ Hw). reflexivity.
Qed.

Lemma refreshTokens_postcondition_witness :
  exists c u,
    verify ex_jwt (now (ex_env 5000 "2")) ex_token1 = Ok c /\
    p_type (payload c) = Some "refresh" /\
    fst (validateRefreshToken (ex_env 5000 "2") (p_sub (payload c)) ex_token1 ex_db1)
      = Ok true /\
    with_id (p_sub (payload c)) ex_db1 = [u] /\
    (exists c1, verify ex_jwt (now (ex_env 5000 "2")) (access ex_response2) = Ok c1 /\
                payload c1 = access_payload (user_select u)) /\
    (exists c2, verify ex_jwt (now (ex_env 5000 "2")) (new_refreshToken ex_response2) = Ok c2 /\
                payload c2 = refresh_payload (p_sub (payload c))) /\
    users ex_db2 = users ex_db1.
Proof.
  apply (refreshTokens_postcondition ex_jwt (ex_env 5000 "2")
           (mkRefreshTokenDto ex_token1) ex_db1 ex_response2 ex_db2).
  vm_compute. reflexivity.
Defined.

(** * Properties of the regular expressions and of RegexValidator *)

Lemma repeat_from_spec cls min max s k :
  repeat_from cls min max s k = true <->
  exists n, (min <= n)%nat /\
            match max with Some m => (n <= m)%nat | None => True end /\
            (n <= length s)%nat /\
            forallb cls (firstn n s) = true /\
            k (skipn n s) = true.
Proof.
  revert min max. induction s as [| c s IH]; intros min max; cbn [repeat_from].
  - rewrite orb_false_r. split.
    + intro H. destruct min; [| discriminate H].
      exists O. repeat split; auto. destruct max; [lia | exact I].
    + intros [n [Hmin [_ [Hlen [_ Hk]]]]]. cbn in Hlen.
      assert (n = O) by lia. subst n. destruct min; [exact Hk | lia].
  - split.
    + intro H. apply orb_true_iff in H. destruct H as [H | H].
      * destruct min; [| discriminate H]. exists O. repeat split; auto; cbn; try lia.
        destruct max; [lia | exact I].
      * assert (Hmax : max <> Some O) by (intro E; rewrite E in H; discriminate H).
        assert (H' : cls c && repeat_from cls (Nat.pred min) (option_map Nat.pred max) s k
                     = true) by (destruct max as [[| m] |]; [contradiction | exact H | exact H]).
        apply andb_true_iff in H'. destruct H' as [Hc Hr].
        apply IH in Hr. destruct Hr as [n [Hmin [Hm [Hlen [Hall Hk]]]]].
        exists (S n). cbn [firstn skipn forallb length]. rewrite Hc.
        repeat split; auto; try lia.
        destruct max as [[| m] |]; cbn in Hm; [contradiction | lia | exact I].
    + intros [n [Hmin [Hm [Hlen [Hall Hk]]]]]. apply orb_true_iff.
      destruct n as [| n].
      * left. destruct min; [exact Hk | lia].
      * right. cbn [firstn skipn forallb length] in *.
        apply andb_true_iff in Hall. destruct Hall as [Hc Hall].
        assert (Hr : repeat_from cls (Nat.pred min) (option_map Nat.pred max) s k = true).
        { apply IH. exists n. repeat split; auto; try lia.
          destruct max as [[| m] |]; cbn; [lia | lia | exact I]. }
        rewrite Hc, Hr. destruct max as [[| m] |]; [lia | reflexivity | reflexivity].
Qed.

(** [(?=.*cls)] at a position holds when a code unit of the class follows
    on the same line. *)
Lemma contains_at cls st s k :
  match_at (contains cls) st s k = on_first_line cls s && k st s.
Proof.
  unfold contains. cbn [match_at]. f_equal.
  induction s as [| c s IH]; [reflexivity |].
  cbn [repeat_from on_first_line Nat.pred option_map].
  rewrite andb_true_r. f_equal. rewrite <- IH. f_equal.
Qed.

Lemma on_first_line_existsb cls s :
  on_first_line cls s = true -> existsb cls s = true.
Proof.
  induction s as [| c s IH]; cbn; [auto |].
  destruct (cls c); [reflexivity |]. cbn. intro H.
  apply andb_true_iff in H. apply IH. tauto.
Qed.

(** An unanchored [(?=.*cls)] finds a match exactly when the string has a
    code unit of the class, wherever the line terminators are. *)
Lemma test_contains cls s : test (contains cls) s = existsb cls s.
Proof.
  unfold test. rewrite contains_at, andb_true_r.
  induction s as [| c s IH]; [reflexivity |].
  cbn [search_from on_first_line existsb]. rewrite contains_at, andb_true_r.
  destruct (cls c); [reflexivity |]. cbn [orb].
  rewrite <- IH. destruct (dot c); cbn [andb orb]; [| reflexivity].
  destruct (on_first_line cls s); reflexivity.
Qed.

Lemma isStrongPassword_isValid password :
  isValid (isStrongPassword password)
    = existsb lowercase password && existsb uppercase password
      && existsb digit password && existsb special password.
Proof.
  unfold isStrongPassword, CONTAINS_LOWERCASE, CONTAINS_UPPERCASE,
    CONTAINS_DIGIT, CONTAINS_SPECIAL.
  rewrite !test_contains.
  destruct (existsb lowercase password); cbn; [| auto].
  destruct (existsb uppercase password); cbn; [| auto].
  destruct (existsb digit password); cbn; [| auto].
  destruct (existsb special password); cbn; auto.
Qed.

(** X14 - [isStrongPassword] accepts exactly the strings that hold a
    lower-case letter, an upper-case letter, a digit and one of [@$!%*?&];
    neither the length nor the other characters matter.  For a rejected
    string it names the first kind that is missing, in the order lowercase,
    uppercase, digit, special. *)
Theorem isStrongPassword_spec :
  forall password : jsstring,
    isValid (isStrongPassword password)
      = existsb lowercase password && existsb uppercase password
        && existsb digit password && existsb special password /\
    missingRequirement (isStrongPassword password)
      = if negb (existsb lowercase password) then Some "lowercase"
        else if negb (existsb uppercase password) then Some "uppercase"
        else if negb (existsb digit password) then Some "digit"
        else if negb (existsb special password) then Some "special"
        else None.
Proof.
  intro password. split; [apply isStrongPassword_isValid |].
  unfold isStrongPassword, CONTAINS_LOWERCASE, CONTAINS_UPPERCASE,
    CONTAINS_DIGIT, CONTAINS_SPECIAL.
  rewrite !test_contains.
  destruct (existsb lowercase password); cbn; [| auto].
  destruct (existsb uppercase password); cbn; [| auto].
  destruct (existsb digit password); cbn; [| auto].
  destruct (existsb special password); cbn; auto.
Qed.

Lemma search_from_Start r s : search_from (Seq Start r) s = false.
Proof. induction s as [| c s IH]; [reflexivity |]. cbn. exact IH. Qed.

(** What [PASSWORD.STRONG] tests: the four kinds on the first line, and the
    class of the first code unit. *)
Lemma test_STRONG s :
  test STRONG s =
  on_first_line lowercase s && on_first_line uppercase s && on_first_line digit s
  && on_first_line special s && starts_with password_char s.
Proof.
  unfold test, STRONG. rewrite search_from_Start, orb_false_r.
  cbn [match_at andb]. rewrite !contains_at.
  destruct s as [| c s']; cbn [match_at starts_with];
    rewrite ?andb_true_r, ?andb_false_r, ?andb_assoc; reflexivity.
Qed.

Lemma on_first_line_app cls s t :
  on_first_line cls s = true -> on_first_line cls (s ++ t) = true.
Proof.
  induction s as [| c s IH]; cbn; [discriminate |].
  destruct (cls c); [reflexivity |]. cbn.
  destruct (dot c); cbn; [exact IH | discriminate].
Qed.

(** X15 - A string that matches [PASSWORD.STRONG] passes
    [isStrongPassword], and it still matches after anything is appended to
    it: the pattern constrains the first code unit and asks for the four
    kinds, not for the characters that follow. *)
Theorem STRONG_open_ended :
  forall s : jsstring,
    test STRONG s = true ->
    isValid (isStrongPassword s) = true /\
    starts_with password_char s = true /\
    forall t : jsstring, test STRONG (s ++ t) = true.
Proof.
  intros s H. rewrite test_STRONG in H.
  repeat (apply andb_true_iff in H; destruct H as [H ?]).
  split; [| split].
  - rewrite isStrongPassword_isValid.
    rewrite !on_first_line_existsb by assumption. reflexivity.
  - assumption.
  - intro t. rewrite test_STRONG. rewrite !on_first_line_app by assumption.
    destruct s; [discriminate | cbn; assumption].
Qed.

Lemma STRONG_open_ended_witness :
  isValid (isStrongPassword (lit "Str0ng!Passw0rd")) = true /\
  starts_with password_char (lit "Str0ng!Passw0rd") = true /\
  forall t : jsstring, test STRONG (lit "Str0ng!Passw0rd" ++ t) = true.
Proof.
  apply (STRONG_open_ended (lit "Str0ng!Passw0rd")). vm_compute. reflexivity.
Defined.

(** ** sanitizeText and SAFE_TEXT *)

Lemma test_SAFE_TEXT s : test SAFE_TEXT s = forallb safe_char s.
Proof.
  unfold test, SAFE_TEXT. rewrite search_from_Start, orb_false_r.
  cbn [match_at andb].
  induction s as [| c s IH]; [reflexivity |].
  cbn [repeat_from forallb Nat.pred option_map orb].
  destruct (safe_char c); [| reflexivity]. cbn [andb].
  rewrite <- IH. apply eq_true_iff_eq. rewrite !repeat_from_spec.
  split; intros [n H]; exists n; exact H.
Qed.

Lemma kept_is_safe c : (word c || space c || safe_punctuation c) = safe_char c.
Proof.
  unfold word, safe_char.
  destruct (letter c); [reflexivity |]. destruct (digit c); [cbn; reflexivity |].
  cbn [orb]. destruct (c =? 95) eqn:E.
  - apply Z.eqb_eq in E. subst c. reflexivity.
  - reflexivity.
Qed.

Lemma sanitizeText_filter t : sanitizeText t = filter safe_char t.
Proof.
  unfold sanitizeText. induction t as [| c t IH]; [reflexivity |].
  cbn [filter]. rewrite kept_is_safe, IH. reflexivity.
Qed.

Lemma forallb_filter_id {A} (f : A -> bool) (l : list A) :
  forallb f l = true <-> filter f l = l.
Proof.
  induction l as [| a l IH]; cbn; [tauto |].
  destruct (f a) eqn:E; cbn.
  - rewrite IH. split; [intros ->; reflexivity | intro H; injection H; auto].
  - split; [discriminate |]. intro H.
    pose proof (filter_length f l) as Hl. rewrite H in Hl. cbn in Hl. lia.
Qed.

(** X16 - What [sanitizeText] returns always passes [SAFE_TEXT]; sanitizing
    twice is sanitizing once; and [sanitizeText] leaves a text as it is
    exactly when the text passes [SAFE_TEXT]. *)
Theorem sanitizeText_safe :
  forall t : jsstring,
    test SAFE_TEXT (sanitizeText t) = true /\
    sanitizeText (sanitizeText t) = sanitizeText t /\
    (sanitizeText t = t <-> test SAFE_TEXT t = true).
Proof.
  intro t. rewrite !sanitizeText_filter, !test_SAFE_TEXT.
  assert (H : forallb safe_char (filter safe_char t) = true).
  { apply forallb_forall. intros x Hx. apply filter_In in Hx. tauto. }
  split; [exact H |]. split.
  - apply forallb_filter_id. exact H.
  - symmetry. apply forallb_filter_id.
Qed.

(** ** Turkish citizen id *)

Lemma firstn_skipn_nil {A} (n : nat) (l : list A) :
  (n <= length l)%nat -> skipn n l = [] -> n = length l /\ firstn n l = l.
Proof.
  intros Hle H. pose proof (firstn_skipn n l) as E. rewrite H, app_nil_r in E.
  split; [| exact E].
  pose proof (length_skipn n l) as L. rewrite H in L. cbn in L. lia.
Qed.

(** X17 - [isValidTurkishCitizenId] accepts exactly the strings of eleven
    digits whose first digit is not zero. *)
Theorem isValidTurkishCitizenId_spec :
  forall tcId : jsstring,
    isValidTurkishCitizenId tcId = true <->
    length tcId = 11%nat /\ starts_with (between 49 57) tcId = true /\
    forallb digit tcId = true.
Proof.
  intro s. unfold isValidTurkishCitizenId.
  assert (Ht : test TC_ID s = true <->
               length s = 11%nat /\ starts_with (between 49 57) s = true /\
               forallb digit s = true).
  { unfold test, TC_ID. rewrite search_from_Start, orb_false_r.
    cbn [match_at andb]. destruct s as [| c s]; [cbn; split; [discriminate | intros [H _]; discriminate H] |].
    cbn [starts_with forallb length].
    rewrite andb_true_iff, repeat_from_spec. split.
    - intros [Hc [n [Hmin [Hmax [Hlen [Hall Hk]]]]]].
      assert (Hn : n = 10%nat) by lia. subst n.
      destruct (skipn 10 s) eqn:Hs; [| discriminate Hk].
      destruct (firstn_skipn_nil 10 s Hlen Hs) as [Hl Hf]. rewrite Hf in Hall.
      split; [lia |]. split; [exact Hc |]. rewrite Hall, andb_true_r.
      unfold between in *. apply andb_true_iff in Hc. unfold digit, between.
      apply andb_true_iff. split; [apply Z.leb_le | tauto].
      destruct Hc as [Hc _]. apply Z.leb_le in Hc. lia.
    - intros [Hl [Hc Hall]]. apply andb_true_iff in Hall. destruct Hall as [_ Hall].
      split; [exact Hc |]. exists 10%nat.
      assert (Hl' : length s = 10%nat) by lia.
      repeat split; try lia.
      + rewrite <- Hl', firstn_all. exact Hall.
      + rewrite <- Hl', skipn_all. reflexivity. }
  destruct (test TC_ID s); cbn [negb]; rewrite <- Ht; split; auto.
Qed.

(** ** E-mail addresses *)

Lemma one_of_at c : one_of "@" c = true <-> c = 64.
Proof. unfold one_of, lit. cbn. rewrite orb_false_r. apply Z.eqb_eq. Qed.

Lemma one_of_dot c : one_of "." c = true <-> c = 46.
Proof. unfold one_of, lit. cbn. rewrite orb_false_r. apply Z.eqb_eq. Qed.

Lemma test_EMAIL_STANDARD s :
  test EMAIL_STANDARD s = true <->
  exists l d t,
    s = l ++ [64] ++ d ++ [46] ++ t /\
    l <> [] /\ forallb email_local l = true /\
    d <> [] /\ forallb email_domain d = true /\
    (2 <= length t)%nat /\ forallb letter t = true.
Proof.
  unfold test, EMAIL_STANDARD. rewrite search_from_Start, orb_false_r.
  cbn [match_at andb]. rewrite repeat_from_spec. split.
  - intros [n1 [Hmin1 [_ [Hlen1 [Hall1 Hk1]]]]].
    destruct (skipn n1 s) as [| c1 s1] eqn:Hs1; [discriminate Hk1 |].
    apply andb_true_iff in Hk1. destruct Hk1 as [Hat Hk1].
    apply one_of_at in Hat. subst c1.
    apply repeat_from_spec in Hk1.
    destruct Hk1 as [n2 [Hmin2 [_ [Hlen2 [Hall2 Hk2]]]]].
    destruct (skipn n2 s1) as [| c2 s2] eqn:Hs2; [discriminate Hk2 |].
    apply andb_true_iff in Hk2. destruct Hk2 as [Hdot Hk2].
    apply one_of_dot in Hdot. subst c2.
    apply repeat_from_spec in Hk2.
    destruct Hk2 as [n3 [Hmin3 [_ [Hlen3 [Hall3 Hk3]]]]].
    destruct (skipn n3 s2) as [| c3 s3] eqn:Hs3; [| discriminate Hk3].
    destruct (firstn_skipn_nil n3 s2 Hlen3 Hs3) as [Hl3 Hf3].
    exists (firstn n1 s), (firstn n2 s1), s2.
    split.
    { rewrite <- (firstn_skipn n1 s) at 1. rewrite Hs1. f_equal. cbn. f_equal.
      rewrite <- (firstn_skipn n2 s1) at 1. rewrite Hs2. reflexivity. }
    split.
    { intro E. apply (f_equal (@length _)) in E. rewrite length_firstn in E. cbn in E. lia. }
    split; [exact Hall1 |]. split.
    { intro E. apply (f_equal (@length _)) in E. rewrite length_firstn in E. cbn in E. lia. }
    split; [exact Hall2 |]. split; [unfold jsstring, code_unit in *; lia |].
    rewrite <- Hf3. exact Hall3.
  - intros [l [d [t [Hs [Hl [Hal [Hd [Had [Ht Hat]]]]]]]]]. subst s.
    exists (length l). split; [destruct l; [contradiction | cbn; lia] |].
    split; [exact I |]. split; [rewrite length_app; lia |].
    rewrite firstn_app, Nat.sub_diag, firstn_all, firstn_O, app_nil_r.
    split; [exact Hal |].
    rewrite skipn_app, Nat.sub_diag, skipn_all. cbn [app skipn].
    apply andb_true_iff. split; [reflexivity |].
    apply repeat_from_spec. exists (length d).
    split; [destruct d; [contradiction | cbn; lia] |].
    split; [exact I |]. split; [rewrite length_app; lia |].
    rewrite firstn_app, Nat.sub_diag, firstn_all, firstn_O, app_nil_r.
    split; [exact Had |].
    rewrite skipn_app, Nat.sub_diag, skipn_all. cbn [app skipn].
    apply andb_true_iff. split; [reflexivity |].
    apply repeat_from_spec. exists (length t).
    split; [exact Ht |]. split; [exact I |]. split; [apply Nat.le_refl |].
    rewrite firstn_all, skipn_all. split; [exact Hat | reflexivity].
Qed.

Lemma count_occ_none (cls : code_unit -> bool) (l : jsstring) (x : code_unit) :
  forallb cls l = true -> cls x = false -> count_occ Z.eq_dec l x = 0%nat.
Proof.
  intros Hall Hx. apply count_occ_not_In. intro Hin.
  rewrite forallb_forall in Hall. rewrite (Hall x Hin) in Hx. discriminate Hx.
Qed.

Lemma letter_email_local l : forallb letter l = true -> forallb email_local l = true.
Proof.
  rewrite !forallb_forall. intros H x Hx. unfold email_local. rewrite (H x Hx). reflexivity.
Qed.

Lemma email_domain_local l : forallb email_domain l = true -> forallb email_local l = true.
Proof.
  rewrite !forallb_forall. intros H x Hx. specialize (H x Hx).
  unfold email_domain, email_local in *.
  destruct (letter x); [reflexivity |]. destruct (digit x); [reflexivity |]. cbn in *.
  unfold one_of, lit in *. cbn in *.
  repeat (apply orb_true_iff in H; destruct H as [H | H]); try discriminate H;
    rewrite H; repeat rewrite orb_true_r; reflexivity.
Qed.

(** X18 - [isValidEmail] accepts exactly the strings made of a non-empty
    local part over [a-zA-Z0-9._%+-], an [@], a non-empty domain over
    [a-zA-Z0-9.-], a dot and at least two letters.  An accepted address
    therefore holds exactly one [@], has at least six code units, and holds
    no code unit outside [a-zA-Z0-9._%+-] and [@]. *)
Theorem isValidEmail_spec :
  forall email_ : jsstring,
    (isValidEmail email_ = true <->
     exists l d t,
       email_ = l ++ [64] ++ d ++ [46] ++ t /\
       l <> [] /\ forallb email_local l = true /\
       d <> [] /\ forallb email_domain d = true /\
       (2 <= length t)%nat /\ forallb letter t = true) /\
    (isValidEmail email_ = true ->
     count_occ Z.eq_dec email_ 64 = 1%nat /\
     (6 <= length email_)%nat /\
     forallb (fun c => email_local c || (c =? 64)) email_ = true).
Proof.
  intro s. unfold isValidEmail. split; [apply test_EMAIL_STANDARD |].
  intro H. apply test_EMAIL_STANDARD in H.
  destruct H as [l [d [t [Hs [Hl [Hal [Hd [Had [Ht Hat]]]]]]]]]. subst s.
  pose proof (email_domain_local d Had) as Hdl.
  pose proof (letter_email_local t Hat) as Htl.
  split; [| split].
  - rewrite !count_occ_app. cbn [count_occ].
    rewrite (count_occ_none email_local l 64 Hal eq_refl).
    rewrite (count_occ_none email_local d 64 Hdl eq_refl).
    rewrite (count_occ_none email_local t 64 Htl eq_refl).
    reflexivity.
  - rewrite !length_app. cbn [length].
    destruct l; [contradiction |]. destruct d; [contradiction |]. cbn [length]. lia.
  - rewrite forallb_forall in Hal, Hdl, Htl. apply forallb_forall. intros c Hc.
    rewrite !in_app_iff in Hc. cbn [In] in Hc.
    destruct Hc as [Hc | [[<- | []] | [Hc | [[<- | []] | Hc]]]];
      try reflexivity;
      first [rewrite (Hal c Hc) | rewrite (Hdl c Hc) | rewrite (Htl c Hc)];
      reflexivity.
Qed.

(** ** Turkish mobile numbers *)

Lemma one_of_one (a : string) (c x : code_unit) :
  lit a = [x] -> (one_of a c = true <-> c = x).
Proof.
  unfold one_of. intros ->. cbn. rewrite orb_false_r. apply Z.eqb_eq.
Qed.

Lemma nine_digits_at st s :
  match_at (Seq (Repeat digit 9 (Some 9%nat)) End_) st s (fun _ _ => true) = true <->
  length s = 9%nat /\ forallb digit s = true.
Proof.
  cbn [match_at]. rewrite repeat_from_spec. split.
  - intros [n [Hmin [Hmax [Hlen [Hall Hk]]]]].
    destruct (skipn n s) eqn:Hs; [| discriminate Hk].
    destruct (firstn_skipn_nil n s Hlen Hs) as [Hl Hf]. rewrite Hf in Hall.
    split; [unfold jsstring, code_unit in *; lia | exact Hall].
  - intros [Hl Hall]. exists 9%nat. rewrite <- Hl, firstn_all, skipn_all.
    repeat split; auto.
Qed.

Lemma mobile_core_at st s :
  match_at (Seq (Class (one_of "5")) (Seq (Repeat digit 9 (Some 9%nat)) End_)) st s
    (fun _ _ => true) = true <->
  exists ds, s = 53 :: ds /\ length ds = 9%nat /\ forallb digit ds = true.
Proof.
  cbn [match_at]. destruct s as [| c ds].
  - split; [discriminate | intros [ds [H _]]; discriminate H].
  - rewrite andb_true_iff, (one_of_one "5" c 53 eq_refl).
    pose proof (nine_digits_at false ds) as H9. cbn [match_at] in H9. rewrite H9.
    split.
    + intros [-> H]. exists ds. auto.
    + intros [ds' [E H]]. injection E as -> ->. auto.
Qed.

Lemma mobile_local_at st s :
  match_at (Seq (Optional (Class (one_of "0")))
              (Seq (Class (one_of "5")) (Seq (Repeat digit 9 (Some 9%nat)) End_))) st s
    (fun _ _ => true) = true <->
  exists zero ds, s = zero ++ 53 :: ds /\ (zero = [] \/ zero = [48]) /\
                  length ds = 9%nat /\ forallb digit ds = true.
Proof.
  cbn [match_at]. rewrite orb_true_iff.
  pose proof (mobile_core_at st s) as Hc. cbn [match_at] in Hc. rewrite Hc. clear Hc.
  split.
  - intros [H | [ds [-> H]]].
    + destruct s as [| c s']; [discriminate H |].
      apply andb_true_iff in H. destruct H as [H0 H].
      apply (one_of_one "0" c 48 eq_refl) in H0. subst c.
      pose proof (mobile_core_at false s') as Hc. cbn [match_at] in Hc.
      apply Hc in H. destruct H as [ds [-> H]].
      exists [48], ds. split; [reflexivity |]. split; [right; reflexivity | exact H].
    + exists [], ds. split; [reflexivity |]. split; [left; reflexivity | exact H].
  - intros [zero [ds [-> [[-> | ->] H]]]].
    + right. exists ds. split; [reflexivity | exact H].
    + left. cbn [app]. apply andb_true_iff. split; [reflexivity |].
      pose proof (mobile_core_at false (53 :: ds)) as Hc. cbn [match_at] in Hc.
      apply Hc. exists ds. split; [reflexivity | exact H].
Qed.

Lemma plus90_at st s k :
  match_at (Seq (Class (one_of "+"))
              (Seq (Class (one_of "9"))
                 (Seq (Class (one_of "0")) (Optional (Class space))))) st s k = true <->
  exists rest, s = 43 :: 57 :: 48 :: rest /\
               ((exists w rest', rest = w :: rest' /\ space w = true /\
                                 k false rest' = true) \/
                k false rest = true).
Proof.
  cbn [match_at]. split.
  - intro H.
    destruct s as [| c1 s]; [discriminate H |].
    apply andb_true_iff in H. destruct H as [H1 H].
    destruct s as [| c2 s]; [discriminate H |].
    apply andb_true_iff in H. destruct H as [H2 H].
    destruct s as [| c3 rest]; [discriminate H |].
    apply andb_true_iff in H. destruct H as [H3 H].
    apply (one_of_one "+" c1 43 eq_refl) in H1.
    apply (one_of_one "9" c2 57 eq_refl) in H2.
    apply (one_of_one "0" c3 48 eq_refl) in H3. subst c1 c2 c3.
    exists rest. split; [reflexivity |].
    apply orb_true_iff in H. destruct H as [H | H]; [left | right; exact H].
    destruct rest as [| w rest']; [discriminate H |].
    apply andb_true_iff in H. destruct H as [Hw H]. exists w, rest'. auto.
  - intros [rest [-> H]].
    apply andb_true_iff. split; [reflexivity |].
    apply andb_true_iff. split; [reflexivity |].
    apply andb_true_iff. split; [reflexivity |].
    apply orb_true_iff. destruct H as [[w [rest' [-> [Hw H]]]] | H].
    + left. rewrite Hw. exact H.
    + right. exact H.
Qed.

(** X19 - [isValidTurkishMobile] accepts exactly the strings made of an
    optional [+90] (itself optionally followed by one white-space code
    unit), an optional [0], a [5] and nine digits.  An accepted number has
    between 10 and 15 code units. *)
Theorem isValidTurkishMobile_spec :
  forall phone : jsstring,
    (isValidTurkishMobile phone = true <->
     exists prefix zero ds,
       phone = prefix ++ zero ++ 53 :: ds /\
       (prefix = [] \/ prefix = lit "+90" \/
        exists w, space w = true /\ prefix = lit "+90" ++ [w]) /\
       (zero = [] \/ zero = [48]) /\
       length ds = 9%nat /\ forallb digit ds = true) /\
    (isValidTurkishMobile phone = true ->
     (10 <= length phone <= 15)%nat).
Proof.
  intro s.
  assert (Hiff : isValidTurkishMobile s = true <->
     exists prefix zero ds,
       s = prefix ++ zero ++ 53 :: ds /\
       (prefix = [] \/ prefix = lit "+90" \/
        exists w, space w = true /\ prefix = lit "+90" ++ [w]) /\
       (zero = [] \/ zero = [48]) /\
       length ds = 9%nat /\ forallb digit ds = true).
  { unfold isValidTurkishMobile, test, TURKISH_MOBILE.
    rewrite search_from_Start, orb_false_r.
    set (P := Seq (Class (one_of "+"))
                (Seq (Class (one_of "9"))
                   (Seq (Class (one_of "0")) (Optional (Class space))))).
    set (L := Seq (Optional (Class (one_of "0")))
                (Seq (Class (one_of "5")) (Seq (Repeat digit 9 (Some 9%nat)) End_))).
    change (match_at (Seq Start (Seq (Optional P) L)) true s (fun _ _ => true))
      with (match_at P true s (fun st' s' => match_at L st' s' (fun _ _ => true))
            || match_at L true s (fun _ _ => true)).
    rewrite orb_true_iff. subst P. rewrite plus90_at.
    pose proof (fun st x => mobile_local_at st x) as Hl. fold L in Hl.
    split.
    - intros [[rest [-> [[w [rest' [-> [Hw H]]]] | H]]] | H];
        apply Hl in H; destruct H as [zero [ds [-> H]]].
      + exists (lit "+90" ++ [w]), zero, ds.
        split; [reflexivity |]. split; [| exact H]. right. right. exists w. auto.
      + exists (lit "+90"), zero, ds.
        split; [reflexivity |]. split; [| exact H]. right. left. reflexivity.
      + exists [], zero, ds. split; [reflexivity |]. split; [| exact H]. left. reflexivity.
    - intros [prefix [zero [ds [-> [[-> | [-> | [w [Hw ->]]]] H]]]]].
      + right. apply Hl. exists zero, ds. split; [reflexivity | exact H].
      + left. exists (zero ++ 53 :: ds). split; [reflexivity |]. right.
        apply Hl. exists zero, ds. split; [reflexivity | exact H].
      + left. exists (w :: zero ++ 53 :: ds). split; [reflexivity |]. left.
        exists w, (zero ++ 53 :: ds). split; [reflexivity |]. split; [exact Hw |].
        apply Hl. exists zero, ds. split; [reflexivity | exact H]. }
  split; [exact Hiff |].
  intro H. apply Hiff in H.
  destruct H as [prefix [zero [ds [-> [Hp [Hz [Hl _]]]]]]].
  rewrite !length_app. cbn [length]. unfold jsstring, code_unit in *. rewrite Hl.
  destruct Hp as [-> | [-> | [w [_ ->]]]]; destruct Hz as [-> | ->]; cbn; lia.
Qed.

(** * Properties of the category methods *)

Lemma insert_by_name_In le c l x :
  In x (insert_by_name le c l) <-> x = c \/ In x l.
Proof.
  induction l as [| d l IH]; cbn.
  - intuition.
  - destruct (le (cat_name c) (cat_name d)); cbn; [intuition |].
    rewrite IH. intuition.
Qed.

Lemma order_by_name_In le l x : In x (order_by_name le l) <-> In x l.
Proof.
  unfold order_by_name. induction l as [| d l IH]; cbn; [tauto |].
  rewrite insert_by_name_In, IH. intuition.
Qed.

Lemma capped_In {A} cap (l : list A) x : In x (capped cap l) -> In x l.
Proof.
  destruct cap as [n |]; cbn; [| auto]. revert n.
  induction l as [| a l IH]; intros [| n]; cbn; try tauto.
  intros [H | H]; [left; exact H | right; apply (IH n); exact H].
Qed.

(** X20 - [getCategories] never shows a user the categories of another
    user: every row it returns is a stored category of the asking user, and
    of the asked type when a non-empty type is given; an empty type selects
    like no type at all.  When the response is not capped, every such
    category is returned.  The store is not changed. *)
Theorem getCategories_isolation :
  forall (env : FinanceEnv) (userId : string) (type : option string) (db : FinanceDB),
    snd (getCategories env userId type db) = db /\
    getCategories env userId (Some "") db = getCategories env userId None db /\
    (forall rows c,
        fst (getCategories env userId type db) = Returns rows -> In c rows ->
        In c (categories db) /\ cat_user_id c = userId /\
        (forall t, type = Some t -> t <> "" -> cat_type c = t)) /\
    (forall rows c,
        fst (getCategories env userId type db) = Returns rows ->
        max_rows env = None ->
        In c (categories db) -> cat_user_id c = userId ->
        (forall t, type = Some t -> cat_type c = t) ->
        In c rows).
Proof.
  intros env userId type db. unfold getCategories.
  split; [destruct (fin_storage_error env SelectCategories); reflexivity |].
  split; [reflexivity |].
  destruct (fin_storage_error env SelectCategories) as [e |].
  - split; intros rows c H; discriminate H.
  - cbn [fst]. split.
    + intros rows c H Hin. injection H as <-.
      apply capped_In, order_by_name_In, filter_In in Hin. destruct Hin as [Hin Hf].
      split; [exact Hin |].
      destruct type as [t |].
      * destruct (String.eqb t "") eqn:Et.
        -- apply String.eqb_eq in Hf. split; [exact Hf |].
           intros t' Ht' Hne. injection Ht' as <-. apply String.eqb_eq in Et. contradiction.
        -- apply andb_true_iff in Hf. destruct Hf as [Hu Ht].
           apply String.eqb_eq in Hu. apply String.eqb_eq in Ht.
           split; [exact Hu |]. intros t' Ht' _. injection Ht' as <-. exact Ht.
      * apply String.eqb_eq in Hf. split; [exact Hf |]. intros t' Ht'. discriminate Ht'.
    + intros rows c H Hcap Hin Hu Ht. injection H as <-. rewrite Hcap. cbn [capped].
      apply order_by_name_In, filter_In. split; [exact Hin |].
      destruct type as [t |].
      * destruct (String.eqb t ""); [apply String.eqb_eq; exact Hu |].
        apply andb_true_iff. split; apply String.eqb_eq; auto.
      * apply String.eqb_eq. exact Hu.
Qed.

Lemma createCategory_run env userId dto db :
  createCategory env userId dto db =
  let values := mkCategoryValues userId (cc_name dto) (cc_type dto)
                  (or_default (cc_color dto) "#3B82F6")
                  (or_default (cc_icon dto) "category") false in
  let row := category_row env 0 values in
  match fin_storage_error env InsertCategory with
  | Some e =>
      (Throws (FinanceBadRequest ("Failed to create category: " ++ message e)%string), db)
  | None =>
      match category_violation db row with
      | Some msg =>
          (Throws (FinanceBadRequest ("Failed to create category: " ++ msg)%string), db)
      | None =>
          (Returns (Some row), mkFinanceDB (fin_users db) (categories db ++ [row]))
      end
  end.
Proof.
  unfold createCategory. cbv zeta.
  destruct (fin_storage_error env InsertCategory); [reflexivity |].
  cbn [insert_categories].
  destruct (category_violation db _); reflexivity.
Qed.

Lemma category_violation_None db row :
  category_violation db row = None ->
  has_category db (cat_id row) = false /\ has_user db (cat_user_id row) = true /\
  type_check (cat_type row) = true.
Proof.
  unfold category_violation.
  destruct (has_category db (cat_id row)); [discriminate |].
  destruct (has_user db (cat_user_id row)); [| discriminate].
  destruct (type_check (cat_type row)); [auto | discriminate].
Qed.

(** X21 - A [createCategory] that returns has added exactly one row, the
    one it returns: it belongs to the caller, who is a stored user, carries
    the name and the type of the request, a type among income, expense and
    transfer, the requested color and icon or `#3B82F6` and `category` when
    they are absent or empty, and is not a default category.  A later
    [getCategories] of the same user, answered without cap, returns it.  A
    [createCategory] that throws has written nothing. *)
Theorem createCategory_postcondition :
  forall (env : FinanceEnv) (userId : string) (dto : CreateCategoryDto) (db : FinanceDB),
    (forall r db', createCategory env userId dto db = (Returns r, db') ->
       exists c,
         r = Some c /\
         categories db' = categories db ++ [c] /\
         fin_users db' = fin_users db /\
         has_user db userId = true /\
         cat_user_id c = userId /\
         cat_name c = cc_name dto /\
         cat_type c = cc_type dto /\
         type_check (cc_type dto) = true /\
         cat_color c = Some (or_default (cc_color dto) "#3B82F6") /\
         cat_icon c = Some (or_default (cc_icon dto) "category") /\
         cat_is_default c = Some false /\
         forall env' rows,
           max_rows env' = None ->
           fst (getCategories env' userId None db') = Returns rows ->
           In c rows) /\
    (forall e db', createCategory env userId dto db = (Throws e, db') ->
       db' = db /\
       exists msg, e = FinanceBadRequest ("Failed to create category: " ++ msg)%string).
Proof.
  intros env userId dto db. rewrite createCategory_run. cbv zeta.
  set (row := category_row env 0 _).
  destruct (fin_storage_error env InsertCategory) as [e0 |].
  - split; [intros r db' H; discriminate H |].
    intros e db' H. injection H as <- <-. split; [reflexivity |]. eexists. reflexivity.
  - destruct (category_violation db row) as [msg |] eqn:Hv.
    + split; [intros r db' H; discriminate H |].
      intros e db' H. injection H as <- <-. split; [reflexivity |]. eexists. reflexivity.
    + split; [| intros e db' H; discriminate H].
      intros r db' H. injection H as <- <-. exists row.
      destruct (category_violation_None _ _ Hv) as [_ [Hu Ht]].
      cbn [categories fin_users].
      repeat (split; [first [reflexivity | exact Hu | exact Ht] |]).
      intros env' rows Hcap Hg. unfold getCategories in Hg. rewrite Hcap in Hg.
      destruct (fin_storage_error env' SelectCategories); [discriminate Hg |].
      injection Hg as <-. cbn [capped categories].
      apply order_by_name_In, filter_In. split.
      * apply in_or_app. right. left. reflexivity.
      * cbn. apply String.eqb_refl.
Qed.

(** X22 - [deleteCategory] removes exactly the categories that carry the
    given id and belong to the caller: a category of another user, or with
    another id, stays.  Matching nothing is not an error: the call returns
    normally and the store is as it was.  The call throws, and then a
    [NotFoundException], only when the store reports an error, and then
    nothing is deleted either. *)
Theorem deleteCategory_ownership :
  forall (env : FinanceEnv) (userId categoryId : string) (db : FinanceDB),
    let db' := snd (deleteCategory env userId categoryId db) in
    fin_users db' = fin_users db /\
    (forall c, In c (categories db') <->
               In c (categories db) /\
               (fin_storage_error env DeleteCategory = None ->
                cat_id c <> categoryId \/ cat_user_id c <> userId)) /\
    (fin_storage_error env DeleteCategory = None ->
     fst (deleteCategory env userId categoryId db) = Returns tt) /\
    (fin_storage_error env DeleteCategory = None ->
     (forall c, In c (categories db) ->
                cat_id c <> categoryId \/ cat_user_id c <> userId) ->
     deleteCategory env userId categoryId db = (Returns tt, db)) /\
    (forall e, fin_storage_error env DeleteCategory = Some e ->
     deleteCategory env userId categoryId db =
     (Throws (FinanceNotFound
                ("Category not found or failed to delete: " ++ message e)%string), db)).
Proof.
  intros env userId categoryId db. cbv zeta. unfold deleteCategory.
  assert (Hkeep : forall c,
             negb (String.eqb (cat_id c) categoryId && String.eqb (cat_user_id c) userId)
             = true <-> cat_id c <> categoryId \/ cat_user_id c <> userId).
  { intro c. rewrite negb_true_iff, andb_false_iff, !String.eqb_neq. tauto. }
  destruct (fin_storage_error env DeleteCategory) as [e0 |].
  - cbn [fst snd]. split; [reflexivity |]. split.
    + intro c. split; [intro H; split; [exact H | discriminate] | tauto].
    + split; [discriminate |]. split; [discriminate |].
      intros e He. injection He as <-. reflexivity.
  - cbn [fst snd fin_users categories]. split; [reflexivity |]. split.
    + intro c. rewrite filter_In, Hkeep. split.
      * intros [H1 H2]. auto.
      * intros [H1 H2]. auto.
    + split; [reflexivity |]. split; [| discriminate].
      intros _ Hall. f_equal. destruct db as [us cs]. cbn [fin_users categories] in *.
      f_equal. apply filter_all_true. intros c Hc. apply Hkeep. auto.
Qed.

(** X23 - [updateCategory] with an id that no category of the caller
    carries throws a [NotFoundException] and changes nothing, so a user
    cannot change the category of another.  When it returns, the returned
    row is the stored category of that id and user with the given name,
    color and icon in place of the old ones, [updated_at] set to the clock
    of the call, and its id, owner, type, default flag and creation time
    unchanged; categories of other users are as they were. *)
Theorem updateCategory_ownership :
  forall (env : FinanceEnv) (userId categoryId : string) (dto : UpdateCategoryDto)
         (db : FinanceDB),
    ((forall c, In c (categories db) ->
                cat_id c <> categoryId \/ cat_user_id c <> userId) ->
     exists msg,
       updateCategory env userId categoryId dto db =
       (Throws (FinanceNotFound ("Category not found or failed to update: " ++ msg)%string),
        db)) /\
    (forall e db', updateCategory env userId categoryId dto db = (Throws e, db') ->
                   db' = db) /\
    (forall r db', updateCategory env userId categoryId dto db = (Returns r, db') ->
       exists c,
         In c (categories db) /\ cat_id c = categoryId /\ cat_user_id c = userId /\
         r = Some (apply_update dto (fin_now env) c) /\
         fin_users db' = fin_users db /\
         length (categories db') = length (categories db) /\
         (forall x, In x (categories db) -> cat_user_id x <> userId ->
                    In x (categories db'))).
Proof.
  intros env userId categoryId dto db. unfold updateCategory. cbv zeta.
  set (filters := fun c => String.eqb (cat_id c) categoryId
                           && String.eqb (cat_user_id c) userId).
  destruct (fin_storage_error env UpdateCategory) as [e0 |].
  - cbn [fst snd error data]. split; [| split].
    + intros _. eexists. reflexivity.
    + intros e db' H. injection H as _ <-. reflexivity.
    + intros r db' H. discriminate H.
  - destruct (filter filters (categories db)) as [| c [| d rest]] eqn:Hf;
      cbn [fst snd error data fail succeed].
    + split; [| split].
      * intros _. eexists. reflexivity.
      * intros e db' H. injection H as _ <-. reflexivity.
      * intros r db' H. discriminate H.
    + assert (Hc : In c (categories db) /\ filters c = true).
      { apply filter_In. rewrite Hf. left. reflexivity. }
      destruct Hc as [Hin Hc]. unfold filters in Hc.
      apply andb_true_iff in Hc. destruct Hc as [Hid Hu].
      apply String.eqb_eq in Hid. apply String.eqb_eq in Hu.
      split; [| split].
      * intro Hall. destruct (Hall c Hin); contradiction.
      * intros e db' H. discriminate H.
      * intros r db' H. injection H as <- <-. exists c.
        cbn [fin_users categories].
        split; [exact Hin |]. split; [exact Hid |]. split; [exact Hu |].
        split; [reflexivity |]. split; [reflexivity |]. split; [apply length_map |].
        intros x Hx Hne. apply in_map_iff. exists x. split; [| exact Hx].
        assert (Ex : String.eqb (cat_id x) categoryId && String.eqb (cat_user_id x) userId
                     = false).
        { apply andb_false_iff. right. apply String.eqb_neq. exact Hne. }
        rewrite Ex. reflexivity.
    + split; [| split].
      * intro Hall. exfalso.
        assert (Hc : In c (categories db) /\ filters c = true).
        { apply filter_In. rewrite Hf. left. reflexivity. }
        destruct Hc as [Hin Hc]. unfold filters in Hc.
        apply andb_true_iff in Hc. destruct Hc as [Hid Hu].
        apply String.eqb_eq in Hid. apply String.eqb_eq in Hu.
        destruct (Hall c Hin); contradiction.
      * intros e db' H. injection H as _ <-. reflexivity.
      * intros r db' H. discriminate H.
Qed.

Lemma insert_categories_shape env vs : forall n db,
  match insert_categories env n vs db with
  | inl _ => True
  | inr db' =>
      fin_users db' = fin_users db /\
      exists rows,
        categories db' = categories db ++ rows /\
        map cat_user_id rows = map v_user_id vs /\
        map cat_type rows = map v_type vs /\
        map cat_name rows = map v_name vs /\
        map cat_is_default rows = map (fun v => Some (v_is_default v)) vs /\
        (forall r, In r rows -> has_user db (cat_user_id r) = true /\
                                type_check (cat_type r) = true)
  end.
Proof.
  induction vs as [| v vs IH]; intros n db; cbn [insert_categories].
  - split; [reflexivity |]. exists []. rewrite app_nil_r.
    do 5 (split; [reflexivity |]). intros r [].
  - destruct (category_violation db (category_row env n v)) eqn:Hv; [exact I |].
    destruct (category_violation_None _ _ Hv) as [_ [Hu Ht]].
    specialize (IH (S n) (mkFinanceDB (fin_users db)
                            (categories db ++ [category_row env n v]))).
    destruct (insert_categories env (S n) vs _) as [msg | db']; [exact I |].
    destruct IH as [Hus [rows [Hc [H1 [H2 [H3 [H4 H5]]]]]]].
    cbn [fin_users categories] in *. split; [exact Hus |].
    exists (category_row env n v :: rows).
    rewrite Hc, <- app_assoc. cbn [app map category_row cat_user_id cat_type cat_name
                                     cat_is_default].
    rewrite H1, H2, H3, H4. do 5 (split; [reflexivity |]).
    intros r [<- | Hr]; [cbn; auto |].
    destruct (H5 r Hr) as [H6 H7]. split; [| exact H7].
    unfold has_user in *. cbn [fin_users] in H6. exact H6.
Qed.

(** X24 - [createDefaultCategories] never throws.  It leaves the store as
    it was, or adds ten categories after those that were there: all belong
    to the given user, who is then a stored user, all are default
    categories, and their names and types are those of the list, three of
    income followed by seven of expense.  When the store reports an error,
    or the user is not stored, nothing is added. *)
Theorem createDefaultCategories_postcondition :
  forall (env : FinanceEnv) (userId : string) (db : FinanceDB),
    let db' := snd (createDefaultCategories env userId db) in
    fst (createDefaultCategories env userId db) = Returns tt /\
    (db' = db \/
     (fin_users db' = fin_users db /\
      has_user db userId = true /\
      exists rows,
        categories db' = categories db ++ rows /\
        length rows = 10%nat /\
        (forall r, In r rows -> cat_user_id r = userId /\
                                cat_is_default r = Some true) /\
        map cat_name rows =
          ["Salary"; "Freelance"; "Investment"; "Food & Dining"; "Transportation";
           "Shopping"; "Healthcare"; "Entertainment"; "Utilities"; "Housing"] /\
        map cat_type rows =
          ["income"; "income"; "income"; "expense"; "expense"; "expense"; "expense";
           "expense"; "expense"; "expense"])) /\
    (fin_storage_error env InsertDefaultCategories <> None \/ has_user db userId = false ->
     db' = db).
Proof.
  intros env userId db. cbv zeta. unfold createDefaultCategories.
  set (vs := map _ defaultCategories).
  destruct (fin_storage_error env InsertDefaultCategories) as [e0 |].
  - cbn [fst snd]. split; [reflexivity |]. split; [left; reflexivity | auto].
  - pose proof (insert_categories_shape env vs 0 db) as Hs.
    destruct (insert_categories env 0 vs db) as [msg | db'] eqn:Hi.
    + cbn [fst snd]. split; [reflexivity |]. split; [left; reflexivity | auto].
    + cbn [fst snd]. split; [reflexivity |].
      destruct Hs as [Hus [rows [Hc [H1 [H2 [H3 [H4 H5]]]]]]].
      assert (Hlen : length rows = 10%nat).
      { rewrite <- (length_map cat_user_id), H1, length_map. reflexivity. }
      assert (Hall : forall r, In r rows -> cat_user_id r = userId /\
                                            cat_is_default r = Some true).
      { intros r Hr. split.
        - assert (In (cat_user_id r) (map cat_user_id rows)) as Hm by (apply in_map; exact Hr).
          rewrite H1 in Hm. subst vs. cbn in Hm.
          repeat (destruct Hm as [Hm | Hm]; [symmetry; exact Hm |]). contradiction.
        - assert (In (cat_is_default r) (map cat_is_default rows)) as Hm
            by (apply in_map; exact Hr).
          rewrite H4 in Hm. subst vs. cbn in Hm.
          repeat (destruct Hm as [Hm | Hm]; [symmetry; exact Hm |]). contradiction. }
      assert (Huser : has_user db userId = true).
      { destruct rows as [| r rows']; [discriminate Hlen |].
        destruct (H5 r (or_introl eq_refl)) as [Hu _].
        destruct (Hall r (or_introl eq_refl)) as [E _]. rewrite E in Hu. exact Hu. }
      split.
      * right. split; [exact Hus |]. split; [exact Huser |]. exists rows.
        split; [exact Hc |]. split; [exact Hlen |]. split; [exact Hall |].
        rewrite H3, H2. subst vs. split; reflexivity.
      * intros [Hne | Hno]; [contradiction Hne; reflexivity |].
        rewrite Huser in Hno. discriminate Hno.
Qed.

(** ** The concrete run of the category methods *)

Example ex_createCategory :
  createCategory (ex_fin_env 1000 "a") "alice"
    (mkCreateCategoryDto "Books" "expense" None (Some "")) ex_fin_db0
  = (Returns (Some (mkCategoryRow "a-0" "alice" "Books" "expense" (Some "#3B82F6")
                      (Some "category") (Some false) 1000 1000)),
     ex_fin_db1).
Proof. vm_compute. reflexivity. Qed.

Example ex_createCategory_bad_type :
  createCategory (ex_fin_env 1000 "a") "alice"
    (mkCreateCategoryDto "Books" "gift" None None) ex_fin_db0
  = (Throws (FinanceBadRequest
               "Failed to create category: new row for relation categories violates check constraint categories_type_check"),
     ex_fin_db0).
Proof. vm_compute. reflexivity. Qed.

Example ex_getCategories :
  fst (getCategories (ex_fin_env 3000 "c") "alice" None ex_fin_db2)
  = Returns [mkCategoryRow "a-0" "alice" "Books" "expense" (Some "#3B82F6")
               (Some "category") (Some false) 1000 1000].
Proof. vm_compute. reflexivity. Qed.

Example ex_updateCategory_foreign :
  updateCategory (ex_fin_env 3000 "c") "bob" "a-0"
    (mkUpdateCategoryDto (Some "Stolen") None None) ex_fin_db2
  = (Throws (FinanceNotFound
               "Category not found or failed to update: JSON object requested, multiple (or no) rows returned"),
     ex_fin_db2).
Proof. vm_compute. reflexivity. Qed.

Example ex_updateCategory_own :
  fst (updateCategory (ex_fin_env 3000 "c") "alice" "a-0"
         (mkUpdateCategoryDto (Some "Reading") None None) ex_fin_db2)
  = Returns (Some (mkCategoryRow "a-0" "alice" "Reading" "expense" (Some "#3B82F6")
                     (Some "category") (Some false) 1000 3000)).
Proof. vm_compute. reflexivity. Qed.

Example ex_deleteCategory_foreign :
  deleteCategory (ex_fin_env 3000 "c") "bob" "a-0" ex_fin_db2 = (Returns tt, ex_fin_db2).
Proof. vm_compute. reflexivity. Qed.

Example ex_createDefaultCategories :
  length (categories (snd (createDefaultCategories (ex_fin_env 3000 "d") "alice" ex_fin_db2)))
  = 12%nat /\
  snd (createDefaultCategories (ex_fin_env 3000 "d") "carol" ex_fin_db2) = ex_fin_db2.
Proof. vm_compute. split; reflexivity. Qed.
